(** * The NVDA update engine ([source/updateCheck.py]): a shallow embedding

    The development follows the layout of the Python module:

    - [UpdateInfo]         the descriptor and [parseUpdateCheckResponse];
    - [checkForUpdate]     the query client (parameters, status, empty body);
    - the persisted [state] dictionary, [_setStateToNone], [getPendingUpdate],
      [saveState], [_executeUpdate], [_generate_updateParameters];
    - [UpdateChecker] / [AutoUpdateChecker]   the background check and the timer;
    - [UpdateDownloader]   the multi-mirror download loop;
    - [initialize]         start-up.

    Python [str] values are sequences of Unicode code points, the module-level
    [state] is a dictionary, exceptions are results [Raise e], and everything
    the module does to the outside world (log, GUI calls, timer, disk) is
    recorded in an explicit trace or store that is threaded through. *)

From Stdlib Require Import ZArith QArith Qround Qminmax List Ascii String.
From stdpp Require Import base option list gmap strings pretty.

Set Default Proof Using "Type".
Local Open Scope Z_scope.

(** ** Python strings *)

(** A [str] is a list of code points. *)
Definition str := list N.

(** [py "abc"] is the Python literal ["abc"]. *)
Definition py (s : string) : str := map N_of_ascii (list_ascii_of_string s).
Arguments py : simpl never.

(** ** Exceptions and results *)

Inductive exn :=
| ValueError_InvalidLine (line : str)
  (* f"Invalid line format in update response: {line}" *)
| ValueError_MissingKeys (keys : gset str)
  (* f"Missing required key(s): {', '.join(requiredKeys)}"; [requiredKeys] is a
     Python set, so the message lists its members in no specified order *)
| TypeError_kwargs
  (* cls( **metadata ) called without a required argument *)
| RuntimeError_StatusCode (code : Z)
  (* f"Checking for update failed with HTTP status code {code}." *)
| RuntimeError_InvalidResponse
  (* "The update response is invalid. Ensure the update mirror ..." *)
| RuntimeError_DownloadCode (code : Z)
  (* "Download failed with code %d" *)
| RuntimeError_ContentTooShort
  (* "Content too short" *)
| RuntimeError_BadHash
  (* "Content has incorrect file hash" *)
| KeyError (key : string)
| TypeError_value (what : string)
| IndexError
| UnicodeDecodeError
| URLError
  (* any exception of the network layer: urlopen, read, the fetch helper *)
| OSError
| AttributeError
  (* 'NoneType' object has no attribute 'IsRunning' *)
| UnboundLocalError.
  (* cannot access local variable 'f' where it is not associated with a value *)

Inductive result (A : Type) :=
| Ok (a : A)
| Raise (e : exn).
Arguments Ok {A} a.
Arguments Raise {A} e.

#[global] Instance result_ret : MRet result := λ A a, Ok a.
#[global] Instance result_bind : MBind result := λ A B f m,
  match m with Ok a => f a | Raise e => Raise e end.

(** ** [UpdateInfo] and the response parser *)

Module UpdateInfo.

Record t := mk {
  version : str;
  launcherUrl : str;
  apiVersion : str;
  launcherHash : option str;
  apiCompatTo : option str;
  changesUrl : option str;
  launcherInteractiveUrl : option str;
}.

(** [inspect.signature(cls).parameters]: the dataclass fields in declaration
    order, each with [true] when it has no default. *)
Definition parameters : list (str * bool) :=
  [ (py "version", true); (py "launcherUrl", true); (py "apiVersion", true);
    (py "launcherHash", false); (py "apiCompatTo", false);
    (py "changesUrl", false); (py "launcherInteractiveUrl", false) ].

Definition knownKeys : gset str := list_to_set (fst <$> parameters).

Definition requiredKeys : gset str :=
  list_to_set (fst <$> filter (λ p, snd p = true) parameters).

(** [str.splitlines()]: the line boundaries of Python's [str] type. *)
Definition is_linebreak (c : N) : bool :=
  existsb (N.eqb c) [10; 13; 11; 12; 28; 29; 30; 133; 8232; 8233]%N.

(** [str.splitlines()] without [keepends]: a line ends at a boundary, CR LF
    counts as one boundary, and no empty line is produced after the last
    boundary. *)
Fixpoint splitlines (s : str) : list str :=
  match s with
  | [] => []
  | c :: rest =>
    if is_linebreak c then
      [] :: (if N.eqb c 13
             then match rest with
                  | c' :: rest' => if N.eqb c' 10 then splitlines rest' else splitlines rest
                  | [] => splitlines rest
                  end
             else splitlines rest)
    else
      match splitlines rest with
      | [] => [[c]]
      | l :: ls => (c :: l) :: ls
      end
  end.

(** [line.split(": ", 1)] unpacked into [key, val]: [None] stands for the
    [ValueError] of unpacking a one-element list. *)
Fixpoint split_once (line : str) : option (str * str) :=
  match line with
  | [] => None
  | c :: rest =>
    match rest with
    | c' :: rest' =>
      if N.eqb c 58 && N.eqb c' 32 then Some ([], rest')
      else prod_map (cons c) id <$> split_once rest
    | [] => None
    end
  end.

(** The [for line in data.splitlines()] loop; [metadata] is the dict being
    filled.  The [log.debug] call of the [else] branch only writes to the log
    and is left out. *)
Fixpoint parse_loop (lines : list str) (metadata : gmap str str)
  : result (gmap str str) :=
  match lines with
  | [] => Ok metadata
  | line :: lines' =>
    match split_once line with
    | None => Raise (ValueError_InvalidLine line)
    | Some (key, val) =>
      if decide (key ∈ knownKeys)
      then parse_loop lines' (<[key := val]> metadata)
      else parse_loop lines' metadata
    end
  end.

(** [cls( **metadata )] for a dict whose keys are all known. *)
Definition of_kwargs (metadata : gmap str str) : result t :=
  match metadata !! py "version", metadata !! py "launcherUrl",
        metadata !! py "apiVersion" with
  | Some v, Some u, Some a =>
    Ok {| version := v; launcherUrl := u; apiVersion := a;
          launcherHash := metadata !! py "launcherHash";
          apiCompatTo := metadata !! py "apiCompatTo";
          changesUrl := metadata !! py "changesUrl";
          launcherInteractiveUrl := metadata !! py "launcherInteractiveUrl" |}
  | _, _, _ => Raise TypeError_kwargs
  end.

Definition parseUpdateCheckResponse (data : str) : result t :=
  metadata ← parse_loop (splitlines data) ∅;
  let requiredKeys := requiredKeys ∖ dom metadata in
  if decide (requiredKeys = ∅)
  then of_kwargs metadata
  else Raise (ValueError_MissingKeys requiredKeys).

(** *** Specification-side vocabulary *)

(** The line contains the [": "] separator. *)
Definition has_separator (line : str) : Prop :=
  ∃ a b, line = a ++ py ": " ++ b.

(** The value the response gives to [key]: that of the last line whose key
    is [key]. *)
Fixpoint field_of (key : str) (lines : list str) : option str :=
  match lines with
  | [] => None
  | line :: lines' =>
    match field_of key lines' with
    | Some v => Some v
    | None =>
      match split_once line with
      | Some (k, v) => if decide (k = key) then Some v else None
      | None => None
      end
    end
  end.

End UpdateInfo.


(** ** Values, the environment and the world *)

Abbreviation bytes := (list Byte.byte).

(** [bytes.decode("utf-8")] (strict): [None] stands for [UnicodeDecodeError]. *)
Definition is_continuation (b : N) : bool := ((128 <=? b) && (b <=? 191))%N.

Fixpoint decode_utf8_N (bs : list N) : option str :=
  match bs with
  | [] => Some []
  | b0 :: r0 =>
    if (b0 <? 128)%N then cons b0 <$> decode_utf8_N r0
    else if ((194 <=? b0) && (b0 <=? 223))%N then
      match r0 with
      | b1 :: r1 =>
        if is_continuation b1
        then cons ((b0 - 192) * 64 + (b1 - 128))%N <$> decode_utf8_N r1
        else None
      | _ => None
      end
    else if ((224 <=? b0) && (b0 <=? 239))%N then
      match r0 with
      | b1 :: b2 :: r2 =>
        if is_continuation b1 && is_continuation b2
           && negb ((b0 =? 224) && (b1 <? 160))%N
           && negb ((b0 =? 237) && (160 <=? b1))%N
        then cons ((b0 - 224) * 4096 + (b1 - 128) * 64 + (b2 - 128))%N
               <$> decode_utf8_N r2
        else None
      | _ => None
      end
    else if ((240 <=? b0) && (b0 <=? 244))%N then
      match r0 with
      | b1 :: b2 :: b3 :: r3 =>
        if is_continuation b1 && is_continuation b2 && is_continuation b3
           && negb ((b0 =? 240) && (b1 <? 144))%N
           && negb ((b0 =? 244) && (144 <=? b1))%N
        then cons ((b0 - 240) * 262144 + (b1 - 128) * 4096
                   + (b2 - 128) * 64 + (b3 - 128))%N <$> decode_utf8_N r3
        else None
      | _ => None
      end
    else None
  end.

Definition decode_utf8 (content : bytes) : result str :=
  match decode_utf8_N (Byte.to_N <$> content) with
  | Some s => Ok s
  | None => Raise UnicodeDecodeError
  end.

(** The Python values that occur in the [state] dictionary and in the query
    parameters.  Timestamps are rationals: every float is one; the rounding of
    float arithmetic is not modelled. *)
Inductive value :=
| VNone
| VBool (b : bool)
| VStr (s : str)
| VNum (q : Q)
| VTuple (t : Z * Z * Z).

(** Truth value testing ([if x], [x or y]). *)
Definition truthy (v : value) : bool :=
  match v with
  | VNone => false
  | VBool b => b
  | VStr s => negb (bool_decide (s = []))
  | VNum q => negb (Qeq_bool q 0)
  | VTuple _ => true
  end.

(** [v == s] for a string [s]. *)
Definition eq_str (v : value) (s : str) : bool :=
  match v with VStr s' => bool_decide (s' = s) | _ => false end.

(** An insertion-ordered dictionary with string keys, as built for the query
    parameters: [d[k] = v] keeps the position of an existing key. *)
Fixpoint dict_set (k : string) (v : value) (d : list (string * value))
  : list (string * value) :=
  match d with
  | [] => [(k, v)]
  | (k', v') :: d' =>
    if decide (k' = k) then (k, v) :: d' else (k', v') :: dict_set k v d'
  end.

Definition dict_update (d extra : list (string * value)) : list (string * value) :=
  foldl (λ acc kv, dict_set kv.1 kv.2 acc) d extra.

(** A synth driver or braille display class, as far as
    [getQualifiedDriverClassNameForStats] looks at it. *)
Record driverClass := {
  drv_name : str;              (* cls.name *)
  drv_addon : option str;      (* getCodeAddon(cls).name; None on AddonError *)
  drv_external : bool;         (* isPathExternalToNVDA(inspect.getsourcefile(cls)) *)
}.

(** An HTTP response as the fetch helper returns it. *)
Record response := {
  status_code : Z;
  content : bytes;
}.

(** What [urllib.request.urlopen] returns for a mirror. *)
Record remote := {
  code : Z;
  headers_content_length : option Z;  (* int(headers["content-length"]); None when absent or not a number *)
  body : bytes;                 (* the bytes the connection delivers *)
  body_broken : bool;           (* the stream ends in an I/O error instead of EOF *)
}.

(** The declared length when it is a natural number: [int] also accepts a
    negative one. *)
Definition content_length (r : remote) : option nat :=
  match headers_content_length r with
  | Some z => if 0 <=? z then Some (Z.to_nat z) else None
  | None => None
  end.

(** Everything the module reads but does not own. *)
Record environment := {
  (* config.conf *)
  conf_serverURL : str;
  conf_allowUsageStats : bool;
  conf_autoCheck : bool;
  conf_startupNotification : bool;
  conf_translationTable : str;
  (* config, globalVars, NVDAState.WritePaths, versionInfo *)
  isInstalledCopy : bool;
  appDir : str;
  appDir_writable : bool;       (* os.access(globalVars.appDir, os.W_OK) *)
  disableAddons : bool;         (* globalVars.appArgs.disableAddons *)
  launcher : bool;              (* globalVars.appArgs.launcher *)
  configDir : str;              (* WritePaths.configDir *)
  storeUpdatesDir : str;        (* WritePaths.updatesDir *)
  running_version : str;        (* versionInfo.version *)
  updateVersionType : str;      (* versionInfo.updateVersionType *)
  (* sys.getwindowsversion(), os.environ *)
  win_major : Z; win_minor : Z; win_build : Z;
  service_pack_major : Z; service_pack_minor : Z;
  product_type : Z;
  PROCESSOR_ARCHITEW6432 : option str;
  (* languageHandler, synthDriverHandler, braille *)
  language : str;
  synthDriverClass : driverClass;
  brailleDisplayClass : option driverClass;  (* None when there is no braille.handler *)
  (* the network *)
  fetch : str → list (string * value) → result response;
  urlopen : str → result remote;
  (* hashlib *)
  sha1_hexdigest : bytes → str;
  (* the clocks, uuid4 and the GUI thread, read through a counter of the world *)
  clock : nat → Q;              (* time.time() *)
  year_month : Q → Z * Z;       (* (d.year, d.month) of datetime.fromtimestamp *)
  uuid4_hex : nat → str;
  cancel_requested : nat → bool; (* what the n-th look of the worker at the cancellation sees,
                                    see [shouldCancel] and [guiExecTimer_gone] *)
  (* the file system outside the module's control *)
  stateFile_writable : bool;
  stateFile_opens : bool;       (* open(updateCheckStateFile, "rb") succeeds, where the state cannot be loaded *)
  storeUpdatesDir_listable : bool;       (* os.listdir(storeUpdatesDir) does not raise *)
  listdir_storeUpdatesDir : list str;    (* what os.listdir(storeUpdatesDir) returns, when it does not raise *)
  join_storeUpdatesDir : str → str;  (* os.path.join(storeUpdatesDir, name) *)
}.

Inductive gui_call :=
| UpdateResultDialog (info : option UpdateInfo.t) (auto : bool)
| ProgressDialog_done
| ErrorMessageBox (mirror : option str)
| Timer_Stop
| Timer_Start (ms : Z) (oneShot : bool)
| DownloadReport (read : nat) (size : Z)
| DownloadError
| DownloadSuccess.

Inductive event :=
| EvLog (level : string) (msg : str)
| EvCallAfter (c : gui_call)            (* wx.CallAfter(...) *)
| EvGuiExec (c : gui_call)              (* UpdateDownloader._guiExec(...) *)
| EvTimerStart (ms : Z) (oneShot : bool) (* self._checkTimer.Start(...) *)
| EvPickleDump (st : gmap string value) (* the state file has been rewritten *)
| EvQueueShutdown (destPath params : str) (* the host queued its shutdown and the relaunch *)
| EvFetch (url : str) (params : list (string * value)) (* the update-check request *)
| EvUrlopen (url : str).

Record world := mkWorld {
  state : gmap string value;            (* the module global [state] *)
  stateFile : option (gmap string value); (* the pickled state on disk, None when absent or unreadable *)
  files : gmap str bytes;               (* regular files by path *)
  autoChecker : bool;                   (* the global [autoChecker] is set *)
  shuttingDown : bool;                  (* the host has a shutdown queued *)
  ticks : nat;
  uuids : nat;
  polls : nat;
  trace : list event;
}.

(** ** The monad of module code: a world is threaded, an exception keeps the
    world it was raised in. *)

Definition M (A : Type) : Type := world → result A * world.

#[global] Instance M_ret : MRet M := λ A a w, (Ok a, w).
#[global] Instance M_bind : MBind M := λ A B f m w,
  match m w with
  | (Ok a, w') => f a w'
  | (Raise e, w') => (Raise e, w')
  end.

#[global] Instance M_fmap : FMap M := λ A B f m w,
  match m w with
  | (Ok a, w') => (Ok (f a), w')
  | (Raise e, w') => (Raise e, w')
  end.

Definition raise {A} (e : exn) : M A := λ w, (Raise e, w).
Definition lift {A} (r : result A) : M A := λ w, (r, w).

(** [try: m except: h] with a bare [except]. *)
Definition try_except {A} (m : M A) (h : exn → M A) : M A := λ w,
  match m w with
  | (Ok a, w') => (Ok a, w')
  | (Raise e, w') => h e w'
  end.

Definition emit (e : event) : M unit := λ w,
  (Ok (), mkWorld (state w) (stateFile w) (files w) (autoChecker w)
            (shuttingDown w) (ticks w) (uuids w) (polls w) (trace w ++ [e])).

Definition get_state : M (gmap string value) := λ w, (Ok (state w), w).
Definition put_state (st : gmap string value) : M unit := λ w,
  (Ok (), mkWorld st (stateFile w) (files w) (autoChecker w)
            (shuttingDown w) (ticks w) (uuids w) (polls w) (trace w)).

Definition get_files : M (gmap str bytes) := λ w, (Ok (files w), w).
Definition put_files (fs : gmap str bytes) : M unit := λ w,
  (Ok (), mkWorld (state w) (stateFile w) fs (autoChecker w)
            (shuttingDown w) (ticks w) (uuids w) (polls w) (trace w)).

(** [state[key]] *)
Definition state_get (key : string) : M value :=
  st ← get_state;
  match st !! key with
  | Some v => mret v
  | None => raise (KeyError key)
  end.

(** [state[key] = v] *)
Definition state_set (key : string) (v : value) : M unit :=
  st ← get_state; put_state (<[key := v]> st).

(** [time.time()] *)
Definition time_time (env : environment) : M Q := λ w,
  (Ok (clock env (ticks w)),
   mkWorld (state w) (stateFile w) (files w) (autoChecker w)
     (shuttingDown w) (S (ticks w)) (uuids w) (polls w) (trace w)).

(** [uuid4().hex] *)
Definition uuid4 (env : environment) : M str := λ w,
  (Ok (uuid4_hex env (uuids w)),
   mkWorld (state w) (stateFile w) (files w) (autoChecker w)
     (shuttingDown w) (ticks w) (S (uuids w)) (polls w) (trace w)).

(** One read of [self._shouldCancel], which the GUI thread may have set. *)
Definition shouldCancel (env : environment) : M bool := λ w,
  (Ok (cancel_requested env (polls w)),
   mkWorld (state w) (stateFile w) (files w) (autoChecker w)
     (shuttingDown w) (ticks w) (uuids w) (S (polls w)) (trace w)).

(** One look at [self._guiExecTimer], which is [None] once the timer is
    gone.  During [_bg] only a cancellation takes the timer away:
    [_downloadReport] sets [_shouldCancel] and calls [_stopped()], which sets
    [_guiExecTimer] to [None].  So the worker finds the timer gone only after
    [_shouldCancel] was set, and after it has read [_shouldCancel] as set it
    does not look at the timer again; a look that still finds the timer is,
    for the worker, a look before the cancellation.  Both attributes are
    therefore read through the one oracle. *)
Definition guiExecTimer_gone (env : environment) : M bool := shouldCancel env.

Definition put_stateFile (f : option (gmap string value)) : M unit := λ w,
  (Ok (), mkWorld (state w) f (files w) (autoChecker w)
            (shuttingDown w) (ticks w) (uuids w) (polls w) (trace w)).

Definition get_stateFile : M (option (gmap string value)) := λ w, (Ok (stateFile w), w).
Definition get_autoChecker : M bool := λ w, (Ok (autoChecker w), w).

Definition put_autoChecker (b : bool) : M unit := λ w,
  (Ok (), mkWorld (state w) (stateFile w) (files w) b
            (shuttingDown w) (ticks w) (uuids w) (polls w) (trace w)).

(** ** Module constants *)

Definition _DEFAULT_CHECK_URL : str := py "https://api.nvaccess.org/nvdaUpdateCheck".
Definition CHECK_INTERVAL : Z := 86400.
Definition RETRY_INTERVAL : Z := 600.
Definition DOWNLOAD_BLOCK_SIZE : nat := Z.to_nat 8192.
Arguments DOWNLOAD_BLOCK_SIZE : simpl never.

(** ** The query client *)

Definition _getCheckURL (env : environment) : str :=
  if truthy (VStr (conf_serverURL env)) then conf_serverURL env
  else _DEFAULT_CHECK_URL.

Definition getQualifiedDriverClassNameForStats (cls : driverClass) : str :=
  let name := drv_name cls in
  match drv_addon cls with
  | Some addon => name ++ py " (addon:" ++ addon ++ py ")"
  | None =>
    if drv_external cls then name ++ py " (external)"
    else name ++ py " (core)"
  end.

(** [t[i]] for a tuple, negative indices counting from the end. *)
Definition tuple_index {A} (t : list A) (i : Z) : result A :=
  let n := Z.of_nat (length t) in
  let j := if i <? 0 then i + n else i in
  if (0 <=? j) && (j <? n)
  then match t !! Z.to_nat j with Some x => Ok x | None => Raise IndexError end
  else Raise IndexError.

(** ["%d" % z] *)
Definition fmt_d (z : Z) : str := py (pretty z).

Definition winVersionText (env : environment) : result str :=
  let text := fmt_d (win_major env) ++ py "." ++ fmt_d (win_minor env)
              ++ py "." ++ fmt_d (win_build env) in
  let text :=
    if bool_decide (service_pack_major env ≠ 0) then
      let text := text ++ py " service pack " ++ fmt_d (service_pack_major env) in
      if bool_decide (service_pack_minor env ≠ 0)
      then text ++ py "." ++ fmt_d (service_pack_minor env)
      else text
    else text in
  kind ← tuple_index [py "workstation"; py "domain controller"; py "server"]
           (product_type env - 1);
  Ok (text ++ py " " ++ kind).

Definition opt_str (o : option str) : value :=
  match o with Some s => VStr s | None => VNone end.

(** The names of the parameters sent purely for stats gathering. *)
Definition telemetryKeys : list string :=
  ["id"; "language"; "installed"; "synthDriver"; "brailleDisplay";
   "outputBrailleTable"].

(** The [params] dictionary of [checkForUpdate], up to the request. *)
Definition checkForUpdate_params (env : environment) (auto : bool)
  : M (list (string * value)) :=
  let allowUsageStats := conf_allowUsageStats env in
  winVersionText ← lift (winVersionText env);
  let params :=
    [ ("autoCheck", VBool auto);
      ("allowUsageStats", VBool allowUsageStats);
      ("version", VStr (running_version env));
      ("versionType", VStr (updateVersionType env));
      ("osVersion", VStr winVersionText);
      ("x64", VBool (bool_decide (PROCESSOR_ARCHITEW6432 env = Some (py "AMD64"))));
      ("osArchitecture", opt_str (PROCESSOR_ARCHITEW6432 env)) ] in
  if auto && allowUsageStats then
    (* a class object is always true, so the synth driver name is always sent *)
    id ← state_get "id";
    let extraParams :=
      [ ("id", id);
        ("language", VStr (language env));
        ("installed", VBool (isInstalledCopy env));
        ("synthDriver",
         VStr (getQualifiedDriverClassNameForStats (synthDriverClass env)));
        ("brailleDisplay",
         opt_str (getQualifiedDriverClassNameForStats <$> brailleDisplayClass env));
        ("outputBrailleTable",
         match brailleDisplayClass env with
         | Some _ => VStr (conf_translationTable env)
         | None => VNone
         end) ] in
    mret (dict_update params extraParams)
  else mret params.

(** [_fetchUrlAndUpdateRootCertificates(url=f"{_getCheckURL()}?{urlencode(params)}", ...)]:
    the request is recorded with its parameters before encoding. *)
Definition _fetchUrlAndUpdateRootCertificates (env : environment)
    (url : str) (params : list (string * value)) : M response :=
  emit (EvFetch url params);; lift (fetch env url params).

Definition checkForUpdate (env : environment) (auto : bool)
  : M (option UpdateInfo.t) :=
  params ← checkForUpdate_params env auto;
  result ← _fetchUrlAndUpdateRootCertificates env (_getCheckURL env) params;
  if bool_decide (status_code result ≠ 200)
  then raise (RuntimeError_StatusCode (status_code result))
  else
    data ← lift (decode_utf8 (content result));
    if negb (truthy (VStr data)) then mret None
    else
      match UpdateInfo.parseUpdateCheckResponse data with
      | Ok parsed_response => mret (Some parsed_response)
      | Raise (ValueError_InvalidLine _) | Raise (ValueError_MissingKeys _) =>
        raise RuntimeError_InvalidResponse
      | Raise e => raise e
      end.

(** ** The pending update *)

Definition _setStateToNone : M unit :=
  state_set "pendingUpdateFile" VNone;;
  state_set "pendingUpdateVersion" VNone;;
  state_set "pendingUpdateAPIVersion" (VTuple (0, 0, 0));;
  state_set "pendingUpdateBackCompatToAPIVersion" (VTuple (0, 0, 0)).

(** [os.path.isfile(path)] for a path that is a string.  For a value that is
    no string the source gives no such answer: it raises [TypeError] (a float,
    a tuple) or looks at a file descriptor (an integer); [isfile] answers
    [False] there.  See [pending_file_is_path]. *)
Definition isfile (fs : gmap str bytes) (path : value) : bool :=
  match path with
  | VStr p => bool_decide (is_Some (fs !! p))
  | _ => false
  end.

(** [x or (0, 0, 0)] *)
Definition or_zero (x : value) : value :=
  if truthy x then x else VTuple (0, 0, 0).

Definition getPendingUpdate : M (option (value * value * value * value)) :=
  read ← try_except
    (pendingUpdateFile ← state_get "pendingUpdateFile";
     pendingUpdateVersion ← state_get "pendingUpdateVersion";
     pendingUpdateAPIVersion ← or_zero <$> state_get "pendingUpdateAPIVersion";
     pendingUpdateBackCompatToAPIVersion ←
       or_zero <$> state_get "pendingUpdateBackCompatToAPIVersion";
     mret (Some (pendingUpdateFile, pendingUpdateVersion,
                 pendingUpdateAPIVersion, pendingUpdateBackCompatToAPIVersion)))
    (λ e, match e with
          | KeyError _ => _setStateToNone;; mret None
          | _ => raise e
          end);
  match read with
  | None => mret None
  | Some (pendingUpdateFile, v, a, b) =>
    fs ← get_files;
    if truthy pendingUpdateFile && isfile fs pendingUpdateFile
    then mret (Some (pendingUpdateFile, v, a, b))
    else _setStateToNone;; mret None
  end.

(** The four pending fields hold their none values. *)
Definition pending_cleared (st : gmap string value) : Prop :=
  st !! "pendingUpdateFile" = Some VNone ∧
  st !! "pendingUpdateVersion" = Some VNone ∧
  st !! "pendingUpdateAPIVersion" = Some (VTuple (0, 0, 0)) ∧
  st !! "pendingUpdateBackCompatToAPIVersion" = Some (VTuple (0, 0, 0)).

(** The state does not name an existing file as the pending update. *)
Definition pending_file_missing (st : gmap string value) (fs : gmap str bytes)
  : Prop :=
  ∀ f, st !! "pendingUpdateFile" = Some f → isfile fs f = false.

(** The recorded file is a value about which [os.path.isfile] is not asked,
    or for which it answers: a false value, or a string.  The program itself
    records nothing else ([None], or the path of a download). *)
Definition pending_file_is_path (st : gmap string value) : Prop :=
  ∀ f, st !! "pendingUpdateFile" = Some f → truthy f = false ∨ ∃ p, f = VStr p.

Definition isPendingUpdate : M bool :=
  p ← getPendingUpdate; mret (bool_decide (is_Some p)).

Definition saveState (env : environment) : M unit :=
  if stateFile_writable env then
    st ← get_state; put_stateFile (Some st);; emit (EvPickleDump st)
  else emit (EvLog "debugWarning" (py "Error saving state")).

(** ** Installer hand-off *)

(** [subprocess.list2cmdline]: the inner loop over the characters of one
    argument; [bs_buf] counts the backslashes held back.  Returns the text
    produced and the backslashes still held back at the end. *)
Fixpoint list2cmdline_arg (arg : str) (bs_buf : nat) : str * nat :=
  match arg with
  | [] => ([], bs_buf)
  | c :: arg' =>
    if N.eqb c 92 then list2cmdline_arg arg' (S bs_buf)
    else if N.eqb c 34 then
      let (out, n) := list2cmdline_arg arg' 0 in
      (replicate (bs_buf * 2) 92%N ++ [92; 34]%N ++ out, n)
    else
      let (out, n) := list2cmdline_arg arg' 0 in
      (replicate bs_buf 92%N ++ c :: out, n)
  end.

Definition list2cmdline_one (arg : str) : str :=
  let needquote :=
    bool_decide (32%N ∈ arg) || bool_decide (9%N ∈ arg) || bool_decide (arg = []) in
  let (out, n) := list2cmdline_arg arg 0 in
  if needquote
  then [34%N] ++ out ++ replicate n 92%N ++ replicate n 92%N ++ [34%N]
  else out ++ replicate n 92%N.

Fixpoint list2cmdline (seq : list str) : str :=
  match seq with
  | [] => []
  | [arg] => list2cmdline_one arg
  | arg :: seq' => list2cmdline_one arg ++ [32%N] ++ list2cmdline seq'
  end.

(** The list [executeParams] at the end of [_generate_updateParameters]. *)
Definition executeParams (env : environment) : list str :=
  let executeParams := [] in
  let executeParams :=
    if isInstalledCopy env
    then executeParams ++ [py "--install"; py "-m"]
    else
      let portablePath := appDir env in
      if appDir_writable env
      then executeParams ++ [py "--create-portable"; py "-m";
                             py "--portable-path"; portablePath]
      else executeParams ++ [py "--launcher"] in
  let executeParams :=
    if disableAddons env then executeParams ++ [py "--disable-addons"]
    else executeParams in
  executeParams ++ [py "--config-path"; configDir env].

Definition _generate_updateParameters (env : environment) : str :=
  list2cmdline (executeParams env).
Arguments _generate_updateParameters : simpl never.

(** Modelled from the spec: [core.triggerNVDAExit] (the module [core] is not
    among the sources).  It "requests a coordinated shutdown-and-relaunch of
    the host process with the new binary and argument vector" and answers
    whether the request was taken; when "the host is already shutting down"
    nothing is queued and the answer is [False]. *)
Definition triggerNVDAExit (destPath params : str) : M bool := λ w,
  if shuttingDown w then (Ok false, w)
  else (Ok true,
        mkWorld (state w) (stateFile w) (files w) (autoChecker w) true
          (ticks w) (uuids w) (polls w)
          (trace w ++ [EvQueueShutdown destPath params])).

Definition _executeUpdate (env : environment) (destPath : str) : M unit :=
  if negb (truthy (VStr destPath)) then
    emit (EvLog "error" (py "destPath must be a non-empty string."))
  else
    _setStateToNone;;
    saveState env;;
    accepted ← triggerNVDAExit destPath (_generate_updateParameters env);
    if negb accepted then
      emit (EvLog "error"
              (py "NVDA already in process of exiting, this indicates a logic error."))
    else mret ().

Definition executePendingUpdate (env : environment) : M unit :=
  updateTuple ← getPendingUpdate;
  match updateTuple with
  | None => mret ()
  | Some (VStr destPath, _, _, _) => _executeUpdate env destPath
  | Some _ => raise (TypeError_value "destPath")
  end.

(** ** The scheduler and the background check *)

(** [max(x, y)] and [min(x, y)] of two numbers: the first argument wins ties. *)
Definition py_max (x y : Q) : Q := if Qle_bool y x then x else y.
Definition py_min (x y : Q) : Q := if Qle_bool x y then x else y.

(** [int(x)]: truncation towards zero. *)
Definition py_int (x : Q) : Z := Z.quot (Qnum x) (Zpos (Qden x)).

(** [secsTillNext] of [AutoUpdateChecker.__init__] when the check is set from
    the last check time; [now] is [time.time()], [lastCheck] is
    [state["lastCheck"]]. *)
Definition secsTillNext (now lastCheck : Q) : Z :=
  let secsSinceLast := py_max (now - lastCheck)%Q 0%Q in
  CHECK_INTERVAL - py_int (py_min secsSinceLast (inject_Z CHECK_INTERVAL)).

(** The delay in the words of the specification:
    [CHECK_INTERVAL - min(elapsed, CHECK_INTERVAL)], where [elapsed] is
    [now - lastCheck], or zero when that is negative. *)
Definition claimed_delay (now lastCheck : Q) : Q :=
  (inject_Z CHECK_INTERVAL
   - Qmin (Qmax (now - lastCheck) 0) (inject_Z CHECK_INTERVAL))%Q.

(** A [state] entry that must be a number. *)
Definition as_number (what : string) (v : value) : M Q :=
  match v with
  | VNum q => mret q
  | _ => raise (TypeError_value what)
  end.

Module AutoUpdateChecker.

Definition __init__ (env : environment) : M unit :=
  notify ← (if conf_startupNotification env then isPendingUpdate
            else mret false : M bool);
  secsTillNext ←
    (if notify : bool then mret 0
     else
       now ← time_time env;
       lastCheck ← state_get "lastCheck" ≫= as_number "lastCheck";
       mret (secsTillNext now lastCheck) : M Z);
  emit (EvTimerStart (secsTillNext * 1000) true).

Definition setNextCheck (isRetry : bool) : M unit :=
  emit (EvCallAfter Timer_Stop);;
  emit (EvCallAfter
          (Timer_Start ((if isRetry then RETRY_INTERVAL else CHECK_INTERVAL) * 1000)
             true)).

Definition _error : M unit := setNextCheck true.

Definition _result (info : option UpdateInfo.t) : M unit :=
  match info with
  | None => mret ()
  | Some info' =>
    dontRemindVersion ← state_get "dontRemindVersion";
    if eq_str dontRemindVersion (UpdateInfo.version info') then mret ()
    else emit (EvCallAfter (UpdateResultDialog info true))
  end.

End AutoUpdateChecker.

Module UpdateChecker.

Definition _error (env : environment) : M unit :=
  emit (EvCallAfter ProgressDialog_done);;
  emit (EvCallAfter
          (ErrorMessageBox
             (if truthy (VStr (conf_serverURL env))
              then Some (conf_serverURL env) else None))).

Definition _result (info : option UpdateInfo.t) : M unit :=
  emit (EvCallAfter ProgressDialog_done);;
  emit (EvCallAfter (UpdateResultDialog info false)).

(** The first statements of [_bg]: the unique ID is reset once a month. *)
Definition rotate_id (env : environment) : M unit :=
  lastCheck ← state_get "lastCheck" ≫= as_number "lastCheck";
  now ← time_time env;
  if bool_decide (year_month env lastCheck ≠ year_month env now)
  then uuid4 env ≫= λ id, state_set "id" (VStr id)
  else mret ().

(** [_bg] of a checker whose class attribute [AUTO] is [AUTO]:
    [AutoUpdateChecker] overrides [_error] and [_result]. *)
Definition _bg (env : environment) (AUTO : bool) : M unit :=
  rotate_id env;;
  checked ← try_except
    (Some <$> checkForUpdate env AUTO)
    (λ _,
       emit (EvLog "debugWarning" (py "Error checking for update"));;
       (if AUTO then AutoUpdateChecker._error else _error env);;
       mret None);
  match checked with
  | None => mret ()
  | Some info =>
    (if AUTO then AutoUpdateChecker._result info else _result info);;
    match info with
    | Some info' => state_set "dontRemindVersion" (VStr (UpdateInfo.version info'))
    | None => mret ()
    end;;
    (time_time env ≫= λ t, state_set "lastCheck" (VNum t));;
    saveState env;;
    autoChecker ← get_autoChecker;
    if autoChecker : bool then AutoUpdateChecker.setNextCheck false else mret ()
  end.

End UpdateChecker.

(** ** The downloader *)

(** The URLs opened and the error messages logged, in order of occurrence. *)
Definition opened (evs : list event) : list str :=
  omap (λ e, match e with EvUrlopen url => Some url | _ => None end) evs.

Definition logged_errors (evs : list event) : list str :=
  omap (λ e, match e with
             | EvLog level msg => if decide (level = "error") then Some msg else None
             | _ => None
             end) evs.

(** The message logged when a mirror fails. *)
Definition download_error (url : str) : str := py "Error downloading " ++ url.

(** Once requested, a cancellation stays requested: nothing resets
    [_shouldCancel] during a download. *)
Definition cancel_is_final (env : environment) : Prop :=
  ∀ i j, (i ≤ j)%nat → cancel_requested env i = true →
         cancel_requested env j = true.

(** The event is a progress report of the download. *)
Definition is_report (e : event) : Prop :=
  ∃ read size, e = EvGuiExec (DownloadReport read size).

Module UpdateDownloader.

(** The attributes of [self] the download uses. *)
Record t := {
  urls : list str;          (* updateInfo.launcherUrl.split(" ") *)
  fileHash : option str;    (* updateInfo.launcherHash *)
  destPath : str;           (* the empty temporary file created by __init__ *)
}.

(** [s.split(" ")] *)
Fixpoint split_spaces (s : str) : list str :=
  match s with
  | [] => [[]]
  | c :: s' =>
    if N.eqb c 32 then [] :: split_spaces s'
    else match split_spaces s' with
         | [] => [[c]]
         | w :: ws => (c :: w) :: ws
         end
  end.

Definition __init__ (updateInfo : UpdateInfo.t) (destPath : str) : t :=
  {| urls := split_spaces (UpdateInfo.launcherUrl updateInfo);
     fileHash := UpdateInfo.launcherHash updateInfo;
     destPath := destPath |}.

(** [self._guiExec(func, *args)]: the call is left for the GUI thread.
    [self._guiExecTimer.IsRunning()] raises [AttributeError] once the timer
    is gone. *)
Definition _guiExec (env : environment) (c : gui_call) : M unit :=
  gone ← guiExecTimer_gone env;
  if gone : bool then raise AttributeError else emit (EvGuiExec c).

(** [remote.read(n)]: [n] bytes, fewer at the end of the stream, and all that
    is left for a negative [n]; the block and the rest of the stream. *)
Definition remote_read (n : Z) (stream : bytes) (broken : bool)
  : result (bytes * bytes) :=
  if (0 <=? n) && (Z.to_nat n <=? length stream)%nat
  then Ok (take (Z.to_nat n) stream, drop (Z.to_nat n) stream)
  else if broken then Raise URLError
  else Ok (stream, []).

(** [local.write(block)] on the file opened at [destPath]. *)
Definition file_write (path : str) (block : bytes) : M unit :=
  fs ← get_files; put_files (<[path := default [] (fs !! path) ++ block]> fs).

(** How the [while True] loop of [_download] is left. *)
Inductive loop_exit :=
| Returned                              (* [return] after a cancellation *)
| Broke (read : nat) (hashed : bytes)   (* [break] at the end of the stream *)
| OutOfFuel.

Definition has_hash (self : t) : bool := truthy (opt_str (fileHash self)).

(** The [while True] loop.  [hashed] is what has been fed to the hasher;
    [fuel] bounds the number of iterations (two more than the declared size
    are enough, see [download_loop_spec]). *)
Fixpoint download_loop (env : environment) (self : t) (fuel : nat)
    (size : Z) (read : nat) (chunk : Z) (stream : bytes) (broken : bool)
    (hashed : bytes)
  : M loop_exit :=
  match fuel with
  | O => mret OutOfFuel
  | S fuel' =>
    cancel ← shouldCancel env;
    if cancel : bool then mret Returned
    else
      let chunk := if size - Z.of_nat read <? chunk then size - Z.of_nat read
                   else chunk in
      '(block, stream') ← lift (remote_read chunk stream broken);
      if bool_decide (block = []) then mret (Broke read hashed)
      else
        let read := (read + length block)%nat in
        cancel ← shouldCancel env;
        if cancel : bool then mret Returned
        else
          file_write (destPath self) block;;
          let hashed := if has_hash self then hashed ++ block else hashed in
          _guiExec env (DownloadReport read size);;
          download_loop env self fuel' size read chunk stream' broken hashed
  end.

Definition _download (env : environment) (self : t) (url : str) : M unit :=
  emit (EvUrlopen url);;
  remote ← lift (urlopen env url);
  if bool_decide (code remote ≠ 200)
  then raise (RuntimeError_DownloadCode (code remote))
  else
    size ← match headers_content_length remote with
           | Some n => mret n
           | None => raise (TypeError_value "content-length")
           end;
    (* open(self.destPath, "wb") *)
    (get_files ≫= λ fs, put_files (<[destPath self := []]> fs));;
    _guiExec env (DownloadReport 0 size);;
    exit ← download_loop env self (S (S (Z.to_nat size))) size 0
             (Z.of_nat DOWNLOAD_BLOCK_SIZE) (body remote) (body_broken remote) [];
    match exit with
    | Returned => mret ()
    | OutOfFuel => raise OSError
    | Broke read hashed =>
      if Z.of_nat read <? size then raise RuntimeError_ContentTooShort
      else if has_hash self
              && negb (bool_decide (Some (sha1_hexdigest env hashed) = fileHash self))
      then raise RuntimeError_BadHash
      else _guiExec env (DownloadReport read size)
    end.

(** The [for url in self.urls] loop of [_bg]: [None] when the loop ran to its
    end (the [else] clause), [Some success] when it was left by [break]. *)
Fixpoint _bg_loop (env : environment) (self : t) (urls : list str)
  : M (option bool) :=
  match urls with
  | [] => mret None
  | url :: urls' =>
    downloaded ← try_except
      (_download env self url;; mret true)
      (λ _, emit (EvLog "error" (download_error url));; mret false);
    if downloaded : bool then
      cancel ← shouldCancel env;
      mret (Some (negb cancel))
    else _bg_loop env self urls'
  end.

(** [os.remove(path)] inside [try: ... except OSError: pass]. *)
Definition remove_quietly (path : str) : M unit :=
  fs ← get_files; put_files (delete path fs).

Definition _bg (env : environment) (self : t) : M unit :=
  left ← _bg_loop env self (urls self);
  match left with
  | None => _guiExec env DownloadError
  | Some false => remove_quietly (destPath self)
  | Some true => _guiExec env DownloadSuccess
  end.

End UpdateDownloader.

(** ** Start-up *)

(** [os.remove(f)]: [OSError] when [f] is not a file. *)
Definition os_remove (f : str) : M unit :=
  fs ← get_files;
  if bool_decide (is_Some (fs !! f)) then put_files (delete f fs)
  else raise OSError.

(** The body of the [try] that removes old update files. *)
Fixpoint sweep (env : environment) (names : list str) : M unit :=
  match names with
  | [] => mret ()
  | fileName :: names' =>
    let f := join_storeUpdatesDir env fileName in
    pendingUpdateFile ← state_get "pendingUpdateFile";
    (if negb (eq_str pendingUpdateFile f) then
       os_remove f;;
       emit (EvLog "debug" (py "Update file " ++ f ++ py " removed"))
     else mret ());;
    sweep env names'
  end.

Definition defaults : gmap string value :=
  <["dontRemindVersion" := VNone]> (<["lastCheck" := VNum 0]> ∅).

(** [initialize], first part: the state is loaded, or the defaults are
    taken; an ID is added where there is none; the pending version is checked
    against the current version. *)
Definition load_state (env : environment) : M unit :=
  loaded ← get_stateFile;
  match loaded with
  | Some st => put_state st
  | None =>
    emit (EvLog "debugWarning" (py "Couldn't retrieve update state"));;
    put_state defaults;;
    _setStateToNone
  end;;
  st ← get_state;
  (if bool_decide (st !! "id" = None)
   then uuid4 env ≫= λ id, state_set "id" (VStr id)
   else mret ());;
  st ← get_state;
  match st !! "pendingUpdateVersion" with
  | None => _setStateToNone
  | Some v => if eq_str v (running_version env) then _setStateToNone else mret ()
  end.

(** [initialize], second part, once [os.listdir] has returned: all update
    files are removed, except the one that is pending.  An [OSError] of
    [os.remove] is logged with the name [f] of the file (the name is left out
    of the recorded message). *)
Definition remove_old_updates (env : environment) : M unit :=
  try_except (sweep env (listdir_storeUpdatesDir env))
    (λ e, match e with
          | OSError => emit (EvLog "warning" (py "Unable to remove old update file"))
          | _ => raise e
          end).

(** [initialize], last part: the automatic checker is created when
    [not launcher and (autoCheck or (startupNotification and isPendingUpdate()))]. *)
Definition start_autoChecker (env : environment) : M unit :=
  start ← (if negb (launcher env) then
             if conf_autoCheck env then mret true
             else if conf_startupNotification env then isPendingUpdate
             else mret false
           else mret false);
  if start : bool then AutoUpdateChecker.__init__ env;; put_autoChecker true
  else mret ().

(** [os.listdir] raising [OSError]: the handler formats its message with
    [f], which no iteration of the loop has bound.  It is bound all the same
    when the state file could be opened ([with open(...) as f]); otherwise
    the handler itself fails. *)
Definition listdir_failed (opened : bool) : M unit :=
  if opened then emit (EvLog "warning" (py "Unable to remove old update file"))
  else raise UnboundLocalError.

(** The whole [try] statement of the second part. *)
Definition try_remove_old_updates (env : environment) (opened : bool) : M unit :=
  if storeUpdatesDir_listable env then remove_old_updates env
  else listdir_failed opened.

Definition initialize (env : environment) : M unit :=
  loaded ← get_stateFile;
  let opened := bool_decide (is_Some loaded) || stateFile_opens env in
  load_state env;;
  try_remove_old_updates env opened;;
  start_autoChecker env.

(** ** Sample environments and worlds *)

(** A stand-in for SHA-1 in the samples: the decimal sum of the bytes. *)
Definition sample_digest (content : bytes) : str :=
  py (pretty (foldr (λ b acc, (Byte.to_N b + acc)%N) 0%N content)).

Definition sample_remote (content : bytes) (declared : nat) : remote :=
  {| code := 200; headers_content_length := Some (Z.of_nat declared);
     body := content; body_broken := false |}.

(** An installed copy, automatic checks on, start-up notification off; the
    servers are described by [fetch] and [urlopen]. *)
Definition sample_env (fetch : str → list (string * value) → result response)
    (urlopen : str → result remote) : environment :=
  {| conf_serverURL := [];
     conf_allowUsageStats := true;
     conf_autoCheck := true;
     conf_startupNotification := false;
     conf_translationTable := py "en-ueb-g1.ctb";
     isInstalledCopy := true;
     appDir := py "C:\Program Files\NVDA";
     appDir_writable := false;
     disableAddons := false;
     launcher := false;
     configDir := py "C:\Users\u\AppData\Roaming\nvda";
     storeUpdatesDir := py "C:\Users\u\AppData\Roaming\nvda\updates";
     running_version := py "2025.1";
     updateVersionType := py "stable";
     win_major := 10; win_minor := 0; win_build := 19045;
     service_pack_major := 0; service_pack_minor := 0;
     product_type := 1;
     PROCESSOR_ARCHITEW6432 := Some (py "AMD64");
     language := py "en";
     synthDriverClass :=
       {| drv_name := py "espeak"; drv_addon := None; drv_external := false |};
     brailleDisplayClass := None;
     fetch := fetch;
     urlopen := urlopen;
     sha1_hexdigest := sample_digest;
     clock := λ n, inject_Z (1700000000 + Z.of_nat n);
     year_month := λ _, (2023, 11);
     uuid4_hex := λ _, py "0123456789abcdef0123456789abcdef";
     cancel_requested := λ _, false;
     stateFile_writable := true;
     stateFile_opens := false;
     storeUpdatesDir_listable := true;
     listdir_storeUpdatesDir := [];
     join_storeUpdatesDir :=
       λ name, py "C:\Users\u\AppData\Roaming\nvda\updates\" ++ name |}.

Definition no_update : str → list (string * value) → result response :=
  λ _ _, Ok {| status_code := 200; content := [] |}.

Definition no_mirror : str → result remote := λ _, Raise URLError.

Definition sample_world (st : gmap string value) (fs : gmap str bytes) : world :=
  {| state := st; stateFile := Some st; files := fs; autoChecker := false;
     shuttingDown := false; ticks := 0; uuids := 0; polls := 0; trace := [] |}.

(** A state that records a postponed update of version 2025.2 kept in
    [nvda_update_x.exe]. *)
Definition pending_file : str := py "C:\Users\u\AppData\Roaming\nvda\updates\nvda_update_x.exe".

Definition pending_state : gmap string value :=
  <["pendingUpdateBackCompatToAPIVersion" := VTuple (2025, 1, 0)]>
    (<["pendingUpdateAPIVersion" := VTuple (2025, 2, 0)]>
       (<["pendingUpdateVersion" := VStr (py "2025.2")]>
          (<["pendingUpdateFile" := VStr pending_file]>
             (<["id" := VStr (py "feedfacefeedfacefeedfacefeedface")]>
                (<["dontRemindVersion" := VNone]>
                   (<["lastCheck" := VNum (inject_Z 1699990000)]> ∅)))))).

(** A response with an unknown key, and the same response without it. *)
Definition sample_response : str :=
  py "version: 2025.2" ++ [10%N] ++
  py "launcherUrl: https://a.example/nvda.exe https://b.example/nvda.exe" ++ [13; 10]%N ++
  py "X-Served-By: cache-7" ++ [10%N] ++
  py "apiVersion: 2025.2.0" ++ [10%N] ++
  py "launcherHash: 3c1bb0cd5d67dddc02fae50bf56d3a3a4cbc7204" ++ [10%N].

Definition sample_response_without_unknown : str :=
  py "version: 2025.2" ++ [10%N] ++
  py "launcherUrl: https://a.example/nvda.exe https://b.example/nvda.exe" ++ [13; 10]%N ++
  py "apiVersion: 2025.2.0" ++ [10%N] ++
  py "launcherHash: 3c1bb0cd5d67dddc02fae50bf56d3a3a4cbc7204" ++ [10%N].

(** The same response as the body of an HTTP answer, and a server that always
    gives it. *)
Definition sample_body : bytes :=
  list_byte_of_string "version: 2025.2" ++ [Byte.x0a] ++
  list_byte_of_string
    "launcherUrl: https://a.example/nvda.exe https://b.example/nvda.exe" ++
  [Byte.x0d; Byte.x0a] ++
  list_byte_of_string "X-Served-By: cache-7" ++ [Byte.x0a] ++
  list_byte_of_string "apiVersion: 2025.2.0" ++ [Byte.x0a] ++
  list_byte_of_string "launcherHash: 3c1bb0cd5d67dddc02fae50bf56d3a3a4cbc7204" ++
  [Byte.x0a].

Definition update_available : str → list (string * value) → result response :=
  λ _ _, Ok {| status_code := 200; content := sample_body |}.

Definition sample_info : UpdateInfo.t :=
  {| UpdateInfo.version := py "2025.2";
     UpdateInfo.launcherUrl :=
       py "https://a.example/nvda.exe https://b.example/nvda.exe";
     UpdateInfo.apiVersion := py "2025.2.0";
     UpdateInfo.launcherHash := Some (py "3c1bb0cd5d67dddc02fae50bf56d3a3a4cbc7204");
     UpdateInfo.apiCompatTo := None;
     UpdateInfo.changesUrl := None;
     UpdateInfo.launcherInteractiveUrl := None |}.

(** Three mirrors: the first cannot be reached, the second delivers three of
    the four bytes it declares, the third delivers what it declares. *)
Definition mirror_A : str := py "https://a.example/nvda.exe".
Definition mirror_B : str := py "https://b.example/nvda.exe".
Definition mirror_C : str := py "https://c.example/nvda.exe".

Definition launcher_bytes : bytes := [Byte.x4d; Byte.x5a; Byte.x90; Byte.x00].

Definition three_mirrors (url : str) : result remote :=
  if decide (url = mirror_B)
  then Ok (sample_remote (take 3 launcher_bytes) 4)
  else if decide (url = mirror_C)
       then Ok (sample_remote launcher_bytes 4)
       else Raise URLError.

(** A mirror that delivers the launcher with its third byte changed. *)
Definition tampered_bytes : bytes := [Byte.x4d; Byte.x5a; Byte.x91; Byte.x00].

Definition tampered_mirror (url : str) : result remote :=
  Ok (sample_remote tampered_bytes 4).

Definition sample_downloader (urls : list str) : UpdateDownloader.t :=
  {| UpdateDownloader.urls := urls;
     UpdateDownloader.fileHash := Some (sample_digest launcher_bytes);
     UpdateDownloader.destPath := py "C:\Temp\nvda_update_x.exe" |}.

(** ** Vocabulary of the statements *)

(** The state with the four pending fields at their none values, as
    [_setStateToNone] leaves it. *)
Definition reset_pending (st : gmap string value) : gmap string value :=
  <["pendingUpdateBackCompatToAPIVersion" := VTuple (0, 0, 0)]>
    (<["pendingUpdateAPIVersion" := VTuple (0, 0, 0)]>
       (<["pendingUpdateVersion" := VNone]>
          (<["pendingUpdateFile" := VNone]> st))).

Arguments reset_pending : simpl never.

Definition with_state (st : gmap string value) (w : world) : world :=
  mkWorld st (stateFile w) (files w) (autoChecker w) (shuttingDown w)
    (ticks w) (uuids w) (polls w) (trace w).

(** What [_bg] does once the check has returned a descriptor [info] in the
    world [w1]. *)
Definition after_check (env : environment) (AUTO : bool) (info : UpdateInfo.t)
  : M unit :=
  (if AUTO then AutoUpdateChecker._result (Some info)
   else UpdateChecker._result (Some info));;
  state_set "dontRemindVersion" (VStr (UpdateInfo.version info));;
  (time_time env ≫= λ t, state_set "lastCheck" (VNum t));;
  saveState env;;
  autoChecker ← get_autoChecker;
  if autoChecker : bool then AutoUpdateChecker.setNextCheck false else mret ().

(** The stored [dontRemindVersion] is [version]. *)
Definition dismissed (st : gmap string value) (version : str) : bool :=
  match st !! "dontRemindVersion" with
  | Some v => eq_str v version
  | None => false
  end.

(** What a mirror that is read to its end leaves in the file: the declared
    number of bytes, or, for a negative declared length, all the bytes
    there are. *)
Definition declared_bytes (rem : remote) (size : Z) : bytes :=
  if 0 <=? size then take (Z.to_nat size) (body rem) else body rem.

(** The mirror has the bytes it declares: as many as the declared length, or,
    for a negative declared length, a stream that ends without an error. *)
Definition complete (rem : remote) (size : Z) : bool :=
  if 0 <=? size then (Z.to_nat size <=? length (body rem))%nat
  else negb (body_broken rem).

(** The mirror answers with status 200, declares a length, has the bytes it
    declares, and these have the expected digest where one is given. *)
Definition delivers (env : environment) (self : UpdateDownloader.t) (url : str)
  : bool :=
  match urlopen env url with
  | Ok rem =>
    bool_decide (code rem = 200)
    && match headers_content_length rem with
       | Some size =>
         complete rem size
         && (negb (UpdateDownloader.has_hash self)
             || bool_decide (Some (sha1_hexdigest env (declared_bytes rem size))
                             = UpdateDownloader.fileHash self))
       | None => false
       end
  | Raise _ => false
  end.

(** The bytes such a mirror leaves in the file. *)
Definition delivered (env : environment) (url : str) : bytes :=
  match urlopen env url with
  | Ok rem =>
    match headers_content_length rem with
    | Some size => declared_bytes rem size
    | None => []
    end
  | Raise _ => []
  end.

(** The events of the loop over the mirrors. *)
Definition loop_event (e : event) : Prop :=
  is_report e ∨ (∃ url, e = EvUrlopen url) ∨ (∃ msg, e = EvLog "error" msg).

(** ** The handlers of the dialogs *)

(** What the dialogs do to the module state when a button is pressed; showing,
    hiding and closing the dialogs themselves leaves no record. *)

Module UpdateResultDialog.

Definition onUpdateButton (env : environment) (destPath : str) : M unit :=
  _executeUpdate env destPath.

Definition onLaterButton (env : environment) : M unit :=
  state_set "dontRemindVersion" VNone;;
  saveState env.

End UpdateResultDialog.

Module UpdateAskInstallDialog.

(** The return code of the modal dialog, as the [match] of the callback
    tells the codes apart. *)
Inductive return_code :=
| ID_OK
| ID_CLOSE
| ID_other (res : Z).

(** Modelled from the spec: [winKernel.moveFileEx(src, dst,
    MOVEFILE_COPY_ALLOWED)] (the module [winKernel] is not among the sources),
    by which the artifact is "relocated out of the temp-file namespace into a
    stable pending updates storage directory"; the move "can fail", which is
    what [moved = false] stands for.  A file that does not exist cannot be
    moved. *)
Definition moveFileEx (moved : bool) (src dst : str) : M unit :=
  fs ← get_files;
  match fs !! src with
  | Some content =>
    if moved then put_files (<[dst := content]> (delete src fs))
    else raise OSError
  | None => raise OSError
  end.

(** The callback made by [_callbackFactory]; [basename] is
    [os.path.basename].  The message box of the failed move leaves no
    record. *)
Definition _callbackFactory (env : environment) (basename : str → str)
    (moved : bool) (destPath version : str) (apiVersion backCompatTo : Z * Z * Z)
  : return_code → M unit := λ res,
  match res with
  | ID_OK => _executeUpdate env destPath
  | ID_CLOSE =>
    let finalDest := join_storeUpdatesDir env (basename destPath) in
    finalDest ← try_except
      (moveFileEx moved destPath finalDest;; mret finalDest)
      (λ _,
         emit (EvLog "debugWarning"
                 (py "Unable to rename the file from " ++ destPath ++ py " to "
                  ++ finalDest));;
         mret destPath);
    state_set "pendingUpdateFile" (VStr finalDest);;
    state_set "pendingUpdateVersion" (VStr version);;
    state_set "pendingUpdateAPIVersion" (VTuple apiVersion);;
    state_set "pendingUpdateBackCompatToAPIVersion" (VTuple backCompatTo);;
    state_set "dontRemindVersion" VNone;;
    saveState env
  | ID_other res =>
    emit (EvLog "error"
            (py "Unexpected return code " ++ fmt_d res ++ py " from update dialog"))
  end.

End UpdateAskInstallDialog.

(** ** Further samples and vocabulary *)

(** The sample response with its lines in another order, an unknown key
    more, and the version given twice. *)
Definition sample_response_reordered : str :=
  py "version: 2025.0" ++ [10%N] ++
  py "launcherHash: 3c1bb0cd5d67dddc02fae50bf56d3a3a4cbc7204" ++ [10%N] ++
  py "apiVersion: 2025.2.0" ++ [13%N] ++
  py "Server: nginx" ++ [10%N] ++
  py "version: 2025.2" ++ [10%N] ++
  py "launcherUrl: https://a.example/nvda.exe https://b.example/nvda.exe".


(** The state records an update that can be installed: the four pending
    fields are there and the file field is a non-empty string that names an
    existing file. *)
Definition installable (st : gmap string value) (fs : gmap str bytes)
    (p : str) (v a b : value) : Prop :=
  st !! "pendingUpdateFile" = Some (VStr p) ∧ p ≠ [] ∧ is_Some (fs !! p) ∧
  st !! "pendingUpdateVersion" = Some v ∧
  st !! "pendingUpdateAPIVersion" = Some a ∧
  st !! "pendingUpdateBackCompatToAPIVersion" = Some b.

(** The environment [env] with the start-up notification switched. *)
Definition with_startupNotification (b : bool) (env : environment) : environment :=
  {| conf_serverURL := conf_serverURL env;
     conf_allowUsageStats := conf_allowUsageStats env;
     conf_autoCheck := conf_autoCheck env;
     conf_startupNotification := b;
     conf_translationTable := conf_translationTable env;
     isInstalledCopy := isInstalledCopy env;
     appDir := appDir env;
     appDir_writable := appDir_writable env;
     disableAddons := disableAddons env;
     launcher := launcher env;
     configDir := configDir env;
     storeUpdatesDir := storeUpdatesDir env;
     running_version := running_version env;
     updateVersionType := updateVersionType env;
     win_major := win_major env; win_minor := win_minor env;
     win_build := win_build env;
     service_pack_major := service_pack_major env;
     service_pack_minor := service_pack_minor env;
     product_type := product_type env;
     PROCESSOR_ARCHITEW6432 := PROCESSOR_ARCHITEW6432 env;
     language := language env;
     synthDriverClass := synthDriverClass env;
     brailleDisplayClass := brailleDisplayClass env;
     fetch := fetch env;
     urlopen := urlopen env;
     sha1_hexdigest := sha1_hexdigest env;
     clock := clock env;
     year_month := year_month env;
     uuid4_hex := uuid4_hex env;
     cancel_requested := cancel_requested env;
     stateFile_writable := stateFile_writable env;
     stateFile_opens := stateFile_opens env;
     storeUpdatesDir_listable := storeUpdatesDir_listable env;
     listdir_storeUpdatesDir := listdir_storeUpdatesDir env;
     join_storeUpdatesDir := join_storeUpdatesDir env |}.

(** A server that cannot be reached. *)
Definition unreachable : str → list (string * value) → result response :=
  λ _ _, Raise URLError.

(** The postponed update of [pending_state] with its file in place. *)
Definition pending_files : gmap str bytes := {[ pending_file := launcher_bytes ]}.

(** The environment [env] with other entries in the updates directory. *)
Definition with_listdir (names : list str) (env : environment) : environment :=
  {| conf_serverURL := conf_serverURL env;
     conf_allowUsageStats := conf_allowUsageStats env;
     conf_autoCheck := conf_autoCheck env;
     conf_startupNotification := conf_startupNotification env;
     conf_translationTable := conf_translationTable env;
     isInstalledCopy := isInstalledCopy env;
     appDir := appDir env;
     appDir_writable := appDir_writable env;
     disableAddons := disableAddons env;
     launcher := launcher env;
     configDir := configDir env;
     storeUpdatesDir := storeUpdatesDir env;
     running_version := running_version env;
     updateVersionType := updateVersionType env;
     win_major := win_major env; win_minor := win_minor env;
     win_build := win_build env;
     service_pack_major := service_pack_major env;
     service_pack_minor := service_pack_minor env;
     product_type := product_type env;
     PROCESSOR_ARCHITEW6432 := PROCESSOR_ARCHITEW6432 env;
     language := language env;
     synthDriverClass := synthDriverClass env;
     brailleDisplayClass := brailleDisplayClass env;
     fetch := fetch env;
     urlopen := urlopen env;
     sha1_hexdigest := sha1_hexdigest env;
     clock := clock env;
     year_month := year_month env;
     uuid4_hex := uuid4_hex env;
     cancel_requested := cancel_requested env;
     stateFile_writable := stateFile_writable env;
     stateFile_opens := stateFile_opens env;
     storeUpdatesDir_listable := storeUpdatesDir_listable env;
     listdir_storeUpdatesDir := names;
     join_storeUpdatesDir := join_storeUpdatesDir env |}.

(** The environment [env] in which the cancellation is requested at the look
    of index [k] and stays requested. *)
Definition cancelled_at (k : nat) (env : environment) : environment :=
  {| conf_serverURL := conf_serverURL env;
     conf_allowUsageStats := conf_allowUsageStats env;
     conf_autoCheck := conf_autoCheck env;
     conf_startupNotification := conf_startupNotification env;
     conf_translationTable := conf_translationTable env;
     isInstalledCopy := isInstalledCopy env;
     appDir := appDir env;
     appDir_writable := appDir_writable env;
     disableAddons := disableAddons env;
     launcher := launcher env;
     configDir := configDir env;
     storeUpdatesDir := storeUpdatesDir env;
     running_version := running_version env;
     updateVersionType := updateVersionType env;
     win_major := win_major env; win_minor := win_minor env;
     win_build := win_build env;
     service_pack_major := service_pack_major env;
     service_pack_minor := service_pack_minor env;
     product_type := product_type env;
     PROCESSOR_ARCHITEW6432 := PROCESSOR_ARCHITEW6432 env;
     language := language env;
     synthDriverClass := synthDriverClass env;
     brailleDisplayClass := brailleDisplayClass env;
     fetch := fetch env;
     urlopen := urlopen env;
     sha1_hexdigest := sha1_hexdigest env;
     clock := clock env;
     year_month := year_month env;
     uuid4_hex := uuid4_hex env;
     cancel_requested := λ p, (k <=? p)%nat;
     stateFile_writable := stateFile_writable env;
     stateFile_opens := stateFile_opens env;
     storeUpdatesDir_listable := storeUpdatesDir_listable env;
     listdir_storeUpdatesDir := listdir_storeUpdatesDir env;
     join_storeUpdatesDir := join_storeUpdatesDir env |}.

(** The environment [env] with an updates directory that cannot be listed, and
    with a state file that cannot be opened or can, as [opens] says. *)
Definition with_unlistable_dir (opens : bool) (env : environment) : environment :=
  {| conf_serverURL := conf_serverURL env;
     conf_allowUsageStats := conf_allowUsageStats env;
     conf_autoCheck := conf_autoCheck env;
     conf_startupNotification := conf_startupNotification env;
     conf_translationTable := conf_translationTable env;
     isInstalledCopy := isInstalledCopy env;
     appDir := appDir env;
     appDir_writable := appDir_writable env;
     disableAddons := disableAddons env;
     launcher := launcher env;
     configDir := configDir env;
     storeUpdatesDir := storeUpdatesDir env;
     running_version := running_version env;
     updateVersionType := updateVersionType env;
     win_major := win_major env; win_minor := win_minor env;
     win_build := win_build env;
     service_pack_major := service_pack_major env;
     service_pack_minor := service_pack_minor env;
     product_type := product_type env;
     PROCESSOR_ARCHITEW6432 := PROCESSOR_ARCHITEW6432 env;
     language := language env;
     synthDriverClass := synthDriverClass env;
     brailleDisplayClass := brailleDisplayClass env;
     fetch := fetch env;
     urlopen := urlopen env;
     sha1_hexdigest := sha1_hexdigest env;
     clock := clock env;
     year_month := year_month env;
     uuid4_hex := uuid4_hex env;
     cancel_requested := cancel_requested env;
     stateFile_writable := stateFile_writable env;
     stateFile_opens := opens;
     storeUpdatesDir_listable := false;
     listdir_storeUpdatesDir := listdir_storeUpdatesDir env;
     join_storeUpdatesDir := join_storeUpdatesDir env |}.

(** A mirror that declares a negative length and delivers the launcher. *)
Definition unsized_remote : remote :=
  {| code := 200; headers_content_length := Some (-1);
     body := launcher_bytes; body_broken := false |}.

Definition unsized_mirror (url : str) : result remote := Ok unsized_remote.


(** The updates directory with the postponed update and an older download. *)
Definition old_file : str := py "C:\Users\u\AppData\Roaming\nvda\updates\nvda_update_old.exe".

Definition two_updates : gmap str bytes :=
  <[old_file := tampered_bytes]> pending_files.

(** A first run: no state file, no files. *)
Definition first_run : world :=
  {| state := ∅; stateFile := None; files := ∅; autoChecker := false;
     shuttingDown := false; ticks := 0; uuids := 0; polls := 0; trace := [] |}.

(** [" ".join(parts)] *)
Fixpoint join_spaces (parts : list str) : str :=
  match parts with
  | [] => []
  | [part] => part
  | part :: parts' => part ++ [32%N] ++ join_spaces parts'
  end.

(** An argument as it stands on the command line when it holds no double
    quote and does not end in a backslash: between double quotes when it is
    empty or holds a space or a tab, as it is otherwise. *)
Definition quoted_if_needed (arg : str) : str :=
  if bool_decide (32%N ∈ arg) || bool_decide (9%N ∈ arg) || bool_decide (arg = [])
  then [34%N] ++ arg ++ [34%N]
  else arg.

(** The text with every line feed turned into carriage return, line feed. *)
Fixpoint to_crlf (s : str) : str :=
  match s with
  | [] => []
  | c :: s' => if N.eqb c 10 then 13%N :: 10%N :: to_crlf s' else c :: to_crlf s'
  end.

(** A minimal response with line feeds only. *)
Definition sample_response_lf : str :=
  py "version: 2025.2" ++ [10%N] ++
  py "launcherUrl: https://a.example/nvda.exe" ++ [10%N] ++
  py "apiVersion: 2025.2.0" ++ [10%N].

(** * Facts *)

(** ** The response parser *)

Section parser_facts.
Import UpdateInfo.

Lemma split_once_cons (c c' : N) (rest' : str) :
  split_once (c :: c' :: rest') =
  if N.eqb c 58 && N.eqb c' 32 then Some ([], rest')
  else prod_map (cons c) id <$> split_once (c' :: rest').
Proof. done. Qed.

Lemma split_once_Some (line k v : str) :
  split_once line = Some (k, v) → line = k ++ py ": " ++ v.
Proof.
  revert k v. induction line as [|c rest IH]; intros k v; [done|].
  destruct rest as [|c' rest']; [done|].
  rewrite split_once_cons.
  destruct (N.eqb c 58 && N.eqb c' 32) eqn:Hsep.
  - apply andb_prop in Hsep as [->%N.eqb_eq ->%N.eqb_eq].
    by intros [= <- <-].
  - intros ([k' v'] & Hrest & [= -> ->])%fmap_Some.
    by rewrite (IH _ _ Hrest).
Qed.

Lemma has_separator_split_once (line : str) :
  has_separator line → is_Some (split_once line).
Proof.
  intros (a & b & ->). induction a as [|c a IH]; [by eexists|].
  change ((c :: a) ++ py ": " ++ b) with (c :: (a ++ py ": " ++ b)).
  destruct (a ++ py ": " ++ b) as [|c' rest'] eqn:Hrest.
  { by destruct a. }
  rewrite split_once_cons.
  destruct (N.eqb c 58 && N.eqb c' 32); [by eexists|].
  destruct IH as [[k v] ->]. by eexists.
Qed.

Lemma split_once_has_separator (line : str) :
  is_Some (split_once line) ↔ has_separator line.
Proof.
  split; [|apply has_separator_split_once].
  intros [[k v] H%split_once_Some]. by exists k, v.
Qed.

Lemma split_once_first (k v : str) :
  ¬ has_separator k → split_once (k ++ py ": " ++ v) = Some (k, v).
Proof.
  induction k as [|c k IH]; intros Hk; [done|].
  change ((c :: k) ++ py ": " ++ v) with (c :: (k ++ py ": " ++ v)).
  destruct (k ++ py ": " ++ v) as [|c' rest'] eqn:Hrest.
  { by destruct k. }
  rewrite split_once_cons.
  destruct (N.eqb c 58 && N.eqb c' 32) eqn:Hsep.
  - apply andb_prop in Hsep as [->%N.eqb_eq ->%N.eqb_eq].
    destruct k as [|c'' k']; [done|].
    injection Hrest as -> _. destruct Hk. by exists [], k'.
  - rewrite IH; [done|].
    intros (a & b & ->). apply Hk. by exists (c :: a), b.
Qed.

Lemma elem_of_knownKeys (k : str) :
  k ∈ knownKeys ↔ k ∈ (parameters.*1).
Proof. unfold knownKeys. apply elem_of_list_to_set. Qed.

Lemma elem_of_requiredKeys (k : str) :
  k ∈ requiredKeys ↔
  k = py "version" ∨ k = py "launcherUrl" ∨ k = py "apiVersion".
Proof.
  unfold requiredKeys. rewrite elem_of_list_to_set.
  change (filter _ parameters).*1
    with [py "version"; py "launcherUrl"; py "apiVersion"].
  rewrite !elem_of_cons, elem_of_nil. tauto.
Qed.

Lemma requiredKeys_known (k : str) : k ∈ requiredKeys → k ∈ knownKeys.
Proof.
  rewrite elem_of_requiredKeys, elem_of_knownKeys.
  change (parameters.*1)
    with [py "version"; py "launcherUrl"; py "apiVersion"; py "launcherHash";
          py "apiCompatTo"; py "changesUrl"; py "launcherInteractiveUrl"].
  rewrite !elem_of_cons. tauto.
Qed.

(** What the loop leaves in [metadata] when every line has the separator. *)
Lemma parse_loop_ok (lines : list str) (metadata : gmap str str) :
  Forall has_separator lines →
  ∃ metadata',
    parse_loop lines metadata = Ok metadata' ∧
    ∀ k, metadata' !! k =
         if decide (k ∈ knownKeys)
         then match field_of k lines with
              | Some v => Some v
              | None => metadata !! k
              end
         else metadata !! k.
Proof.
  intros Hlines. revert metadata.
  induction Hlines as [|line lines Hline _ IH]; intros metadata.
  { exists metadata. split; [done|]. intros k. by case_decide. }
  apply has_separator_split_once in Hline as [[key val] Hsplit].
  cbn [parse_loop field_of]. rewrite Hsplit.
  destruct (decide (key ∈ knownKeys)) as [Hkey|Hkey].
  - destruct (IH (<[key:=val]> metadata)) as (metadata' & -> & Hget).
    exists metadata'. split; [done|]. intros k. rewrite Hget.
    destruct (decide (k ∈ knownKeys)) as [Hk|Hk].
    + destruct (field_of k lines); [done|].
      rewrite lookup_insert. by destruct (decide (key = k)).
    + rewrite lookup_insert_ne; [reflexivity|]. intros ->. contradiction.
  - destruct (IH metadata) as (metadata' & -> & Hget).
    exists metadata'. split; [done|]. intros k. rewrite Hget.
    destruct (decide (k ∈ knownKeys)) as [Hk|Hk]; [|done].
    destruct (field_of k lines); [done|].
    destruct (decide (key = k)) as [->|]; [contradiction|reflexivity].
Qed.

(** A line without the separator stops the loop. *)
Lemma parse_loop_invalid (lines : list str) (metadata : gmap str str) :
  Exists (λ line, ¬ has_separator line) lines →
  ∃ line, parse_loop lines metadata = Raise (ValueError_InvalidLine line) ∧
          line ∈ lines ∧ ¬ has_separator line.
Proof.
  revert metadata. induction lines as [|line lines IH]; intros metadata Hex.
  { by apply Exists_nil in Hex. }
  cbn [parse_loop].
  destruct (split_once line) as [[key val]|] eqn:Hsplit.
  - apply Exists_cons in Hex as [Hbad|Hex].
    { destruct Hbad. apply split_once_has_separator. by rewrite Hsplit. }
    destruct (decide (key ∈ knownKeys)).
    + destruct (IH (<[key:=val]> metadata) Hex) as (l & -> & ? & ?).
      exists l. repeat split; [by right|done].
    + destruct (IH metadata Hex) as (l & -> & ? & ?).
      exists l. repeat split; [by right|done].
  - exists line. repeat split; [by left|].
    intros H%split_once_has_separator. rewrite Hsplit in H. by destruct H.
Qed.

(** A line with an unknown key leaves the loop as it would be without it. *)
Lemma parse_loop_unknown (pre post : list str) (line key val : str) (metadata : gmap str str) :
  split_once line = Some (key, val) → key ∉ knownKeys →
  parse_loop (pre ++ line :: post) metadata = parse_loop (pre ++ post) metadata.
Proof.
  intros Hsplit Hkey. revert metadata.
  induction pre as [|l pre IH]; intros metadata.
  - cbn [app parse_loop]. rewrite Hsplit. by rewrite decide_False.
  - cbn [app parse_loop]. destruct (split_once l) as [[k v]|]; [|done].
    by case_decide.
Qed.

End parser_facts.

Section parser_spec.
Import UpdateInfo.

Lemma has_separator_forallb (lines : list str) :
  forallb (λ line, bool_decide (is_Some (split_once line))) lines = true →
  Forall has_separator lines.
Proof.
  rewrite forallb_forall, Forall_forall. intros H line Hin.
  apply split_once_has_separator. eapply bool_decide_unpack, Is_true_true, H.
  by apply list_elem_of_In.
Qed.

Lemma parseUpdateCheckResponse_unfold (data : str) (metadata : gmap str str) :
  parse_loop (splitlines data) ∅ = Ok metadata →
  parseUpdateCheckResponse data =
  if decide (requiredKeys ∖ dom metadata = ∅) then of_kwargs metadata
  else Raise (ValueError_MissingKeys (requiredKeys ∖ dom metadata)).
Proof. unfold parseUpdateCheckResponse. by intros ->. Qed.

(** C1. Let [lines] be the lines of the response text.  If every line has the
    [": "] separator and every required key ([version], [launcherUrl],
    [apiVersion]) occurs, the parse succeeds and every field of the descriptor
    is the value the text gives to that key, an optional field without a line
    being [None].  If every line has the separator and a required key does not
    occur, the parse fails with an error whose keys are exactly the required
    keys that do not occur.  A line without the separator fails the parse.  A
    line with an unknown key can be removed without changing the result. *)
Theorem parseUpdateCheckResponse_spec (data : str) :
  let lines := splitlines data in
  (Forall has_separator lines →
   (∀ k, k ∈ requiredKeys → is_Some (field_of k lines)) →
   ∃ info,
     parseUpdateCheckResponse data = Ok info ∧
     field_of (py "version") lines = Some (version info) ∧
     field_of (py "launcherUrl") lines = Some (launcherUrl info) ∧
     field_of (py "apiVersion") lines = Some (apiVersion info) ∧
     field_of (py "launcherHash") lines = launcherHash info ∧
     field_of (py "apiCompatTo") lines = apiCompatTo info ∧
     field_of (py "changesUrl") lines = changesUrl info ∧
     field_of (py "launcherInteractiveUrl") lines = launcherInteractiveUrl info) ∧
  (Forall has_separator lines →
   (∃ k, k ∈ requiredKeys ∧ field_of k lines = None) →
   ∃ keys,
     parseUpdateCheckResponse data = Raise (ValueError_MissingKeys keys) ∧
     ∀ k, k ∈ keys ↔ k ∈ requiredKeys ∧ field_of k lines = None) ∧
  (Exists (λ line, ¬ has_separator line) lines →
   ∃ line,
     parseUpdateCheckResponse data = Raise (ValueError_InvalidLine line) ∧
     line ∈ lines ∧ ¬ has_separator line) ∧
  (∀ (data' : str) (pre post : list str) (key val : str),
     lines = pre ++ (key ++ py ": " ++ val) :: post →
     ¬ has_separator key → key ∉ knownKeys →
     splitlines data' = pre ++ post →
     parseUpdateCheckResponse data = parseUpdateCheckResponse data').
Proof.
  intros lines.
  assert (Hmd : Forall has_separator lines →
    ∃ metadata, parse_loop lines ∅ = Ok metadata ∧
      (∀ k, k ∈ knownKeys → metadata !! k = field_of k lines) ∧
      (∀ k, k ∈ requiredKeys ∖ dom metadata ↔
            k ∈ requiredKeys ∧ field_of k lines = None)).
  { intros Hsep. destruct (parse_loop_ok lines ∅ Hsep) as (metadata & Hloop & Hget).
    assert (Hknown : ∀ k, k ∈ knownKeys → metadata !! k = field_of k lines).
    { intros k Hk. rewrite Hget, decide_True by done.
      by destruct (field_of k lines). }
    exists metadata. split_and!; [done|done|]. intros k.
    rewrite elem_of_difference, not_elem_of_dom.
    split; intros [Hk Hnone]; (split; [done|]).
    - by rewrite <-Hknown by by apply requiredKeys_known.
    - by rewrite Hknown by by apply requiredKeys_known. }
  split_and!.
  - intros Hsep Hreq. destruct (Hmd Hsep) as (metadata & Hloop & Hknown & Hmiss).
    rewrite (parseUpdateCheckResponse_unfold _ _ Hloop).
    rewrite decide_True; last first.
    { apply set_eq. intros k. rewrite Hmiss. split; [|set_solver].
      intros [Hk Hnone]. destruct (Hreq k Hk) as [v Hv]. congruence. }
    assert (Hv : ∀ k, k ∈ requiredKeys → ∃ v, metadata !! k = Some v ∧
                                           field_of k lines = Some v).
    { intros k Hk. destruct (Hreq k Hk) as [v Hv]. exists v.
      by rewrite Hknown by by apply requiredKeys_known. }
    destruct (Hv (py "version")) as (v & Hv1 & Hv2);
      [apply elem_of_requiredKeys; tauto|].
    destruct (Hv (py "launcherUrl")) as (u & Hu1 & Hu2);
      [apply elem_of_requiredKeys; tauto|].
    destruct (Hv (py "apiVersion")) as (a & Ha1 & Ha2);
      [apply elem_of_requiredKeys; tauto|].
    unfold of_kwargs. rewrite Hv1, Hu1, Ha1. eexists. split; [done|].
    cbn [version launcherUrl apiVersion launcherHash apiCompatTo changesUrl
         launcherInteractiveUrl].
    split_and!; try done; symmetry; apply Hknown, elem_of_knownKeys;
      change (parameters.*1)
        with [py "version"; py "launcherUrl"; py "apiVersion"; py "launcherHash";
              py "apiCompatTo"; py "changesUrl"; py "launcherInteractiveUrl"];
      rewrite !elem_of_cons; tauto.
  - intros Hsep (k0 & Hk0 & Hnone0).
    destruct (Hmd Hsep) as (metadata & Hloop & Hknown & Hmiss).
    rewrite (parseUpdateCheckResponse_unfold _ _ Hloop).
    rewrite decide_False; [by eexists|].
    intros Hempty. assert (k0 ∈ requiredKeys ∖ dom metadata) as Hin
      by by apply Hmiss.
    rewrite Hempty in Hin. by apply not_elem_of_empty in Hin.
  - intros Hex. destruct (parse_loop_invalid lines ∅ Hex) as (line & Hloop & ?).
    exists line. split; [|done]. unfold parseUpdateCheckResponse.
    fold lines. by rewrite Hloop.
  - intros data' pre post key val Hlines Hkey Hunknown Hlines'.
    unfold parseUpdateCheckResponse. fold lines. rewrite Hlines, Hlines'.
    by rewrite (parse_loop_unknown pre post _ key val ∅
                  (split_once_first key val Hkey) Hunknown).
Qed.

Lemma parseUpdateCheckResponse_spec_witness :
  (∃ info,
     parseUpdateCheckResponse sample_response = Ok info ∧
     version info = py "2025.2" ∧
     launcherHash info = Some (py "3c1bb0cd5d67dddc02fae50bf56d3a3a4cbc7204") ∧
     apiCompatTo info = None) ∧
  parseUpdateCheckResponse sample_response =
  parseUpdateCheckResponse sample_response_without_unknown.
Proof.
  pose proof (parseUpdateCheckResponse_spec sample_response)
    as (Hok & _ & _ & Hdrop).
  split.
  - destruct Hok as (info & Hparse & Hv & _ & _ & Hh & Hc & _).
    + apply has_separator_forallb. vm_compute. reflexivity.
    + intros k [->| [->| ->]]%elem_of_requiredKeys; vm_compute; eauto.
    + exists info. split; [exact Hparse|].
      set (lines := splitlines sample_response) in *.
      assert (field_of (py "version") lines = Some (py "2025.2")) as Ev
        by (vm_compute; reflexivity).
      assert (field_of (py "launcherHash") lines
              = Some (py "3c1bb0cd5d67dddc02fae50bf56d3a3a4cbc7204")) as Eh
        by (vm_compute; reflexivity).
      assert (field_of (py "apiCompatTo") lines = None) as Ec
        by (vm_compute; reflexivity).
      rewrite Ev in Hv. rewrite Eh in Hh. rewrite Ec in Hc.
      injection Hv as Hv. auto.
  - apply (Hdrop sample_response_without_unknown
             [py "version: 2025.2";
              py "launcherUrl: https://a.example/nvda.exe https://b.example/nvda.exe"]
             [py "apiVersion: 2025.2.0";
              py "launcherHash: 3c1bb0cd5d67dddc02fae50bf56d3a3a4cbc7204"]
             (py "X-Served-By") (py "cache-7")).
    + vm_compute. reflexivity.
    + intros H%split_once_has_separator. vm_compute in H. destruct H as [? H].
      discriminate H.
    + intros H%elem_of_knownKeys.
      vm_compute in H. repeat (apply elem_of_cons in H as [H|H]; [discriminate H|]).
      by apply elem_of_nil in H.
    + vm_compute. reflexivity.
Defined.

End parser_spec.

(** ** The query client *)

Section query_facts.

(** Building the parameters reads the state and changes nothing. *)
Lemma checkForUpdate_params_world (env : environment) (auto : bool) (w : world) :
  (checkForUpdate_params env auto w).2 = w.
Proof.
  unfold checkForUpdate_params. destruct w as [st sf fs ac sd tk uu po tr].
  unfold mbind, M_bind, lift.
  destruct (winVersionText env) as [text|e]; [|done].
  destruct (auto && conf_allowUsageStats env); [|done].
  unfold state_get, get_state, mbind, M_bind. cbn.
  by destruct (st !! "id").
Qed.

(** The names of the parameters, in the order of the dictionary. *)
Lemma checkForUpdate_params_keys (env : environment) (auto : bool) (w : world)
    (params : list (string * value)) :
  (checkForUpdate_params env auto w).1 = Ok params →
  params.*1 =
  ["autoCheck"; "allowUsageStats"; "version"; "versionType"; "osVersion"; "x64";
   "osArchitecture"]
  ++ (if auto && conf_allowUsageStats env then telemetryKeys else []).
Proof.
  unfold checkForUpdate_params. destruct w as [st sf fs ac sd tk uu po tr].
  unfold mbind, M_bind, lift.
  destruct (winVersionText env) as [text|e]; [|done].
  destruct (auto && conf_allowUsageStats env).
  - unfold state_get, get_state, mbind, M_bind. cbn.
    destruct (st !! "id") as [id|]; [|done].
    cbn. by intros [= <-].
  - cbn. by intros [= <-].
Qed.

(** The request is the only thing [checkForUpdate] does to the world. *)
Lemma checkForUpdate_world (env : environment) (auto : bool) (w : world) :
  (checkForUpdate env auto w).2 =
  match (checkForUpdate_params env auto w).1 with
  | Ok params => (emit (EvFetch (_getCheckURL env) params) w).2
  | Raise _ => w
  end.
Proof.
  unfold checkForUpdate.
  pose proof (checkForUpdate_params_world env auto w) as Hw.
  unfold mbind at 1. unfold M_bind at 1.
  destruct (checkForUpdate_params env auto w) as [[params|e] w']; cbn in Hw |- *;
    subst w'; [|done].
  unfold _fetchUrlAndUpdateRootCertificates, mbind, M_bind, lift, emit, raise.
  cbn.
  destruct (fetch env (_getCheckURL env) params) as [r|e]; [|by cbn].
  case_bool_decide; [by cbn|].
  destruct (decode_utf8 (content r)) as [data|e]; [|by cbn].
  cbn. case_bool_decide; cbn; [done|].
  by destruct (UpdateInfo.parseUpdateCheckResponse data) as [?|[]].
Qed.

(** C7. Whatever request [checkForUpdate] sends, a telemetry parameter (id,
    language, installed, synthDriver, brailleDisplay, outputBrailleTable) is
    among its query parameters exactly when the check is automatic and usage
    statistics are allowed: with [auto] false or the sharing disabled none of
    them is sent, with both true all of them are. *)
Theorem checkForUpdate_telemetry (env : environment) (auto : bool) (w : world) :
  ∃ sent,
    trace (checkForUpdate env auto w).2 = trace w ++ sent ∧
    ∀ url params, EvFetch url params ∈ sent →
    ∀ k, k ∈ telemetryKeys →
         k ∈ params.*1 ↔ auto = true ∧ conf_allowUsageStats env = true.
Proof.
  rewrite checkForUpdate_world.
  destruct (checkForUpdate_params env auto w).1 as [params|e] eqn:Hparams.
  - exists [EvFetch (_getCheckURL env) params]. split; [done|].
    intros url params' [= _ <-]%list_elem_of_singleton k Hk.
    rewrite (checkForUpdate_params_keys _ _ _ _ Hparams).
    rewrite <-andb_true_iff.
    destruct (auto && conf_allowUsageStats env).
    + split; [done|]. intros _. apply elem_of_app. by right.
    + split; [|done]. rewrite app_nil_r. intros Hin. exfalso.
      unfold telemetryKeys in Hk.
      repeat (apply elem_of_cons in Hk as [->|Hk];
              [by repeat (apply elem_of_cons in Hin as [Hin|Hin]; [done|]);
                  apply elem_of_nil in Hin|]).
      by apply elem_of_nil in Hk.
  - exists []. split; [by rewrite app_nil_r|].
    by intros url params Hin%elem_of_nil.
Qed.

(** C9. When the request is answered with status 200 and an empty body,
    [checkForUpdate] returns [None] and raises nothing. *)
Theorem checkForUpdate_empty_body (env : environment) (auto : bool) (w : world)
    (params : list (string * value)) (r : response) :
  (checkForUpdate_params env auto w).1 = Ok params →
  fetch env (_getCheckURL env) params = Ok r →
  status_code r = 200 →
  content r = [] →
  (checkForUpdate env auto w).1 = Ok None.
Proof.
  intros Hparams Hfetch Hstatus Hcontent. unfold checkForUpdate.
  unfold mbind at 1. unfold M_bind at 1.
  destruct (checkForUpdate_params env auto w) as [[params'|e] w']; cbn in Hparams;
    [|done].
  injection Hparams as ->.
  unfold _fetchUrlAndUpdateRootCertificates, mbind, M_bind, lift, emit, raise.
  cbn. rewrite Hfetch, Hstatus, Hcontent. done.
Qed.

Lemma checkForUpdate_empty_body_witness :
  (checkForUpdate (sample_env no_update no_mirror) true
     (sample_world pending_state ∅)).1 = Ok None.
Proof.
  eapply (checkForUpdate_empty_body (sample_env no_update no_mirror) true
            (sample_world pending_state ∅) _
            {| status_code := 200; content := [] |}).
  - vm_compute. reflexivity.
  - reflexivity.
  - reflexivity.
  - reflexivity.
Defined.

End query_facts.

(** ** Installer hand-off *)

(** C8. The argument vector is a function of the run mode: the install flags
    and [-m] for an installed copy, the portable flags and the application
    directory for a portable copy that can write to its directory, the launcher
    flag alone otherwise; then [--disable-addons] exactly when add-ons are
    disabled, then [--config-path] and the configuration directory.  Two runs
    that agree on the run mode get the same command line. *)
Theorem generate_updateParameters_by_run_mode (env : environment) :
  let mode :=
    if isInstalledCopy env then [py "--install"; py "-m"]
    else if appDir_writable env
         then [py "--create-portable"; py "-m"; py "--portable-path"; appDir env]
         else [py "--launcher"] in
  let addons := if disableAddons env then [py "--disable-addons"] else [] in
  executeParams env = mode ++ addons ++ [py "--config-path"; configDir env] ∧
  _generate_updateParameters env
  = list2cmdline (mode ++ addons ++ [py "--config-path"; configDir env]) ∧
  ∀ env',
    isInstalledCopy env' = isInstalledCopy env →
    appDir_writable env' = appDir_writable env →
    appDir env' = appDir env →
    disableAddons env' = disableAddons env →
    configDir env' = configDir env →
    _generate_updateParameters env' = _generate_updateParameters env.
Proof.
  intros mode addons.
  assert (executeParams env = mode ++ addons ++ [py "--config-path"; configDir env])
    as Hvec.
  { unfold executeParams, mode, addons.
    destruct (isInstalledCopy env), (appDir_writable env), (disableAddons env);
      reflexivity. }
  split_and!; [done|by unfold _generate_updateParameters; rewrite Hvec|].
  intros env' H1 H2 H3 H4 H5.
  unfold _generate_updateParameters, executeParams.
  by rewrite H1, H2, H3, H4, H5.
Qed.

(** ** The persisted state *)

(** Unfolds the monad of module code and computes. *)
Ltac mred :=
  repeat (progress
            (unfold mbind, M_bind, mret, M_ret, fmap, M_fmap, lift, raise, try_except,
               emit, get_state, put_state, get_files, put_files, get_stateFile,
               put_stateFile, get_autoChecker, put_autoChecker, state_get,
               state_set, time_time, uuid4, guiExecTimer_gone, shouldCancel;
             cbn)).

Section state_facts.

Lemma _setStateToNone_eq (w : world) :
  _setStateToNone w = (Ok (), with_state (reset_pending (state w)) w).
Proof. by destruct w. Qed.

Lemma reset_pending_cleared (st : gmap string value) :
  pending_cleared (reset_pending st).
Proof. unfold pending_cleared, reset_pending. by simplify_map_eq. Qed.

Lemma reset_pending_other (st : gmap string value) (k : string) :
  k ∉ ["pendingUpdateFile"; "pendingUpdateVersion"; "pendingUpdateAPIVersion";
       "pendingUpdateBackCompatToAPIVersion"] →
  reset_pending st !! k = st !! k.
Proof.
  rewrite !not_elem_of_cons. intros (? & ? & ? & ? & _).
  unfold reset_pending. by rewrite !lookup_insert_ne.
Qed.

End state_facts.

Lemma executeUpdate_eq (env : environment) (destPath : str) (w : world) :
  destPath ≠ [] →
  _executeUpdate env destPath w =
  (Ok (),
   mkWorld (reset_pending (state w))
     (if stateFile_writable env then Some (reset_pending (state w))
      else stateFile w)
     (files w) (autoChecker w) true (ticks w) (uuids w) (polls w)
     (trace w
      ++ [if stateFile_writable env then EvPickleDump (reset_pending (state w))
          else EvLog "debugWarning" (py "Error saving state")]
      ++ (if shuttingDown w
          then [EvLog "error"
                  (py "NVDA already in process of exiting, this indicates a logic error.")]
          else [EvQueueShutdown destPath (_generate_updateParameters env)]))).
Proof.
  intros Hpath. unfold _executeUpdate.
  assert (negb (truthy (VStr destPath)) = false) as ->.
  { cbn. by rewrite bool_decide_eq_false_2. }
  unfold saveState, triggerNVDAExit.
  destruct w as [st sf fs ac sd tk uu po tr].
  destruct (stateFile_writable env), sd; mred; rewrite _setStateToNone_eq; mred;
    by rewrite <-?app_assoc.
Qed.

(** C6. For a non-empty path, [_executeUpdate] puts the four pending fields to
    their none values, then saves the state (the state file then holds the
    cleared state, when it can be written), and only then asks the host to shut
    down and relaunch; when the host is already shutting down it logs the logic
    error and queues no second shutdown. *)
Theorem executeUpdate_clears_then_hands_off (env : environment) (destPath : str)
    (w : world) :
  destPath ≠ [] →
  let w' := (_executeUpdate env destPath w).2 in
  let cleared := reset_pending (state w) in
  (_executeUpdate env destPath w).1 = Ok () ∧
  pending_cleared cleared ∧
  state w' = cleared ∧
  stateFile w' = (if stateFile_writable env then Some cleared else stateFile w) ∧
  shuttingDown w' = true ∧
  trace w' =
    trace w
    ++ [if stateFile_writable env then EvPickleDump cleared
        else EvLog "debugWarning" (py "Error saving state")]
    ++ (if shuttingDown w
        then [EvLog "error"
                (py "NVDA already in process of exiting, this indicates a logic error.")]
        else [EvQueueShutdown destPath (_generate_updateParameters env)]).
Proof.
  intros Hpath w' cleared. subst w' cleared.
  rewrite (executeUpdate_eq env destPath w Hpath). cbn.
  split_and!; try done. apply reset_pending_cleared.
Qed.

Lemma executeUpdate_clears_then_hands_off_witness :
  let env := sample_env no_update no_mirror in
  let w' := (_executeUpdate env pending_file (sample_world pending_state ∅)).2 in
  state w' !! "pendingUpdateFile" = Some VNone ∧
  stateFile w' = Some (state w') ∧
  trace w' = [EvPickleDump (state w');
              EvQueueShutdown pending_file (_generate_updateParameters env)].
Proof.
  intros env w'.
  destruct (executeUpdate_clears_then_hands_off env pending_file
              (sample_world pending_state ∅))
    as (_ & Hcleared & Hstate & Hfile & _ & Htrace).
  { discriminate. }
  fold w' in Hstate, Hfile, Htrace.
  split_and!.
  - rewrite Hstate. apply Hcleared.
  - rewrite Hfile, Hstate. reflexivity.
  - rewrite Htrace, Hstate. reflexivity.
Defined.

(** ** Reading the pending update *)

Section pending_facts.

(** [getPendingUpdate] either returns the recorded update and leaves the world
    alone, or returns [None] and resets the four fields. *)
Lemma getPendingUpdate_cases (w : world) :
  (∃ f v a b,
     state w !! "pendingUpdateFile" = Some f ∧
     state w !! "pendingUpdateVersion" = Some v ∧
     state w !! "pendingUpdateAPIVersion" = Some a ∧
     state w !! "pendingUpdateBackCompatToAPIVersion" = Some b ∧
     truthy f = true ∧ isfile (files w) f = true ∧
     getPendingUpdate w = (Ok (Some (f, v, or_zero a, or_zero b)), w))
  ∨
  (getPendingUpdate w = (Ok None, with_state (reset_pending (state w)) w) ∧
   (pending_file_missing (state w) (files w) ∨
    (∃ f, state w !! "pendingUpdateFile" = Some f ∧ truthy f = false) ∨
    state w !! "pendingUpdateVersion" = None ∨
    state w !! "pendingUpdateAPIVersion" = None ∨
    state w !! "pendingUpdateBackCompatToAPIVersion" = None)).
Proof.
  destruct w as [st sf fs ac sd tk uu po tr]. unfold getPendingUpdate. mred.
  destruct (st !! "pendingUpdateFile") as [f|] eqn:Hf; mred; last first.
  { right. rewrite ?_setStateToNone_eq. split; [reflexivity|]. left.
    intros f. cbn. by rewrite Hf. }
  destruct (st !! "pendingUpdateVersion") as [v|] eqn:Hv; mred; last first.
  { right. rewrite ?_setStateToNone_eq. split; [reflexivity|]. tauto. }
  destruct (st !! "pendingUpdateAPIVersion") as [a|] eqn:Ha; mred; last first.
  { right. rewrite ?_setStateToNone_eq. split; [reflexivity|]. tauto. }
  destruct (st !! "pendingUpdateBackCompatToAPIVersion") as [b|] eqn:Hb; mred;
    last first.
  { right. rewrite ?_setStateToNone_eq. split; [reflexivity|]. tauto. }
  destruct (truthy f) eqn:Htruthy; cbn.
  - destruct (isfile fs f) eqn:Hfile; cbn.
    + left. by exists f, v, a, b.
    + right. rewrite ?_setStateToNone_eq. split; [reflexivity|]. left.
      intros f'. cbn. rewrite Hf. by intros [= <-].
  - right. rewrite ?_setStateToNone_eq. split; [reflexivity|]. right. left. by exists f.
Qed.

(** Reading the pending update keeps everything but the four fields. *)
Lemma getPendingUpdate_frame (w : world) :
  let w' := (getPendingUpdate w).2 in
  (state w' = state w ∨ state w' = reset_pending (state w)) ∧
  w' = with_state (state w') w.
Proof.
  destruct (getPendingUpdate_cases w) as [(f & v & a & b & H)|[-> _]].
  - destruct H as (_ & _ & _ & _ & _ & _ & ->). cbn. split; [by left|].
    by destruct w.
  - cbn. split; [by right|done].
Qed.

(** When the state names no existing file, the read returns [None] and
    leaves the four fields at their none values. *)
Lemma getPendingUpdate_missing (w : world) :
  pending_file_missing (state w) (files w) →
  getPendingUpdate w = (Ok None, with_state (reset_pending (state w)) w).
Proof.
  intros Hmissing.
  destruct (getPendingUpdate_cases w) as [(f & v & a & b & H)|[-> _]]; [|done].
  destruct H as (Hf & _ & _ & _ & _ & Hfile & _).
  by rewrite (Hmissing f Hf) in Hfile.
Qed.

Lemma isPendingUpdate_eq (w : world) :
  isPendingUpdate w =
  (Ok (bool_decide (is_Some (default None (match (getPendingUpdate w).1 with
                                           | Ok p => Some p
                                           | Raise _ => None
                                           end)))),
   (getPendingUpdate w).2).
Proof.
  unfold isPendingUpdate. mred.
  destruct (getPendingUpdate_cases w) as [(f & v & a & b & H)|[-> _]].
  - destruct H as (_ & _ & _ & _ & _ & _ & ->). done.
  - done.
Qed.

End pending_facts.

(** ** The background check *)

Section checker_facts.

Lemma rotate_id_frame (env : environment) (w : world) :
  let w0 := (UpdateChecker.rotate_id env w).2 in
  trace w0 = trace w ∧ stateFile w0 = stateFile w ∧
  autoChecker w0 = autoChecker w ∧
  ∀ k, k ≠ "id" → state w0 !! k = state w !! k.
Proof.
  unfold UpdateChecker.rotate_id. destruct w as [st sf fs ac sd tk uu po tr]. mred.
  destruct (st !! "lastCheck") as [[| | |q|]|]; mred; try done.
  case_bool_decide; mred; [|done].
  split_and!; try done. intros k Hk. by rewrite lookup_insert_ne.
Qed.

Lemma checkForUpdate_frame (env : environment) (auto : bool) (w : world) :
  let w1 := (checkForUpdate env auto w).2 in
  state w1 = state w ∧ stateFile w1 = stateFile w ∧
  autoChecker w1 = autoChecker w ∧
  ∃ sent, trace w1 = trace w ++ sent ∧
          ∀ c, EvCallAfter c ∉ sent.
Proof.
  cbn zeta. rewrite checkForUpdate_world.
  destruct (checkForUpdate_params env auto w).1 as [params|e].
  - split_and!; try done. eexists. split; [done|].
    by intros c [=]%list_elem_of_singleton.
  - split_and!; try done. exists []. split; [by rewrite app_nil_r|].
    by intros c ?%elem_of_nil.
Qed.

Lemma bg_after_check (env : environment) (AUTO : bool) (w w1 : world)
    (info : UpdateInfo.t) :
  (UpdateChecker.rotate_id env w).1 = Ok () →
  checkForUpdate env AUTO (UpdateChecker.rotate_id env w).2 = (Ok (Some info), w1) →
  UpdateChecker._bg env AUTO w = after_check env AUTO info w1.
Proof.
  intros Hrot Hchk. unfold UpdateChecker._bg.
  unfold mbind at 1. unfold M_bind at 1.
  destruct (UpdateChecker.rotate_id env w) as [[[]|e] w0]; [|done]. cbn in Hchk.
  unfold mbind at 1. unfold M_bind at 1. unfold try_except, fmap, M_fmap.
  by rewrite Hchk.
Qed.

(** The outcome of [after_check]: in an automatic check a missing
    [dontRemindVersion] raises [KeyError]; otherwise a dialog is requested
    unless the check is automatic and the version is the one already recorded,
    then the version is recorded in the state, then the state is saved, then
    the timer is set again. *)
Lemma after_check_cases (env : environment) (AUTO : bool) (info : UpdateInfo.t)
    (w1 : world) :
  let r := after_check env AUTO info w1 in
  let recorded :=
    <["lastCheck" := VNum (clock env (ticks w1))]>
      (<["dontRemindVersion" := VStr (UpdateInfo.version info)]> (state w1)) in
  (AUTO = true ∧ state w1 !! "dontRemindVersion" = None ∧
   r = (Raise (KeyError "dontRemindVersion"), w1))
  ∨
  (r.1 = Ok () ∧
   state r.2 = recorded ∧
   stateFile r.2 = (if stateFile_writable env then Some recorded else stateFile w1) ∧
   trace r.2 =
     trace w1
     ++ (if AUTO then
           if dismissed (state w1) (UpdateInfo.version info) then []
           else [EvCallAfter (UpdateResultDialog (Some info) true)]
         else [EvCallAfter ProgressDialog_done;
               EvCallAfter (UpdateResultDialog (Some info) false)])
     ++ [if stateFile_writable env then EvPickleDump recorded
         else EvLog "debugWarning" (py "Error saving state")]
     ++ (if autoChecker w1
         then [EvCallAfter Timer_Stop;
               EvCallAfter (Timer_Start (CHECK_INTERVAL * 1000) true)]
         else [])).
Proof.
  intros r recorded. subst r recorded. unfold after_check.
  destruct w1 as [st sf fs ac sd tk uu po tr].
  destruct AUTO.
  - unfold AutoUpdateChecker._result. mred.
    destruct (st !! "dontRemindVersion") as [old|] eqn:Hold; mred; [right|by left].
    unfold saveState, AutoUpdateChecker.setNextCheck, dismissed. cbn. rewrite Hold.
    destruct (eq_str old (UpdateInfo.version info)); mred;
      destruct (stateFile_writable env); mred; destruct ac; mred;
      rewrite <-?app_assoc; repeat split.
  - right. unfold UpdateChecker._result, saveState,
      AutoUpdateChecker.setNextCheck. mred.
    destruct (stateFile_writable env); mred; destruct ac; mred;
      rewrite <-?app_assoc; repeat split.
Qed.

Lemma not_dialog_in_tail (saved : event) (timer : list event) :
  (∀ i a, saved ≠ EvCallAfter (UpdateResultDialog i a)) →
  timer = [] ∨ timer = [EvCallAfter Timer_Stop;
                        EvCallAfter (Timer_Start (CHECK_INTERVAL * 1000) true)] →
  ∀ i a, EvCallAfter (UpdateResultDialog i a) ∉ [saved] ++ timer.
Proof.
  intros Hsaved Htimer i a Hin. apply elem_of_app in Hin as [Hin|Hin].
  - apply list_elem_of_singleton in Hin. by eapply Hsaved.
  - destruct Htimer as [->| ->].
    + by apply elem_of_nil in Hin.
    + repeat (apply elem_of_cons in Hin as [[=]|Hin]). by apply elem_of_nil in Hin.
Qed.

(** C10. Let the check of [_bg] return the descriptor [info].  If [_bg]
    completes, the state then holds [info]'s version as [dontRemindVersion], and
    the state was saved after the version was recorded: the saved state is the
    final one.  And an automatic check that finds [info]'s version already
    stored as [dontRemindVersion] completes without asking for the update
    dialog. *)
Theorem bg_records_dontRemindVersion (env : environment) (AUTO : bool) (w : world)
    (info : UpdateInfo.t) :
  (UpdateChecker.rotate_id env w).1 = Ok () →
  (checkForUpdate env AUTO (UpdateChecker.rotate_id env w).2).1 = Ok (Some info) →
  let r := UpdateChecker._bg env AUTO w in
  let version := VStr (UpdateInfo.version info) in
  (r.1 = Ok () →
   state r.2 !! "dontRemindVersion" = Some version ∧
   ∃ before saved timer,
     trace r.2 = before ++ [saved] ++ timer ∧
     (∀ st, EvPickleDump st ∉ timer) ∧
     (stateFile_writable env = true →
      saved = EvPickleDump (state r.2) ∧ stateFile r.2 = Some (state r.2))) ∧
  (AUTO = true → state w !! "dontRemindVersion" = Some version →
   r.1 = Ok () ∧
   ∃ new, trace r.2 = trace w ++ new ∧
          ∀ i a, EvCallAfter (UpdateResultDialog i a) ∉ new).
Proof.
  intros Hrot Hchk r version.
  destruct (checkForUpdate env AUTO (UpdateChecker.rotate_id env w).2)
    as [chk w1] eqn:Hw1.
  cbn in Hchk. subst chk.
  assert (r = after_check env AUTO info w1) as Hr
    by by apply bg_after_check.
  destruct (rotate_id_frame env w) as (Htr0 & _ & _ & Hst0).
  destruct (checkForUpdate_frame env AUTO (UpdateChecker.rotate_id env w).2)
    as (Hst1 & _ & _ & sent & Htr1 & Hsent).
  rewrite Hw1 in Hst1, Htr1. cbn in Hst1, Htr1.
  assert (timer_ok : ∀ b : bool,
    (if b then [EvCallAfter Timer_Stop;
                EvCallAfter (Timer_Start (CHECK_INTERVAL * 1000) true)]
     else []) = [] ∨
    (if b then [EvCallAfter Timer_Stop;
                EvCallAfter (Timer_Start (CHECK_INTERVAL * 1000) true)]
     else []) = [EvCallAfter Timer_Stop;
                 EvCallAfter (Timer_Start (CHECK_INTERVAL * 1000) true)]).
  { intros []; auto. }
  split.
  - intros Hok.
    destruct (after_check_cases env AUTO info w1)
      as [(_ & _ & Hraise)|(_ & Hstate & Hfile & Htrace)].
    { rewrite <-Hr in Hraise. by rewrite Hraise in Hok. }
    rewrite <-Hr in Hstate, Hfile, Htrace. split.
    + rewrite Hstate. by simplify_map_eq.
    + eexists _, _, _. split; [rewrite Htrace, app_assoc; reflexivity|]. split.
      * intros st Hin. destruct (timer_ok (autoChecker w1)) as [E|E];
          rewrite E in Hin.
        -- by apply elem_of_nil in Hin.
        -- repeat (apply elem_of_cons in Hin as [[=]|Hin]).
           by apply elem_of_nil in Hin.
      * intros Hwr. rewrite Hwr in Hfile |- *. by rewrite Hfile, Hstate.
  - intros -> Hstored.
    assert (state w1 !! "dontRemindVersion" = Some version) as Hstored1.
    { by rewrite Hst1, Hst0. }
    destruct (after_check_cases env true info w1)
      as [(_ & Hnone & _)|(Hok & _ & _ & Htrace)].
    { by rewrite Hnone in Hstored1. }
    rewrite <-Hr in Hok, Htrace. split; [done|].
    eexists. split.
    { rewrite Htrace, Htr1, Htr0, <-app_assoc. reflexivity. }
    unfold dismissed. rewrite Hstored1. cbn.
    rewrite bool_decide_eq_true_2 by done. cbn.
    intros i a Hin. apply elem_of_app in Hin as [Hin|Hin].
    { by eapply Hsent. }
    revert i a Hin. apply not_dialog_in_tail; [|apply timer_ok].
    intros i a. by destruct (stateFile_writable env).
Qed.

Lemma bg_records_dontRemindVersion_witness :
  let env := sample_env update_available no_mirror in
  let first := UpdateChecker._bg env true (sample_world pending_state ∅) in
  let second := UpdateChecker._bg env true first.2 in
  state first.2 !! "dontRemindVersion" = Some (VStr (py "2025.2")) ∧
  ∃ new, trace second.2 = trace first.2 ++ new ∧
         ∀ i a, EvCallAfter (UpdateResultDialog i a) ∉ new.
Proof.
  intros env first second.
  destruct (bg_records_dontRemindVersion env true (sample_world pending_state ∅)
              sample_info) as [Hfirst _].
  { vm_compute. reflexivity. }
  { vm_compute. reflexivity. }
  destruct Hfirst as [Hstored _].
  { vm_compute. reflexivity. }
  split; [exact Hstored|].
  destruct (bg_records_dontRemindVersion env true first.2 sample_info)
    as [_ Hsecond].
  { vm_compute. reflexivity. }
  { vm_compute. reflexivity. }
  destruct Hsecond as [_ Hnew]; [reflexivity|exact Hstored|].
  exact Hnew.
Defined.

End checker_facts.

(** ** The scheduler *)

Section scheduler_facts.

Lemma py_max_Qmax (x y : Q) : (py_max x y == Qmax x y)%Q.
Proof.
  unfold py_max. destruct (Qle_bool y x) eqn:H.
  - apply Qle_bool_iff in H. symmetry. by apply Q.max_l.
  - symmetry. apply Q.max_r. apply Qlt_le_weak, Qnot_le_lt.
    intros Hle%Qle_bool_iff. congruence.
Qed.

Lemma py_min_Qmin (x y : Q) : (py_min x y == Qmin x y)%Q.
Proof.
  unfold py_min. destruct (Qle_bool x y) eqn:H.
  - apply Qle_bool_iff in H. symmetry. by apply Q.min_l.
  - symmetry. apply Q.min_r. apply Qlt_le_weak, Qnot_le_lt.
    intros Hle%Qle_bool_iff. congruence.
Qed.

Lemma py_int_Qfloor (x : Q) : (0 <= x)%Q → py_int x = Qfloor x.
Proof.
  destruct x as [n d]. unfold Qle, py_int, Qfloor. cbn. intros H.
  apply Z.quot_div_nonneg; lia.
Qed.

Lemma elapsed_bounds (now lastCheck : Q) :
  (0 <= Qmin (Qmax (now - lastCheck) 0) (inject_Z CHECK_INTERVAL))%Q ∧
  (Qmin (Qmax (now - lastCheck) 0) (inject_Z CHECK_INTERVAL)
   <= inject_Z CHECK_INTERVAL)%Q.
Proof.
  split.
  - apply Q.min_glb; [apply Q.le_max_r|done].
  - apply Q.le_min_r.
Qed.

Lemma secsTillNext_floor (now lastCheck : Q) :
  secsTillNext now lastCheck =
  CHECK_INTERVAL
  - Qfloor (Qmin (Qmax (now - lastCheck) 0) (inject_Z CHECK_INTERVAL)).
Proof.
  unfold secsTillNext. f_equal.
  assert (py_min (py_max (now - lastCheck) 0) (inject_Z CHECK_INTERVAL)
          == Qmin (Qmax (now - lastCheck) 0) (inject_Z CHECK_INTERVAL))%Q as E.
  { rewrite py_min_Qmin. by rewrite py_max_Qmax. }
  rewrite py_int_Qfloor.
  - by rewrite E.
  - rewrite E. apply elapsed_bounds.
Qed.

Lemma init_eq (env : environment) (w w2 : world) (lastCheck : Q) :
  (if conf_startupNotification env then isPendingUpdate else mret false : M bool) w
  = (Ok false, w2) →
  state w2 !! "lastCheck" = Some (VNum lastCheck) →
  AutoUpdateChecker.__init__ env w =
  (Ok (),
   mkWorld (state w2) (stateFile w2) (files w2) (autoChecker w2)
     (shuttingDown w2) (S (ticks w2)) (uuids w2) (polls w2)
     (trace w2
      ++ [EvTimerStart (secsTillNext (clock env (ticks w2)) lastCheck * 1000)
            true])).
Proof.
  intros Hnotify Hlast. unfold AutoUpdateChecker.__init__.
  unfold mbind at 1. unfold M_bind at 1. rewrite Hnotify.
  destruct w2 as [st sf fs ac sd tk uu po tr]. cbn in Hlast. mred.
  rewrite Hlast. by mred.
Qed.

Lemma init_timer (env : environment) (w : world) (lastCheck : Q) :
  conf_startupNotification env = false ∨ (isPendingUpdate w).1 = Ok false →
  state w !! "lastCheck" = Some (VNum lastCheck) →
  (AutoUpdateChecker.__init__ env w).1 = Ok () ∧
  trace (AutoUpdateChecker.__init__ env w).2 =
  trace w ++ [EvTimerStart (secsTillNext (clock env (ticks w)) lastCheck * 1000) true].
Proof.
  intros Hdue Hlast.
  destruct (conf_startupNotification env) eqn:Hconf.
  - destruct Hdue as [?|Hdue]; [done|].
    assert (isPendingUpdate w
            = (Ok false, with_state (reset_pending (state w)) w)) as Hpending.
    { unfold isPendingUpdate in Hdue |- *. revert Hdue. unfold mbind, M_bind.
      destruct (getPendingUpdate_cases w) as [(f & v & a & b & H)|[-> _]].
      - destruct H as (_ & _ & _ & _ & _ & _ & ->). cbn. discriminate.
      - done. }
    rewrite (init_eq env w (with_state (reset_pending (state w)) w) lastCheck).
    + by destruct w.
    + by rewrite Hconf.
    + destruct w as [st sf fs ac sd tk uu po tr]. cbn in *.
      rewrite reset_pending_other; [done|].
      rewrite !not_elem_of_cons. split_and!; try done. apply not_elem_of_nil.
  - rewrite (init_eq env w w lastCheck); [by destruct w|by rewrite Hconf|done].
Qed.

End scheduler_facts.

(** C5, as the code has it.  When no notification of a pending update is due
    (the start-up notification is off, or no update is pending),
    [AutoUpdateChecker.__init__] starts the timer once, with the delay
    [secsTillNext now lastCheck] in milliseconds.  That delay is
    [CHECK_INTERVAL] minus the whole seconds of [min(elapsed, CHECK_INTERVAL)],
    where [elapsed] is [now - lastCheck], or zero when that is negative; it
    lies between 0 and [CHECK_INTERVAL]; it is 0 for
    [lastCheck = now - 2 * CHECK_INTERVAL], and [CHECK_INTERVAL] for
    [lastCheck = now] and whenever the last check lies in the future. *)
Theorem initial_delay_spec (env : environment) (w : world) (lastCheck : Q) :
  let now := clock env (ticks w) in
  let elapsed := Qmax (now - lastCheck) 0 in
  let delay := secsTillNext now lastCheck in
  (conf_startupNotification env = false ∨ (isPendingUpdate w).1 = Ok false →
   state w !! "lastCheck" = Some (VNum lastCheck) →
   (AutoUpdateChecker.__init__ env w).1 = Ok () ∧
   trace (AutoUpdateChecker.__init__ env w).2 =
   trace w ++ [EvTimerStart (delay * 1000) true]) ∧
  delay = CHECK_INTERVAL - Qfloor (Qmin elapsed (inject_Z CHECK_INTERVAL)) ∧
  0 ≤ delay ≤ CHECK_INTERVAL ∧
  ((lastCheck == now - 2 * inject_Z CHECK_INTERVAL)%Q → delay = 0) ∧
  ((lastCheck == now)%Q → delay = CHECK_INTERVAL) ∧
  ((now <= lastCheck)%Q → delay = CHECK_INTERVAL).
Proof.
  intros now elapsed delay.
  assert (delay = CHECK_INTERVAL
                  - Qfloor (Qmin elapsed (inject_Z CHECK_INTERVAL))) as Hdelay
    by apply secsTillNext_floor.
  destruct (elapsed_bounds now lastCheck) as [Hlo Hhi]. fold elapsed in Hlo, Hhi.
  split_and!.
  - apply init_timer.
  - done.
  - apply Qfloor_resp_le in Hhi. rewrite Qfloor_Z in Hhi. lia.
  - apply Qfloor_resp_le in Hlo. rewrite Hdelay.
    change 0%Q with (inject_Z 0) in Hlo. rewrite Qfloor_Z in Hlo. lia.
  - intros Hlast. rewrite Hdelay.
    assert (Qmin elapsed (inject_Z CHECK_INTERVAL) == inject_Z CHECK_INTERVAL)%Q
      as ->.
    { apply Q.min_r. unfold elapsed.
      eapply Qle_trans; [|apply Q.le_max_l].
      assert (now - lastCheck == 2 * inject_Z CHECK_INTERVAL)%Q as ->
        by (rewrite Hlast; ring).
      by vm_compute. }
    rewrite Qfloor_Z. lia.
  - intros Hlast. rewrite Hdelay.
    assert (Qmin elapsed (inject_Z CHECK_INTERVAL) == inject_Z 0)%Q as ->.
    { unfold elapsed. rewrite Hlast.
      assert (now - now == 0)%Q as -> by ring.
      rewrite Q.max_id. by apply Q.min_l. }
    rewrite Qfloor_Z. lia.
  - intros Hlast. rewrite Hdelay.
    assert (Qmin elapsed (inject_Z CHECK_INTERVAL) == inject_Z 0)%Q as ->.
    { unfold elapsed. rewrite Q.max_r.
      - by apply Q.min_l.
      - apply Qle_minus_iff in Hlast. apply Qle_minus_iff.
        assert (0 + - (now - lastCheck) == lastCheck + - now)%Q as -> by ring.
        done. }
    rewrite Qfloor_Z. lia.
Qed.

(** At half a second after the last check the timer is set to a full
    [CHECK_INTERVAL], not to the half second less of the specification's
    formula. *)
Lemma secsTillNext_drops_fraction :
  secsTillNext (1 # 2) 0 = 86400 ∧
  (claimed_delay (1 # 2) 0 == 172799 # 2)%Q ∧
  ¬ (inject_Z (secsTillNext (1 # 2) 0) == claimed_delay (1 # 2) 0)%Q.
Proof.
  split_and!.
  - reflexivity.
  - reflexivity.
  - intros H. vm_compute in H. discriminate H.
Qed.

(** ** Start-up *)

Section startup_facts.

Lemma pending_cleared_reset_or_same (st st' : gmap string value) :
  pending_cleared st → st' = st ∨ st' = reset_pending st → pending_cleared st'.
Proof. intros H [->| ->]; [done|apply reset_pending_cleared]. Qed.

(** The first part of [initialize] always completes and keeps the files.  It
    leaves the four fields cleared when the state file could not be loaded,
    or holds no [pendingUpdateVersion], or holds the running version;
    otherwise it leaves the recorded pending file as loaded. *)
Lemma load_state_spec (env : environment) (w : world) :
  ∃ wA,
    load_state env w = (Ok (), wA) ∧ files wA = files w ∧
    match stateFile w with
    | None => pending_cleared (state wA)
    | Some st =>
      match st !! "pendingUpdateVersion" with
      | None => pending_cleared (state wA)
      | Some v =>
        if eq_str v (running_version env) then pending_cleared (state wA)
        else state wA !! "pendingUpdateFile" = st !! "pendingUpdateFile"
      end
    end.
Proof.
  destruct w as [st sf fs ac sd tk uu po tr]. unfold load_state.
  destruct sf as [loaded|]; mred.
  - case_bool_decide; mred.
    + rewrite lookup_insert_ne by done.
      destruct (loaded !! "pendingUpdateVersion") as [v|]; mred.
      * destruct (eq_str v (running_version env)); mred.
        -- rewrite ?_setStateToNone_eq. eexists. split_and!; try done.
           apply reset_pending_cleared.
        -- eexists. split_and!; try done. cbn. by rewrite lookup_insert_ne.
      * rewrite ?_setStateToNone_eq. eexists. split_and!; try done.
        apply reset_pending_cleared.
    + destruct (loaded !! "pendingUpdateVersion") as [v|]; mred.
      * destruct (eq_str v (running_version env)); mred.
        -- rewrite ?_setStateToNone_eq. eexists. split_and!; try done.
           apply reset_pending_cleared.
        -- eexists. by split_and!.
      * rewrite ?_setStateToNone_eq. eexists. split_and!; try done.
        apply reset_pending_cleared.
  - rewrite ?_setStateToNone_eq. mred. eexists. by split_and!.
Qed.

(** Removing old update files never touches the state and only removes
    files. *)
Lemma sweep_frame (env : environment) (names : list str) (w : world) :
  state (sweep env names w).2 = state w ∧ files (sweep env names w).2 ⊆ files w.
Proof.
  revert w. induction names as [|name names IH]; intros w; [done|].
  cbn [sweep]. destruct w as [st sf fs ac sd tk uu po tr]. mred.
  destruct (st !! "pendingUpdateFile") as [p|]; mred; [|done].
  destruct (negb (eq_str p (join_storeUpdatesDir env name))); mred.
  - unfold os_remove. mred. case_bool_decide; mred; [|done].
    match goal with |- context [sweep env names ?w'] =>
      destruct (IH w') as [Hst Hfs] end.
    cbn in Hst, Hfs. split; [done|].
    etrans; [exact Hfs|]. apply delete_subseteq.
  - match goal with |- context [sweep env names ?w'] =>
      destruct (IH w') as [Hst Hfs] end.
    done.
Qed.

Lemma remove_old_updates_frame (env : environment) (w : world) :
  state (remove_old_updates env w).2 = state w ∧
  files (remove_old_updates env w).2 ⊆ files w.
Proof.
  unfold remove_old_updates, try_except.
  destruct (sweep_frame env (listdir_storeUpdatesDir env) w) as [Hst Hfs].
  destruct (sweep env (listdir_storeUpdatesDir env) w) as [[[]|e] w'];
    cbn in *; [done|].
  by destruct e, w'.
Qed.

Lemma try_remove_old_updates_frame (env : environment) (opened : bool)
    (w : world) :
  state (try_remove_old_updates env opened w).2 = state w ∧
  files (try_remove_old_updates env opened w).2 ⊆ files w.
Proof.
  unfold try_remove_old_updates, listdir_failed.
  destruct (storeUpdatesDir_listable env); [apply remove_old_updates_frame|].
  by destruct opened, w.
Qed.

Lemma isfile_subseteq (fs fs' : gmap str bytes) (f : value) :
  fs' ⊆ fs → isfile fs f = false → isfile fs' f = false.
Proof.
  intros Hsub. destruct f; try done. cbn.
  rewrite !bool_decide_eq_false. intros Hnone [x Hx].
  apply Hnone. exists x. by eapply lookup_weaken.
Qed.

(** The state after [AutoUpdateChecker.__init__] is the one its look at the
    pending update leaves. *)
Lemma init_state (env : environment) (w : world) :
  state (AutoUpdateChecker.__init__ env w).2 =
  state ((if conf_startupNotification env then isPendingUpdate
          else mret false : M bool) w).2.
Proof.
  unfold AutoUpdateChecker.__init__.
  unfold mbind at 1. unfold M_bind at 1.
  destruct ((if conf_startupNotification env then isPendingUpdate
             else mret false : M bool) w) as [[notify|e] w2]; [|done].
  destruct w2 as [st sf fs ac sd tk uu po tr]. destruct notify; mred; [done|].
  destruct (st !! "lastCheck") as [[| | |q|]|]; by mred.
Qed.

Lemma isPendingUpdate_state (w : world) :
  state (isPendingUpdate w).2 = state (getPendingUpdate w).2.
Proof. by rewrite isPendingUpdate_eq. Qed.

(** The last part of [initialize] leaves the state alone or resets the four
    fields; it resets them when it is not the launcher that runs, the
    start-up notification is on and the state names no existing file. *)
Lemma start_autoChecker_state (env : environment) (w : world) :
  let w' := (start_autoChecker env w).2 in
  (state w' = state w ∨ state w' = reset_pending (state w)) ∧
  (launcher env = false → conf_startupNotification env = true →
   pending_file_missing (state w) (files w) →
   state w' = reset_pending (state w)).
Proof.
  cbn zeta.
  destruct (getPendingUpdate_frame w) as [Hget Hw2].
  assert (reset_pending (reset_pending (state w)) = reset_pending (state w))
    as Hidem.
  { unfold reset_pending. apply map_eq. intros k.
    destruct (decide (k = "pendingUpdateBackCompatToAPIVersion")) as [->|];
      [by simplify_map_eq|].
    destruct (decide (k = "pendingUpdateAPIVersion")) as [->|];
      [by simplify_map_eq|].
    destruct (decide (k = "pendingUpdateVersion")) as [->|];
      [by simplify_map_eq|].
    destruct (decide (k = "pendingUpdateFile")) as [->|];
      [by simplify_map_eq|].
    by rewrite !lookup_insert_ne. }
  assert (Hinit : ∀ w0,
    state (AutoUpdateChecker.__init__ env w0).2 =
    if conf_startupNotification env then state (getPendingUpdate w0).2
    else state w0).
  { intros w0. rewrite init_state.
    destruct (conf_startupNotification env); [apply isPendingUpdate_state|done]. }
  assert (Hrun : ∀ w0,
    state ((AutoUpdateChecker.__init__ env;; put_autoChecker true) w0).2 =
    state (AutoUpdateChecker.__init__ env w0).2).
  { intros w0. unfold mbind, M_bind.
    by destruct (AutoUpdateChecker.__init__ env w0) as [[[]|e] [?????????]]. }
  set (r := start_autoChecker env w).
  assert (r = start_autoChecker env w) as Hr by done. clearbody r.
  unfold start_autoChecker in Hr.
  destruct (launcher env); cbn [negb] in Hr.
  { rewrite Hr. mred. split; [by left|done]. }
  destruct (conf_autoCheck env).
  - unfold mbind at 1 in Hr. unfold M_bind at 1 in Hr. cbn [mret M_ret] in Hr.
    rewrite Hr, Hrun, Hinit.
    destruct (conf_startupNotification env); [|split; [by left|done]].
    split; [done|]. intros _ _ Hmissing.
    by rewrite (getPendingUpdate_missing w Hmissing).
  - destruct (conf_startupNotification env);
      [|rewrite Hr; mred; split; [by left|done]].
    unfold mbind at 1 in Hr. unfold M_bind at 1 in Hr.
    rewrite isPendingUpdate_eq in Hr. cbn [fst snd] in Hr.
    set (start := bool_decide _) in Hr. destruct start.
    + rewrite Hr, Hrun, Hinit.
      destruct (getPendingUpdate_frame (getPendingUpdate w).2) as [Hget2 _].
      split.
      * destruct Hget as [E1|E1], Hget2 as [E2|E2]; rewrite E2, E1, ?Hidem; tauto.
      * intros _ _ Hmissing.
        rewrite (getPendingUpdate_missing w Hmissing) in Hget2 |- *.
        cbn in Hget2 |- *. destruct Hget2 as [->| ->]; by rewrite ?Hidem.
    + rewrite Hr. cbn. split; [done|]. intros _ _ Hmissing.
      by rewrite (getPendingUpdate_missing w Hmissing).
Qed.

End startup_facts.

Lemma initialize_eq (env : environment) (w wA : world) :
  load_state env w = (Ok (), wA) →
  initialize env w =
  match try_remove_old_updates env
          (bool_decide (is_Some (stateFile w)) || stateFile_opens env) wA with
  | (Ok _, wB) => start_autoChecker env wB
  | (Raise e, wB) => (Raise e, wB)
  end.
Proof.
  intros Hload. unfold initialize.
  unfold mbind at 1. unfold M_bind at 1. unfold get_stateFile.
  unfold mbind at 1. unfold M_bind at 1. rewrite Hload.
  unfold mbind at 1. unfold M_bind at 1.
  by destruct (try_remove_old_updates env _ wA) as [[[]|e] wB].
Qed.

(** C4, as the code has it.  After [initialize] the four pending fields hold
    their none values when the state file could not be loaded, or records no
    [pendingUpdateVersion], or records the running version.  When the loaded
    state names no existing file, they hold their none values after an
    [initialize] that completes, is not run by the launcher and has the
    start-up notification on; and in any case [getPendingUpdate], the read of
    the pending update, then returns [None] and leaves them at their none
    values. *)
Theorem pending_reset_at_startup_and_on_read (env : environment) (w : world) :
  let w' := (initialize env w).2 in
  ((∀ st, stateFile w = Some st →
          st !! "pendingUpdateVersion" = None ∨
          ∃ v, st !! "pendingUpdateVersion" = Some v ∧
               eq_str v (running_version env) = true) →
   pending_cleared (state w')) ∧
  (launcher env = false → conf_startupNotification env = true →
   (initialize env w).1 = Ok () →
   (∀ st, stateFile w = Some st → pending_file_missing st (files w)) →
   pending_cleared (state w')) ∧
  (pending_file_missing (state w) (files w) →
   (getPendingUpdate w).1 = Ok None ∧
   pending_cleared (state (getPendingUpdate w).2)).
Proof.
  cbn zeta.
  destruct (load_state_spec env w) as (wA & Hload & HfilesA & HstateA).
  rewrite (initialize_eq env w wA Hload).
  destruct (try_remove_old_updates_frame env
              (bool_decide (is_Some (stateFile w)) || stateFile_opens env) wA)
    as [HstateB HfilesB].
  destruct (try_remove_old_updates env _ wA) as [[[]|e] wB] eqn:Hsweep;
    cbn [fst snd] in HstateB, HfilesB.
  - destruct (start_autoChecker_state env wB) as [Hsame Hreset].
    split_and!.
    + intros Hversion. eapply pending_cleared_reset_or_same; [|exact Hsame].
      rewrite HstateB. destruct (stateFile w) as [st|]; [|done].
      destruct (Hversion st eq_refl) as [Hnone|(v & Hv & Heq)].
      * by rewrite Hnone in HstateA.
      * by rewrite Hv, Heq in HstateA.
    + intros Hlauncher Hnotify _ Hmissing.
      destruct (stateFile w) as [st|]; last first.
      { eapply pending_cleared_reset_or_same; [|exact Hsame]. by rewrite HstateB. }
      assert (pending_cleared (state wA) ∨
              state wA !! "pendingUpdateFile" = st !! "pendingUpdateFile")
        as [Hcleared|Hkept].
      { destruct (st !! "pendingUpdateVersion") as [v|]; [|by left].
        destruct (eq_str v (running_version env)); [by left|by right]. }
      { eapply pending_cleared_reset_or_same; [|exact Hsame]. by rewrite HstateB. }
      rewrite Hreset; [apply reset_pending_cleared|done|done|].
      intros f Hf. rewrite HstateB, Hkept in Hf.
      eapply isfile_subseteq; [exact HfilesB|]. rewrite HfilesA.
      by apply (Hmissing st eq_refl).
    + intros Hmissing. rewrite (getPendingUpdate_missing w Hmissing).
      split; [done|]. destruct w. apply reset_pending_cleared.
  - split_and!.
    + intros Hversion. cbn. rewrite HstateB.
      destruct (stateFile w) as [st|]; [|done].
      destruct (Hversion st eq_refl) as [Hnone|(v & Hv & Heq)].
      * by rewrite Hnone in HstateA.
      * by rewrite Hv, Heq in HstateA.
    + by intros _ _ ?.
    + intros Hmissing. rewrite (getPendingUpdate_missing w Hmissing).
      split; [done|]. destruct w. apply reset_pending_cleared.
Qed.

Lemma pending_reset_at_startup_and_on_read_witness :
  let env := sample_env no_update no_mirror in
  let w := sample_world pending_state ∅ in
  pending_cleared (state (getPendingUpdate w).2) ∧
  pending_cleared
    (state (initialize env
              (sample_world
                 (<["pendingUpdateVersion" := VStr (py "2025.1")]> pending_state)
                 ∅)).2).
Proof.
  intros env w. split.
  - destruct (pending_reset_at_startup_and_on_read env w) as (_ & _ & Hread).
    apply Hread. intros f. vm_compute. intros [= <-]. reflexivity.
  - destruct (pending_reset_at_startup_and_on_read env
                (sample_world
                   (<["pendingUpdateVersion" := VStr (py "2025.1")]> pending_state)
                   ∅)) as (Hversion & _ & _).
    apply Hversion. intros st [= <-]. right. exists (VStr (py "2025.1")). split.
    + vm_compute. reflexivity.
    + vm_compute. reflexivity.
Defined.

(** With the start-up notification off, [initialize] completes and still
    records a pending file that does not exist. *)
Lemma initialize_keeps_missing_pending_file :
  let env := sample_env no_update no_mirror in
  let w := sample_world pending_state ∅ in
  conf_startupNotification env = false ∧
  stateFile w = Some pending_state ∧
  pending_state !! "pendingUpdateFile" = Some (VStr pending_file) ∧
  isfile (files w) (VStr pending_file) = false ∧
  (initialize env w).1 = Ok () ∧
  state (initialize env w).2 !! "pendingUpdateFile" = Some (VStr pending_file) ∧
  ¬ pending_cleared (state (initialize env w).2).
Proof.
  intros env w.
  assert (state (initialize env w).2 !! "pendingUpdateFile"
          = Some (VStr pending_file)) as Hkept by (vm_compute; reflexivity).
  split_and!; try (vm_compute; reflexivity).
  intros [Hfile _]. rewrite Hkept in Hfile. discriminate Hfile.
Qed.

(** ** The downloader *)

Section downloader_facts.
Import UpdateDownloader.

Lemma take_take_drop {A} (l : list A) (a b : nat) :
  take a l ++ take b (drop a l) = take (a + b) l.
Proof.
  revert a. induction l as [|x l IH]; intros a.
  - by rewrite drop_nil, !take_nil.
  - destruct a as [|a]; [done|]. cbn. by rewrite IH.
Qed.

(** A call left for the GUI thread: it fails when the timer is gone. *)
Lemma guiExec_eq (env : environment) (c : gui_call) (w : world) :
  _guiExec env c w =
  if cancel_requested env (polls w)
  then (Raise AttributeError,
        mkWorld (state w) (stateFile w) (files w) (autoChecker w)
          (shuttingDown w) (ticks w) (uuids w) (S (polls w)) (trace w))
  else (Ok (),
        mkWorld (state w) (stateFile w) (files w) (autoChecker w)
          (shuttingDown w) (ticks w) (uuids w) (S (polls w))
          (trace w ++ [EvGuiExec c])).
Proof.
  unfold _guiExec. destruct w as [st sf fs ac sd tk uu po tr]. mred.
  by destruct (cancel_requested env po).
Qed.

Lemma remote_read_full (n : Z) (stream : bytes) (broken : bool) :
  0 ≤ n → (Z.to_nat n ≤ length stream)%nat →
  remote_read n stream broken
  = Ok (take (Z.to_nat n) stream, drop (Z.to_nat n) stream).
Proof.
  intros Hn Hlen. unfold remote_read.
  destruct (Z.leb_spec 0 n); [|lia].
  by destruct (Nat.leb_spec (Z.to_nat n) (length stream)); [|lia].
Qed.

Lemma remote_read_rest (n : Z) (stream : bytes) (broken : bool) :
  n < 0 ∨ (length stream < Z.to_nat n)%nat →
  remote_read n stream broken
  = if broken then Raise URLError else Ok (stream, []).
Proof.
  intros Hn. unfold remote_read.
  destruct (Z.leb_spec 0 n); [|done].
  by destruct (Nat.leb_spec (Z.to_nat n) (length stream)); [lia|].
Qed.

#[local] Arguments remote_read : simpl never.

(** One run of the [while True] loop.  With enough fuel it never runs out of
    it; it writes a prefix of the stream after what the file holds, of at
    most [size - read] bytes when the declared size is not negative; it
    leaves by [break] only with no cancellation seen, at the declared size or
    at the end of the stream; by [return] only after a cancellation; by an
    exception only on a stream that breaks before the bytes asked for are
    there, or when a report finds the timer gone. *)
Lemma download_loop_spec (env : environment) (self : t) (fuel : nat) (size : Z)
    (broken : bool) :
  ∀ (read : nat) (chunk : Z) (stream hashed content0 : bytes) (w : world),
    (0 ≤ size → Z.of_nat read ≤ size ∧ 0 < chunk) →
    (Z.to_nat (size - Z.of_nat read) < fuel)%nat →
    (size < 0 → stream ≠ [] → (2 ≤ fuel)%nat) →
    files w !! destPath self = Some content0 →
    ∃ (n polls' : nat) (reports : list event) (r : result loop_exit),
      download_loop env self fuel size read chunk stream broken hashed w =
      (r, mkWorld (state w) (stateFile w)
            (<[destPath self := content0 ++ take n stream]> (files w))
            (autoChecker w) (shuttingDown w) (ticks w) (uuids w) polls'
            (trace w ++ reports)) ∧
      (0 ≤ size → Z.of_nat n ≤ size - Z.of_nat read) ∧
      (n ≤ length stream)%nat ∧
      (polls w ≤ polls')%nat ∧ Forall is_report reports ∧
      match r with
      | Ok (Broke read' hashed') =>
        read' = (read + n)%nat ∧
        hashed' = hashed ++ (if has_hash self then take n stream else []) ∧
        (Z.of_nat read' = size ∨ (n = length stream ∧ broken = false)) ∧
        ∀ p, (polls w ≤ p < polls')%nat → cancel_requested env p = false
      | Ok Returned =>
        ∃ p, (polls w ≤ p < polls')%nat ∧ cancel_requested env p = true
      | Ok OutOfFuel => False
      | Raise e =>
        (e = URLError ∧ broken = true ∧
         (0 ≤ size → (length stream < Z.to_nat (size - Z.of_nat read))%nat)) ∨
        (e = AttributeError ∧
         ∃ p, (polls w ≤ p < polls')%nat ∧ cancel_requested env p = true)
      end.
Proof.
  induction fuel as [|fuel IH]; intros read chunk stream hashed content0 w
    Hpre Hfuel Hfuel2 Hfile; [lia|].
  assert (Hsame : <[destPath self := content0 ++ take 0 stream]> (files w)
                  = files w).
  { rewrite take_0, app_nil_r. by apply insert_id. }
  destruct w as [st sf fs ac sd tk uu po tr]. cbn in Hfile, Hsame.
  cbn [download_loop].
  set (chunk' := if size - Z.of_nat read <? chunk then size - Z.of_nat read
                 else chunk).
  assert (Hchunk' : (0 ≤ size → 0 ≤ chunk' ∧ chunk' ≤ size - Z.of_nat read ∧
                                (chunk' = 0 → size = Z.of_nat read)) ∧
                    (size < 0 → chunk' < 0)).
  { unfold chunk'. destruct (Z.ltb_spec (size - Z.of_nat read) chunk); lia. }
  clearbody chunk'. mred.
  destruct (cancel_requested env po) eqn:Hpoll1; mred.
  { exists 0%nat, (S po), [], (Ok Returned). rewrite Hsame, app_nil_r.
    split_and!; try done; try lia. exists po. split; [lia|done]. }
  destruct (decide (0 ≤ chunk' ∧ (Z.to_nat chunk' ≤ length stream)%nat))
    as [[Hc0 Hlen]|Hrest].
  - (* a full block *)
    rewrite remote_read_full by done. mred.
    assert (0 ≤ size) as Hsize by lia.
    remember (Z.to_nat chunk') as c eqn:Hc.
    case_bool_decide as Hblock; mred.
    + (* the block is empty: the declared size is reached *)
      assert (c = 0%nat) as Hzero.
      { apply (f_equal length) in Hblock. rewrite length_take in Hblock.
        cbn in Hblock. lia. }
      exists 0%nat, (S po), [], (Ok (Broke read hashed)).
      rewrite Hsame, app_nil_r, take_0.
      split_and!; try done; try lia.
      * by destruct (has_hash self); rewrite app_nil_r.
      * intros p Hp. assert (p = po) as -> by lia. done.
    + assert (length (take c stream) = c) as Hblen
        by (rewrite length_take; lia).
      assert (c ≠ 0%nat) as Hnz.
      { intros E. rewrite E in Hblock. by rewrite take_0 in Hblock. }
      destruct (cancel_requested env (S po)) eqn:Hpoll2; mred.
      { exists 0%nat, (S (S po)), [], (Ok Returned). rewrite Hsame, app_nil_r.
        split_and!; try done; try lia. exists (S po). split; [lia|done]. }
      unfold file_write, _guiExec. mred. rewrite Hfile. cbn [default].
      destruct (cancel_requested env (S (S po))) eqn:Hlook; mred.
      { exists c, (S (S (S po))), [], (Raise AttributeError). rewrite app_nil_r.
        split_and!; try done; try lia. right. split; [done|].
        exists (S (S po)). split; [lia|done]. }
      match goal with |- context [download_loop env self fuel size ?rd ?ch ?s
                                    broken ?h ?w0] =>
        destruct (IH rd ch s h (content0 ++ take c stream) w0)
          as (n & polls' & reports & r & -> & Hn & Hns & Hpolls & Hrep & Hr)
      end; try (cbn; lia).
      { cbn. by rewrite lookup_insert_eq. }
      cbn in Hpolls, Hr |- *. rewrite length_drop in Hns.
      exists (c + n)%nat, polls',
        (EvGuiExec (DownloadReport (read + length (take c stream)) size)
           :: reports), r.
      split_and!; try lia.
      * f_equal. f_equal; [|by rewrite <-app_assoc].
        rewrite insert_insert_eq, <-app_assoc. by rewrite take_take_drop.
      * constructor; [by eexists _, _|done].
      * rewrite Hblen in Hr. destruct r as [[| read' hashed' |]|e]; try done.
        -- destruct Hr as (p & Hp & Hcn). exists p. split; [lia|done].
        -- destruct Hr as (-> & -> & Hend & Hnone). split_and!.
           ++ lia.
           ++ rewrite <-take_take_drop.
              destruct (has_hash self); by rewrite <-?app_assoc, ?app_nil_r.
           ++ destruct Hend as [Hend|[-> ->]]; [left; lia|right].
              split; [rewrite length_drop; lia|done].
           ++ intros p Hp. destruct (decide (p = po)) as [->|]; [done|].
              destruct (decide (p = S po)) as [->|]; [done|].
              destruct (decide (p = S (S po))) as [->|]; [done|].
              apply Hnone. lia.
        -- destruct Hr as [(-> & -> & Hshort)|(-> & p & Hp & Hcn)].
           ++ left. split_and!; try done. intros _.
              rewrite length_drop in Hshort. lia.
           ++ right. split; [done|]. exists p. split; [lia|done].
  - (* what is left of the stream *)
    rewrite remote_read_rest by lia.
    destruct broken; mred.
    { exists 0%nat, (S po), [], (Raise URLError). rewrite Hsame, app_nil_r.
      split_and!; try done; try lia. left. split_and!; try done. lia. }
    case_bool_decide as Hblock; mred.
    + exists 0%nat, (S po), [], (Ok (Broke read hashed)).
      rewrite Hsame, app_nil_r, take_0.
      split_and!; try done; try lia.
      * by destruct (has_hash self); rewrite app_nil_r.
      * right. by rewrite Hblock.
      * intros p Hp. assert (p = po) as -> by lia. done.
    + destruct (cancel_requested env (S po)) eqn:Hpoll2; mred.
      { exists 0%nat, (S (S po)), [], (Ok Returned). rewrite Hsame, app_nil_r.
        split_and!; try done; try lia. exists (S po). split; [lia|done]. }
      unfold file_write, _guiExec. mred. rewrite Hfile. cbn [default].
      assert (0 < length stream)%nat as Hpos.
      { destruct stream; [done|cbn; lia]. }
      assert (size < 0 → (2 ≤ S fuel)%nat) as Hfuel2' by (intros ?; by apply Hfuel2).
      destruct (cancel_requested env (S (S po))) eqn:Hlook; mred.
      { exists (length stream), (S (S (S po))), [], (Raise AttributeError).
        rewrite app_nil_r, firstn_all.
        split_and!; try done; try lia. right. split; [done|].
        exists (S (S po)). split; [lia|done]. }
      match goal with |- context [download_loop env self fuel size ?rd ?ch ?s
                                    _ ?h ?w0] =>
        destruct (IH rd ch s h (content0 ++ stream) w0)
          as (n & polls' & reports & r & -> & Hn & Hns & Hpolls & Hrep & Hr)
      end; try (cbn; lia).
      { by intros _ ?. }
      { cbn. by rewrite lookup_insert_eq. }
      cbn in Hpolls, Hr, Hns |- *. assert (n = 0%nat) as -> by lia.
      exists (length stream), polls',
        (EvGuiExec (DownloadReport (read + length stream) size) :: reports), r.
      split_and!; try lia.
      * f_equal. f_equal; [|by rewrite <-app_assoc].
        by rewrite insert_insert_eq, take_0, app_nil_r, firstn_all.
      * constructor; [by eexists _, _|done].
      * destruct r as [[| read' hashed' |]|e]; try done.
        -- destruct Hr as (p & Hp & Hcn). exists p. split; [lia|done].
        -- destruct Hr as (-> & -> & Hend & Hnone). split_and!.
           ++ lia.
           ++ rewrite firstn_all.
              destruct (has_hash self); by rewrite ?app_nil_r.
           ++ by right.
           ++ intros p Hp. destruct (decide (p = po)) as [->|]; [done|].
              destruct (decide (p = S po)) as [->|]; [done|].
              destruct (decide (p = S (S po))) as [->|]; [done|].
              apply Hnone. lia.
        -- destruct Hr as [(_ & [=] & _)|(-> & p & Hp & Hcn)].
           right. split; [done|]. exists p. split; [lia|done].
Qed.

#[local] Arguments download_loop : simpl never.

Lemma content_length_Some (rem : remote) (size : nat) :
  content_length rem = Some size ↔
  headers_content_length rem = Some (Z.of_nat size).
Proof.
  unfold content_length. destruct (headers_content_length rem) as [z|].
  - destruct (Z.leb_spec 0 z); split; intros [=]; try lia; f_equal; lia.
  - split; intros [=].
Qed.

(** [_download] once the mirror has answered with status 200 and a declared
    size: the file is truncated, the first report is left, the loop runs. *)
Lemma download_eq (env : environment) (self : t) (url : str) (w : world)
    (rem : remote) (size : Z) :
  urlopen env url = Ok rem → code rem = 200 →
  headers_content_length rem = Some size →
  _download env self url w =
  if cancel_requested env (polls w)
  then (Raise AttributeError,
        mkWorld (state w) (stateFile w) (<[destPath self := []]> (files w))
          (autoChecker w) (shuttingDown w) (ticks w) (uuids w) (S (polls w))
          (trace w ++ [EvUrlopen url]))
  else
    match download_loop env self (S (S (Z.to_nat size))) size 0
            (Z.of_nat DOWNLOAD_BLOCK_SIZE) (body rem) (body_broken rem) []
            (mkWorld (state w) (stateFile w) (<[destPath self := []]> (files w))
               (autoChecker w) (shuttingDown w) (ticks w) (uuids w)
               (S (polls w))
               (trace w ++ [EvUrlopen url; EvGuiExec (DownloadReport 0 size)]))
    with
    | (Ok Returned, w2) => (Ok (), w2)
    | (Ok OutOfFuel, w2) => (Raise OSError, w2)
    | (Ok (Broke read hashed), w2) =>
      if Z.of_nat read <? size then (Raise RuntimeError_ContentTooShort, w2)
      else if has_hash self
              && negb (bool_decide (Some (sha1_hexdigest env hashed) = fileHash self))
      then (Raise RuntimeError_BadHash, w2)
      else _guiExec env (DownloadReport read size) w2
    | (Raise e, w2) => (Raise e, w2)
    end.
Proof.
  intros Hopen Hcode Hsize. unfold _download.
  destruct w as [st sf fs ac sd tk uu po tr].
  unfold mbind at 1. unfold M_bind at 1. unfold emit at 1. cbn [fst snd].
  unfold mbind at 1. unfold M_bind at 1. unfold lift at 1. rewrite Hopen.
  rewrite Hcode, Hsize. rewrite bool_decide_eq_false_2 by (by intros ?).
  unfold mbind at 1. unfold M_bind at 1. cbn [mret M_ret].
  unfold mbind at 1. unfold M_bind at 1.
  unfold mbind at 1. unfold M_bind at 1. unfold get_files, put_files.
  cbn [files state stateFile autoChecker shuttingDown ticks uuids polls trace].
  unfold mbind at 1. unfold M_bind at 1. rewrite guiExec_eq.
  cbn [files state stateFile autoChecker shuttingDown ticks uuids polls trace].
  destruct (cancel_requested env po); [done|].
  rewrite <-app_assoc. cbn [app].
  unfold mbind at 1. unfold M_bind at 1.
  destruct (download_loop _ _ _ _ _ _ _ _ _ _) as [[[| read hashed |]|e] w2];
    try reflexivity.
  unfold raise.
  destruct (Z.of_nat read <? size); [reflexivity|].
  by destruct (has_hash self && _).
Qed.

Lemma DOWNLOAD_BLOCK_SIZE_pos : (0 < DOWNLOAD_BLOCK_SIZE)%nat.
Proof. unfold DOWNLOAD_BLOCK_SIZE. lia. Qed.

(** The loop as [_download] runs it. *)
Lemma download_loop_run (env : environment) (self : t) (size : Z)
    (stream : bytes) (broken : bool) (w : world) :
  files w !! destPath self = Some [] →
  ∃ (n polls' : nat) (reports : list event) (r : result loop_exit),
    download_loop env self (S (S (Z.to_nat size))) size 0
      (Z.of_nat DOWNLOAD_BLOCK_SIZE) stream broken [] w =
    (r, mkWorld (state w) (stateFile w)
          (<[destPath self := take n stream]> (files w))
          (autoChecker w) (shuttingDown w) (ticks w) (uuids w) polls'
          (trace w ++ reports)) ∧
    (0 ≤ size → Z.of_nat n ≤ size) ∧ (n ≤ length stream)%nat ∧
    (polls w ≤ polls')%nat ∧ Forall is_report reports ∧
    match r with
    | Ok (Broke read' hashed') =>
      read' = n ∧
      hashed' = (if has_hash self then take n stream else []) ∧
      (Z.of_nat n = size ∨ (n = length stream ∧ broken = false)) ∧
      ∀ p, (polls w ≤ p < polls')%nat → cancel_requested env p = false
    | Ok Returned =>
      ∃ p, (polls w ≤ p < polls')%nat ∧ cancel_requested env p = true
    | Ok OutOfFuel => False
    | Raise e =>
      (e = URLError ∧ broken = true ∧
       (0 ≤ size → (length stream < Z.to_nat size)%nat)) ∨
      (e = AttributeError ∧
       ∃ p, (polls w ≤ p < polls')%nat ∧ cancel_requested env p = true)
    end.
Proof.
  intros Hfile. pose proof DOWNLOAD_BLOCK_SIZE_pos as Hblock.
  destruct (download_loop_spec env self (S (S (Z.to_nat size))) size broken
              0 (Z.of_nat DOWNLOAD_BLOCK_SIZE) stream [] [] w)
    as (n & polls' & reports & r & Heq & Hn & Hns & Hpolls & Hrep & Hr);
    [lia|lia|lia|done|].
  exists n, polls', reports, r. cbn [app] in Heq.
  split_and!; try done.
  - intros Hsize. specialize (Hn Hsize). lia.
  - destruct r as [[| read' hashed' |]|e].
    + done.
    + destruct Hr as (-> & -> & Hend & Hnone). by split_and!.
    + done.
    + destruct Hr as [(-> & -> & Hshort)|Hr]; [left|by right].
      split_and!; try done. intros Hsize. specialize (Hshort Hsize).
      by rewrite Z.sub_0_r in Hshort.
Qed.

(** The check after the loop, for a loop left by [break] after [n] bytes: it
    passes exactly for a mirror that delivers. *)
Lemma delivers_check (env : environment) (self : t) (url : str) (rem : remote)
    (size : Z) (n : nat) :
  urlopen env url = Ok rem → code rem = 200 →
  headers_content_length rem = Some size →
  (0 ≤ size → Z.of_nat n ≤ size) → (n ≤ length (body rem))%nat →
  Z.of_nat n = size ∨ (n = length (body rem) ∧ body_broken rem = false) →
  (if Z.of_nat n <? size then false
   else negb (has_hash self
              && negb (bool_decide
                         (Some (sha1_hexdigest env
                                  (if has_hash self then take n (body rem) else []))
                          = fileHash self))))
  = delivers env self url ∧
  ((Z.of_nat n <? size) = false → take n (body rem) = delivered env url).
Proof.
  intros Hopen Hcode Hsize Hn Hns Hend.
  unfold delivers, delivered, complete, declared_bytes.
  rewrite Hopen, Hsize, (bool_decide_eq_true_2 _ Hcode). cbn [andb].
  destruct (Z.leb_spec 0 size) as [Hpos|Hneg].
  - specialize (Hn Hpos).
    destruct (Z.ltb_spec (Z.of_nat n) size) as [Hshort|Hfull].
    + split; [|done]. destruct Hend as [?|[-> _]]; [lia|].
      by destruct (Nat.leb_spec (Z.to_nat size) (length (body rem))); [lia|].
    + assert (Z.to_nat size = n) as -> by lia.
      destruct (Nat.leb_spec n (length (body rem))); [|lia]. cbn [andb].
      split; [|done].
      destruct (has_hash self); cbn; [by destruct (bool_decide _)|done].
  - destruct (Z.ltb_spec (Z.of_nat n) size); [lia|].
    destruct Hend as [?|[-> ->]]; [lia|]. rewrite firstn_all. cbn [negb andb].
    split; [|done].
    destruct (has_hash self); cbn; [by destruct (bool_decide _)|done].
Qed.

(** What one attempt does: it opens the URL and leaves progress reports; it
    touches no file but the destination; if it returns, either a cancellation
    was seen or the mirror delivers and the file holds what it delivers. *)
Lemma download_spec (env : environment) (self : t) (url : str) (w : world) :
  ∃ (fs' : gmap str bytes) (polls' : nat) (reports : list event)
    (r : result ()),
    _download env self url w =
    (r, mkWorld (state w) (stateFile w) fs' (autoChecker w) (shuttingDown w)
          (ticks w) (uuids w) polls' (trace w ++ EvUrlopen url :: reports)) ∧
    (polls w ≤ polls')%nat ∧ Forall is_report reports ∧
    (r = Ok () →
     (∃ p, (polls w ≤ p < polls')%nat ∧ cancel_requested env p = true) ∨
     (delivers env self url = true ∧
      fs' = <[destPath self := delivered env url]> (files w))) ∧
    ((∀ p, (polls w ≤ p < polls')%nat → cancel_requested env p = false) →
     if delivers env self url
     then r = Ok () ∧ fs' = <[destPath self := delivered env url]> (files w)
     else ∃ e, r = Raise e).
Proof.
  destruct (urlopen env url) as [rem|e] eqn:Hopen; last first.
  { exists (files w), (polls w), [], (Raise e).
    assert (delivers env self url = false) as -> by (unfold delivers; by rewrite Hopen).
    split_and!; try done; [|by eauto].
    unfold _download. destruct w. mred. by rewrite Hopen. }
  destruct (decide (code rem = 200)) as [Hcode|Hcode]; last first.
  { exists (files w), (polls w), [], (Raise (RuntimeError_DownloadCode (code rem))).
    assert (delivers env self url = false) as ->.
    { unfold delivers. rewrite Hopen. by rewrite bool_decide_eq_false_2. }
    split_and!; try done; [|by eauto].
    unfold _download. destruct w. mred. rewrite Hopen. mred.
    by rewrite bool_decide_eq_true_2. }
  destruct (headers_content_length rem) as [size|] eqn:Hsize; last first.
  { exists (files w), (polls w), [], (Raise (TypeError_value "content-length")).
    assert (delivers env self url = false) as ->.
    { unfold delivers. rewrite Hopen, Hsize. by rewrite andb_false_r. }
    split_and!; try done; [|by eauto].
    unfold _download. destruct w. mred. rewrite Hopen. mred.
    rewrite bool_decide_eq_false_2 by (by intros ?). rewrite Hsize. by mred. }
  rewrite (download_eq env self url w rem size Hopen Hcode Hsize).
  destruct (cancel_requested env (polls w)) eqn:Hlook0.
  { exists (<[destPath self := []]> (files w)), (S (polls w)), [], (Raise AttributeError).
    split_and!; try done; try lia.
    intros Hnone. rewrite Hnone in Hlook0 by lia. done. }
  destruct (download_loop_run env self size (body rem) (body_broken rem)
              (mkWorld (state w) (stateFile w) (<[destPath self := []]> (files w))
                 (autoChecker w) (shuttingDown w) (ticks w) (uuids w)
                 (S (polls w))
                 (trace w ++ [EvUrlopen url; EvGuiExec (DownloadReport 0 size)])))
    as (n & polls' & reports & r & -> & Hn & Hns & Hpolls & Hrep & Hr);
    [cbn; by rewrite lookup_insert_eq|].
  cbn [files polls trace state stateFile autoChecker shuttingDown ticks uuids]
    in *.
  rewrite insert_insert_eq, <-app_assoc. cbn [app].
  assert (Hrep0 : Forall is_report
                    (EvGuiExec (DownloadReport 0 size) :: reports)).
  { constructor; [by eexists _, _|done]. }
  destruct r as [[| read hashed |]|e].
  - (* a cancellation was seen *)
    destruct Hr as (p & Hp & Hcancel).
    eexists _, _, _, (Ok ()). split_and!; try done; try lia.
    + intros _. left. exists p. split; [lia|done].
    + intros Hnone. rewrite Hnone in Hcancel by lia. done.
  - destruct Hr as (-> & -> & Hend & Hnone).
    destruct (delivers_check env self url rem size n Hopen Hcode Hsize Hn Hns Hend)
      as [Hcheck Hbytes].
    destruct (Z.of_nat n <? size) eqn:Hshort.
    { eexists _, _, _, (Raise _). split_and!; try done; try lia.
      intros _. rewrite <- Hcheck. eauto. }
    specialize (Hbytes eq_refl).
    destruct (has_hash self && _) eqn:Hbad; cbn [negb] in Hcheck.
    { eexists _, _, _, (Raise _). split_and!; try done; try lia.
      intros _. rewrite <- Hcheck. eauto. }
    rewrite guiExec_eq.
    cbn [files polls trace state stateFile autoChecker shuttingDown ticks uuids].
    destruct (cancel_requested env polls') eqn:Hlook.
    { eexists _, (S polls'), _, (Raise _). split_and!; try done; try lia.
      intros Hnone'. rewrite Hnone' in Hlook by lia. done. }
    eexists _, (S polls'), (_ :: reports ++ [_]), (Ok ()). split_and!.
    + by rewrite <-app_assoc.
    + lia.
    + constructor; [by eexists _, _|]. apply Forall_app. split; [done|].
      constructor; [by eexists _, _|done].
    + intros _. right. by rewrite <- Hcheck, Hbytes.
    + intros _. by rewrite <- Hcheck, Hbytes.
  - done.
  - eexists _, _, _, (Raise _). split_and!; try done; try lia.
    intros Hnone. destruct (delivers env self url) eqn:Hdel; [|by eauto].
    exfalso. destruct Hr as [(-> & Hbroken & Hshort)|(-> & p & Hp & Hcancel)].
    + unfold delivers, complete in Hdel. rewrite Hopen, Hsize in Hdel.
      rewrite (bool_decide_eq_true_2 _ Hcode) in Hdel. cbn [andb] in Hdel.
      apply andb_true_iff in Hdel as [Hcomplete _].
      destruct (Z.leb_spec 0 size) as [Hpos|Hneg].
      * specialize (Hshort Hpos). apply Nat.leb_le in Hcomplete. lia.
      * by rewrite Hbroken in Hcomplete.
    + rewrite Hnone in Hcancel by lia. done.
Qed.

Lemma reports_loop_events (reports : list event) :
  Forall is_report reports →
  Forall loop_event reports ∧ opened reports = [] ∧ logged_errors reports = [].
Proof.
  induction 1 as [|e reports (read & size & ->) _ (IH1 & IH2 & IH3)]; [done|].
  split_and!; [constructor; [left; by eexists _, _|done]|by cbn|by cbn].
Qed.

Lemma opened_app (evs1 evs2 : list event) :
  opened (evs1 ++ evs2) = opened evs1 ++ opened evs2.
Proof. apply omap_app. Qed.

Lemma logged_errors_app (evs1 evs2 : list event) :
  logged_errors (evs1 ++ evs2) = logged_errors evs1 ++ logged_errors evs2.
Proof. apply omap_app. Qed.

Lemma opened_cons_open (url : str) (evs : list event) :
  opened (EvUrlopen url :: evs) = url :: opened evs.
Proof. done. Qed.

Lemma logged_errors_cons_open (url : str) (evs : list event) :
  logged_errors (EvUrlopen url :: evs) = logged_errors evs.
Proof. done. Qed.

(** The loop over the mirrors never raises.  Left at its end, it has opened
    every URL in order and logged the failure of each.  Left by [break] at
    the mirror of index [m], it has opened the URLs up to that one and logged
    the failure of those before it; it is left without success only after a
    cancellation was seen.  In a run without cancellation the mirrors that
    fail are those that do not deliver, and the loop is left at the first
    mirror that delivers, with what it delivers in the file. *)
Lemma bg_loop_spec (env : environment) (self : t) (urls : list str) :
  ∀ w : world,
    ∃ (fs' : gmap str bytes) (polls' : nat) (evs : list event)
      (r : option bool),
      _bg_loop env self urls w =
      (Ok r, mkWorld (state w) (stateFile w) fs' (autoChecker w)
               (shuttingDown w) (ticks w) (uuids w) polls' (trace w ++ evs)) ∧
      (polls w ≤ polls')%nat ∧ Forall loop_event evs ∧
      match r with
      | None =>
        opened evs = urls ∧ logged_errors evs = download_error <$> urls ∧
        ((∀ p, cancel_requested env p = false) →
         ∀ url, url ∈ urls → delivers env self url = false)
      | Some success =>
        ∃ m url,
          urls !! m = Some url ∧
          opened evs = take (S m) urls ∧
          logged_errors evs = download_error <$> take m urls ∧
          (success = false → ∃ p, cancel_requested env p = true) ∧
          (success = true → cancel_is_final env →
           delivers env self url = true ∧
           fs' !! destPath self = Some (delivered env url)) ∧
          ((∀ p, cancel_requested env p = false) →
           success = true ∧ delivers env self url = true ∧
           fs' !! destPath self = Some (delivered env url) ∧
           ∀ j url', urls !! j = Some url' → (j < m)%nat →
                     delivers env self url' = false)
      end.
Proof.
  induction urls as [|url urls IH]; intros w.
  { exists (files w), (polls w), [], None. rewrite app_nil_r.
    split_and!; try done; [by destruct w|].
    intros _ url Hin. by apply elem_of_nil in Hin. }
  destruct (download_spec env self url w)
    as (fs1 & polls1 & reports & r1 & Hdl & Hpolls & Hrep & Hok & Hquiet).
  destruct (reports_loop_events reports Hrep) as (Hrep' & Hopened & Hlogged).
  cbn [_bg_loop]. unfold try_except.
  unfold mbind at 1. unfold M_bind at 1.
  unfold mbind at 1. unfold M_bind at 1. rewrite Hdl.
  destruct r1 as [[]|e].
  - (* the attempt returned *)
    mred.
    exists fs1, (S polls1), (EvUrlopen url :: reports),
      (Some (negb (cancel_requested env polls1))).
    split_and!; [done|lia|constructor; [right; left; by eexists|done]|].
    exists 0%nat, url. cbn [take lookup list_lookup fmap list_fmap].
    split_and!; [done|by rewrite opened_cons_open, Hopened, take_0
                |by rewrite logged_errors_cons_open, Hlogged|..].
    + intros Hc%negb_false_iff. by exists polls1.
    + intros Hsuccess Hfinal.
      destruct (Hok eq_refl) as [(p & Hp & Hcancel)|[Hdel ->]].
      * rewrite (Hfinal p polls1) in Hsuccess; [done|lia|done].
      * split; [done|]. by rewrite lookup_insert_eq.
    + intros Hnone. rewrite Hnone. cbn [negb].
      specialize (Hquiet (λ p _, Hnone p)).
      destruct (delivers env self url); [|by destruct Hquiet].
      destruct Hquiet as [_ ->].
      split_and!; try done; [by rewrite lookup_insert_eq|].
      intros j url' _ Hj. lia.
  - (* the attempt raised: the error is logged and the next mirror is tried *)
    mred.
    match goal with |- context [_bg_loop env self urls ?w1] =>
      destruct (IH w1) as (fs' & polls' & evs & r & -> & Hpolls' & Hevs & Hr)
    end.
    cbn [state stateFile autoChecker shuttingDown ticks uuids trace polls]
      in Hpolls' |- *.
    exists fs', polls',
      (EvUrlopen url :: reports ++ [EvLog "error" (download_error url)] ++ evs), r.
    assert (∀ j url', (url :: urls) !! j = Some url' → (j < 1)%nat →
                      (∀ p, cancel_requested env p = false) →
                      delivers env self url' = false) as Hfirst.
    { intros j url' Hj Hlt Hnone. assert (j = 0%nat) as -> by lia.
      injection Hj as <-. specialize (Hquiet (λ p _, Hnone p)).
      destruct (delivers env self url); [by destruct Hquiet|done]. }
    split_and!.
    + by rewrite <-!app_assoc.
    + lia.
    + constructor; [right; left; by eexists|].
      apply Forall_app. split; [done|].
      constructor; [right; right; by eexists|done].
    + assert (opened (EvUrlopen url :: reports
                      ++ [EvLog "error" (download_error url)] ++ evs)
              = url :: opened evs) as Ho.
      { by rewrite opened_cons_open, !opened_app, Hopened. }
      assert (logged_errors (EvUrlopen url :: reports
                             ++ [EvLog "error" (download_error url)] ++ evs)
              = download_error url :: logged_errors evs) as Hl.
      { by rewrite logged_errors_cons_open, !logged_errors_app, Hlogged. }
      rewrite Ho, Hl. destruct r as [success|].
      * destruct Hr as (m & url' & Hm & Hopen' & Hlog' & Hcancel & Hdone & Hnc).
        exists (S m), url'.
        split_and!; [done|by rewrite Hopen'|by cbn; rewrite Hlog'|done|done|].
        intros Hnone. destruct (Hnc Hnone) as (-> & Hdel & Hfile & Hbefore).
        split_and!; try done.
        intros [|j] url'' Hj Hlt.
        -- by apply (Hfirst 0%nat); [|lia|].
        -- apply (Hbefore j); [done|lia].
      * destruct Hr as (-> & -> & Hnc). split_and!; try done.
        intros Hnone url' [->|Hin]%elem_of_cons.
        -- by apply (Hfirst 0%nat); [|lia|].
        -- by apply Hnc.
Qed.

Lemma loop_event_not_final (evs : list event) (c : gui_call) :
  Forall loop_event evs → c = DownloadError ∨ c = DownloadSuccess →
  EvGuiExec c ∉ evs.
Proof.
  intros Hevs Hc Hin. rewrite Forall_forall in Hevs.
  destruct (Hevs _ Hin) as [(read & size & [= ->])|[(url & [=])|(msg & [=])]].
  by destruct Hc.
Qed.

Lemma bg_eq (env : environment) (self : t) (w w1 : world) (left : option bool) :
  _bg_loop env self (urls self) w = (Ok left, w1) →
  _bg env self w =
  match left with
  | None => _guiExec env DownloadError w1
  | Some false => remove_quietly (destPath self) w1
  | Some true => _guiExec env DownloadSuccess w1
  end.
Proof.
  intros Hloop. unfold _bg, mbind, M_bind. rewrite Hloop.
  by destruct left as [[]|].
Qed.

End downloader_facts.

(** C3.  [_bg] opens the URLs of its list in order, each at most once, and a
    mirror is opened only after every mirror before it was opened and its
    failure logged (the exception caught, the next one tried).  The download
    error is reported only after every mirror of the list has failed; and
    once every mirror has failed it is reported, unless that very report
    finds the timer gone after a cancellation.  Success is reported only
    after a mirror that did not fail, which is the last one opened.  [_bg]
    returns, unless a report finds the timer gone after a cancellation.
    When success is reported (and a cancellation, once requested, stays
    requested), the last mirror opened delivers and the file holds what it
    delivers.

    In a run without cancellation an attempt returns exactly when the
    mirror delivers, and fails otherwise; [_bg] returns; it reports the
    download error exactly when every mirror of the list fails, and success
    exactly when some mirror delivers; and at the first mirror that delivers
    it stops:
    that mirror and those before it are the ones opened, the failures of those
    before it are the ones logged, no later URL is opened, success is
    reported, the error is not, and the file holds what that mirror
    delivers. *)
Theorem bg_tries_mirrors_in_order (env : environment)
    (self : UpdateDownloader.t) (w : world) :
  let r := UpdateDownloader._bg env self w in
  let urls := UpdateDownloader.urls self in
  ∃ (evs : list event) (n m : nat),
    trace r.2 = trace w ++ evs ∧
    opened evs = take n urls ∧
    logged_errors evs = download_error <$> take m urls ∧
    (n ≤ length urls)%nat ∧ (m = n ∨ n = S m) ∧
    (m = n → n = length urls) ∧
    (EvGuiExec DownloadError ∈ evs → m = length urls) ∧
    (m = length urls →
     EvGuiExec DownloadError ∈ evs ∨
     (r.1 = Raise AttributeError ∧ ∃ p, cancel_requested env p = true)) ∧
    (EvGuiExec DownloadSuccess ∈ evs → n = S m) ∧
    (EvGuiExec DownloadSuccess ∈ evs → cancel_is_final env →
     ∃ url, urls !! m = Some url ∧ delivers env self url = true ∧
            files r.2 !! UpdateDownloader.destPath self
            = Some (delivered env url)) ∧
    (r.1 = Ok () ∨
     (r.1 = Raise AttributeError ∧ ∃ p, cancel_requested env p = true)) ∧
    ((∀ p, cancel_requested env p = false) →
     (∀ url w1, (UpdateDownloader._download env self url w1).1 = Ok () ↔
                delivers env self url = true) ∧
     r.1 = Ok () ∧
     (EvGuiExec DownloadError ∈ evs ↔
      ∀ url, url ∈ urls → delivers env self url = false) ∧
     (EvGuiExec DownloadSuccess ∈ evs ↔
      ∃ url, url ∈ urls ∧ delivers env self url = true) ∧
     ∀ k url,
       urls !! k = Some url → delivers env self url = true →
       (∀ j url', urls !! j = Some url' → (j < k)%nat →
                  delivers env self url' = false) →
       n = S k ∧ m = k ∧
       EvGuiExec DownloadSuccess ∈ evs ∧ (EvGuiExec DownloadError ∉ evs) ∧
       files r.2 !! UpdateDownloader.destPath self = Some (delivered env url)).
Proof.
  intros r urls. subst r.
  destruct (bg_loop_spec env self urls w)
    as (fs' & polls' & evs & left & Hloop & _ & Hevs & Hleft).
  rewrite (bg_eq env self w _ left Hloop).
  pose proof (loop_event_not_final evs DownloadError Hevs (or_introl eq_refl))
    as Hnoerr.
  pose proof (loop_event_not_final evs DownloadSuccess Hevs (or_intror eq_refl))
    as Hnosucc.
  assert (∀ c c' : gui_call, c ≠ c' → EvGuiExec c ∉ evs →
                             EvGuiExec c ∉ evs ++ [EvGuiExec c']) as Hother.
  { intros c c' Hne Hc [Hin|Hin%list_elem_of_singleton]%elem_of_app;
      [done|congruence]. }
  assert ((∀ p, cancel_requested env p = false) →
          ∀ url w1, (UpdateDownloader._download env self url w1).1 = Ok () ↔
                    delivers env self url = true) as Hiff.
  { intros Hnone url w1.
    destruct (download_spec env self url w1)
      as (fs1 & polls1 & reports & r1 & -> & _ & _ & _ & Hquiet).
    specialize (Hquiet (λ p _, Hnone p)). cbn [fst].
    destruct (delivers env self url).
    - by destruct Hquiet as [-> _].
    - destruct Hquiet as [e ->]. by split. }
  destruct left as [[|]|].
  - (* left at a mirror that did not fail *)
    destruct Hleft as (m & url & Hm & Hopened & Hlogged & _ & Hdone & Hnc).
    pose proof (lookup_lt_Some _ _ _ Hm) as Hlt.
    rewrite guiExec_eq. cbn [polls trace files].
    destruct (cancel_requested env polls') eqn:Hlook.
    + exists evs, (S m), m. cbn [fst snd trace files].
      split_and!; try done; try lia; try (intros ?; lia).
      * right. split; [done|]. by exists polls'.
      * intros Hnone. by rewrite Hnone in Hlook.
    + exists (evs ++ [EvGuiExec DownloadSuccess]), (S m), m.
      cbn [fst snd trace files].
      assert (EvGuiExec DownloadSuccess ∈ evs ++ [EvGuiExec DownloadSuccess])
        as Hsucc by (apply elem_of_app; right; by left).
      split_and!; try lia; try (intros ?; lia).
      * by rewrite app_assoc.
      * by rewrite opened_app, Hopened, app_nil_r.
      * by rewrite logged_errors_app, Hlogged, app_nil_r.
      * intros Hin. by apply Hother in Hin.
      * intros _ Hfinal. exists url. by destruct (Hdone eq_refl Hfinal).
      * by left.
      * intros Hnone. destruct (Hnc Hnone) as (_ & Hdel & Hfile & Hbefore).
        split; [by apply Hiff|].
        split_and!; [done| | |].
        -- split; [intros Hin; by apply Hother in Hin|].
           intros Hall. rewrite (Hall url) in Hdel; [done|].
           by eapply list_elem_of_lookup_2.
        -- split; [|done]. intros _. exists url. split; [|done].
           by eapply list_elem_of_lookup_2.
        -- intros k url' Hk Hdel' Hbefore'.
           assert (k = m) as ->.
           { destruct (Nat.lt_trichotomy k m) as [Hkm|[->|Hkm]]; [|done|].
             - by rewrite (Hbefore k url' Hk Hkm) in Hdel'.
             - by rewrite (Hbefore' m url Hm Hkm) in Hdel. }
           assert (url' = url) as -> by congruence.
           split_and!; try done. by apply Hother.
  - (* left after a cancellation *)
    destruct Hleft as (m & url & Hm & Hopened & Hlogged & Hcancel & _ & Hnc).
    pose proof (lookup_lt_Some _ _ _ Hm) as Hlt.
    exists evs, (S m), m. unfold UpdateDownloader.remove_quietly. mred.
    split_and!; try done; try lia; try (intros ?; lia).
    + by left.
    + intros Hnone. by destruct (Hnc Hnone).
  - (* every mirror failed *)
    destruct Hleft as (Hopened & Hlogged & Hnc).
    rewrite guiExec_eq. cbn [polls trace files].
    destruct (cancel_requested env polls') eqn:Hlook.
    + exists evs, (length urls), (length urls). cbn [fst snd trace files].
      split_and!; try done; try lia.
      * by rewrite Hopened, firstn_all.
      * by rewrite Hlogged, firstn_all.
      * intros _. right. split; [done|]. by exists polls'.
      * right. split; [done|]. by exists polls'.
      * intros Hnone. by rewrite Hnone in Hlook.
    + exists (evs ++ [EvGuiExec DownloadError]), (length urls), (length urls).
      cbn [fst snd trace files].
      assert (EvGuiExec DownloadError ∈ evs ++ [EvGuiExec DownloadError])
        as Herr by (apply elem_of_app; right; by left).
      split_and!; try done; try lia.
      * by rewrite app_assoc.
      * by rewrite opened_app, Hopened, app_nil_r, firstn_all.
      * by rewrite logged_errors_app, Hlogged, app_nil_r, firstn_all.
      * intros _. by left.
      * intros Hin. by apply Hother in Hin.
      * intros Hin. by apply Hother in Hin.
      * by left.
      * intros Hnone. specialize (Hnc Hnone).
        split; [by apply Hiff|].
        split_and!; [done|done| |].
        -- split; [intros Hin; by apply Hother in Hin|].
           intros (url & Hin & Hdel). by rewrite (Hnc url Hin) in Hdel.
        -- intros k url Hk Hdel _. rewrite (Hnc url) in Hdel; [done|].
           by eapply list_elem_of_lookup_2.
Qed.

Lemma bg_tries_mirrors_in_order_witness :
  let env := sample_env no_update three_mirrors in
  let self := sample_downloader [mirror_A; mirror_B; mirror_C] in
  let r := UpdateDownloader._bg env self (sample_world pending_state ∅) in
  r.1 = Ok () ∧
  EvGuiExec DownloadSuccess ∈ trace r.2 ∧
  opened (trace r.2) = [mirror_A; mirror_B; mirror_C] ∧
  logged_errors (trace r.2) = [download_error mirror_A; download_error mirror_B] ∧
  files r.2 !! UpdateDownloader.destPath self = Some launcher_bytes.
Proof.
  intros env self r.
  destruct (bg_tries_mirrors_in_order env self (sample_world pending_state ∅))
    as (evs & n & m & Htrace & Hopened & Hlogged & _ & _ & _ & _ & _ & _ & _ & _
          & Hnc).
  fold r in Htrace, Hnc. cbn [trace sample_world app] in Htrace.
  rewrite <-Htrace in Hopened, Hlogged, Hnc.
  destruct Hnc as (_ & Hok & _ & _ & Hfirst); [reflexivity|].
  destruct (Hfirst 2%nat mirror_C) as (-> & -> & Hsucc & _ & Hfile).
  - reflexivity.
  - vm_compute. reflexivity.
  - intros j url' Hj Hlt.
    destruct j as [|[|j]]; [| |lia]; injection Hj as <-; vm_compute; reflexivity.
  - split_and!; [exact Hok|exact Hsucc|exact Hopened|exact Hlogged|].
    rewrite Hfile. vm_compute. reflexivity.
Defined.

Section integrity_facts.
Import UpdateDownloader.

(** Without a cancellation, a mirror that delivers fewer bytes than it
    declares, or bytes with another digest than the expected one, makes
    [_download] raise; the file then holds the bytes that were delivered. *)
Lemma download_integrity_failure (env : environment) (self : t) (url : str)
    (rem : remote) (size : nat) (w : world) :
  (∀ p, cancel_requested env p = false) →
  urlopen env url = Ok rem → code rem = 200 → content_length rem = Some size →
  body_broken rem = false →
  (length (body rem) < size)%nat ∨
  ((size ≤ length (body rem))%nat ∧ has_hash self = true ∧
   Some (sha1_hexdigest env (take size (body rem))) ≠ fileHash self) →
  ∃ polls' reports,
    Forall is_report reports ∧
    _download env self url w =
    (Raise (if (length (body rem) <? size)%nat then RuntimeError_ContentTooShort
            else RuntimeError_BadHash),
     mkWorld (state w) (stateFile w)
       (<[destPath self := take size (body rem)]> (files w))
       (autoChecker w) (shuttingDown w) (ticks w) (uuids w) polls'
       (trace w ++ EvUrlopen url :: reports)).
Proof.
  intros Hcancel Hopen Hcode Hsize%content_length_Some Hbroken Hbad.
  rewrite (download_eq env self url w rem (Z.of_nat size) Hopen Hcode Hsize).
  rewrite Hcancel.
  destruct (download_loop_run env self (Z.of_nat size) (body rem)
              (body_broken rem)
              (mkWorld (state w) (stateFile w) (<[destPath self := []]> (files w))
                 (autoChecker w) (shuttingDown w) (ticks w) (uuids w)
                 (S (polls w))
                 (trace w ++ [EvUrlopen url;
                              EvGuiExec (DownloadReport 0 (Z.of_nat size))])))
    as (n & polls' & reports & r & -> & Hn & Hns & Hpolls & Hrep & Hr);
    [cbn; by rewrite lookup_insert_eq|].
  cbn [files polls trace state stateFile autoChecker shuttingDown ticks uuids]
    in *.
  rewrite insert_insert_eq, <-app_assoc. cbn [app].
  exists polls', (EvGuiExec (DownloadReport 0 (Z.of_nat size)) :: reports).
  split; [constructor; [by eexists _, _|done]|].
  destruct r as [[| read hashed |]|e].
  - destruct Hr as (p & _ & Hp). by rewrite Hcancel in Hp.
  - destruct Hr as (-> & -> & Hend & _). rewrite Hbroken in Hend.
    destruct Hbad as [Hshort|(Hfull & Hhash & Hdigest)].
    + assert (n = length (body rem)) as -> by lia.
      rewrite firstn_all, (take_ge (body rem) size) by lia.
      destruct (Z.ltb_spec (Z.of_nat (length (body rem))) (Z.of_nat size));
        [|lia].
      by destruct (Nat.ltb_spec (length (body rem)) size); [|lia].
    + assert (n = size) as -> by lia.
      destruct (Z.ltb_spec (Z.of_nat size) (Z.of_nat size)); [lia|].
      destruct (Nat.ltb_spec (length (body rem)) size); [lia|].
      rewrite Hhash. cbn [andb app]. by rewrite bool_decide_eq_false_2.
  - done.
  - destruct Hr as [(_ & Hr & _)|(_ & p & _ & Hp)].
    + by rewrite Hbroken in Hr.
    + by rewrite Hcancel in Hp.
Qed.

End integrity_facts.

(** C2, as the code has it.  Let the only mirror answer with status 200,
    declare [size] bytes and deliver them without an I/O error, and let no
    cancellation be requested.  If it delivers fewer bytes than declared, or
    bytes whose digest is not the expected hash, [_download] raises "Content
    too short", respectively "Content has incorrect file hash"; [_bg] logs the
    failure and reports the download error; and the file at the destination
    path is still there, holding the bytes that were delivered. *)
Theorem failed_download_keeps_file (env : environment)
    (self : UpdateDownloader.t) (url : str) (rem : remote) (size : nat)
    (w : world) :
  (∀ p, cancel_requested env p = false) →
  UpdateDownloader.urls self = [url] →
  urlopen env url = Ok rem → code rem = 200 → content_length rem = Some size →
  body_broken rem = false →
  (length (body rem) < size)%nat ∨
  ((size ≤ length (body rem))%nat ∧ UpdateDownloader.has_hash self = true ∧
   Some (sha1_hexdigest env (take size (body rem)))
   ≠ UpdateDownloader.fileHash self) →
  let r := UpdateDownloader._bg env self w in
  (UpdateDownloader._download env self url w).1 =
  Raise (if (length (body rem) <? size)%nat then RuntimeError_ContentTooShort
         else RuntimeError_BadHash) ∧
  r.1 = Ok () ∧
  (∃ reports,
     Forall is_report reports ∧
     trace r.2 =
     trace w ++ EvUrlopen url :: reports
     ++ [EvLog "error" (download_error url); EvGuiExec DownloadError]) ∧
  files r.2 !! UpdateDownloader.destPath self = Some (take size (body rem)).
Proof.
  intros Hcancel Hurls Hopen Hcode Hsize Hbroken Hbad r.
  destruct (download_integrity_failure env self url rem size w
              Hcancel Hopen Hcode Hsize Hbroken Hbad)
    as (polls' & reports & Hrep & Hdl).
  split; [by rewrite Hdl|].
  assert (UpdateDownloader._bg_loop env self (UpdateDownloader.urls self) w =
          (Ok None,
           mkWorld (state w) (stateFile w)
             (<[UpdateDownloader.destPath self := take size (body rem)]> (files w))
             (autoChecker w) (shuttingDown w) (ticks w) (uuids w) polls'
             ((trace w ++ EvUrlopen url :: reports)
              ++ [EvLog "error" (download_error url)]))) as Hloop.
  { rewrite Hurls. cbn [UpdateDownloader._bg_loop].
    unfold try_except, mbind, M_bind. rewrite Hdl. by mred. }
  subst r. rewrite (bg_eq env self w _ None Hloop).
  rewrite guiExec_eq. cbn [polls]. rewrite Hcancel. cbn [fst snd trace files].
  split_and!; [done| |by rewrite lookup_insert_eq].
  exists reports. split; [done|]. by rewrite <-!app_assoc.
Qed.

Lemma failed_download_keeps_file_witness :
  let env := sample_env no_update tampered_mirror in
  let self := sample_downloader [mirror_A] in
  let r := UpdateDownloader._bg env self (sample_world pending_state ∅) in
  (UpdateDownloader._download env self mirror_A (sample_world pending_state ∅)).1
  = Raise RuntimeError_BadHash ∧
  files r.2 !! UpdateDownloader.destPath self = Some tampered_bytes.
Proof.
  intros env self r.
  destruct (failed_download_keeps_file env self mirror_A
              (sample_remote tampered_bytes 4) 4 (sample_world pending_state ∅))
    as (Hraise & _ & _ & Hfile); try reflexivity.
  - right. split_and!; [cbn; lia|reflexivity|].
    vm_compute. discriminate.
  - split; [exact Hraise|exact Hfile].
Defined.

(** * Further facts *)

(** ** The query client: failures *)

Section query_failures.
Import UpdateInfo.

(** The loop over the lines raises nothing but the invalid-line error. *)
Lemma parse_loop_raises (lines : list str) (metadata : gmap str str) (e : exn) :
  parse_loop lines metadata = Raise e → ∃ line, e = ValueError_InvalidLine line.
Proof.
  revert metadata. induction lines as [|line lines IH]; intros metadata; cbn.
  - discriminate.
  - destruct (split_once line) as [[key val]|].
    + case_decide; apply IH.
    + intros [= <-]. by exists line.
Qed.

(** With every required key in the dictionary the constructor call succeeds. *)
Lemma of_kwargs_total (metadata : gmap str str) :
  requiredKeys ∖ dom metadata = ∅ → ∃ info, of_kwargs metadata = Ok info.
Proof.
  intros Hreq.
  assert (∀ k, k ∈ requiredKeys → is_Some (metadata !! k)) as Hk.
  { intros k Hin. apply elem_of_dom. destruct (decide (k ∈ dom metadata)); [done|].
    assert (k ∈ requiredKeys ∖ dom metadata) as Hd by (by apply elem_of_difference).
    rewrite Hreq in Hd. by apply not_elem_of_empty in Hd. }
  unfold of_kwargs.
  destruct (Hk (py "version")) as [v ->]; [apply elem_of_requiredKeys; tauto|].
  destruct (Hk (py "launcherUrl")) as [u ->]; [apply elem_of_requiredKeys; tauto|].
  destruct (Hk (py "apiVersion")) as [a ->]; [apply elem_of_requiredKeys; tauto|].
  eauto.
Qed.

(** The parser raises nothing but its two [ValueError]s. *)
Lemma parseUpdateCheckResponse_raises (data : str) (e : exn) :
  parseUpdateCheckResponse data = Raise e →
  (∃ line, e = ValueError_InvalidLine line) ∨
  (∃ keys, e = ValueError_MissingKeys keys).
Proof.
  unfold parseUpdateCheckResponse.
  destruct (parse_loop (splitlines data) ∅) as [metadata|e'] eqn:Hloop; cbn.
  - case_decide as Hreq.
    + destruct (of_kwargs_total _ Hreq) as [info ->]. discriminate.
    + intros [= <-]. right. eauto.
  - intros [= <-]. left. by eapply parse_loop_raises.
Qed.

(** [checkForUpdate] once the parameters are built: one request, and the
    result read off the answer. *)
Lemma checkForUpdate_eq (env : environment) (auto : bool) (w : world)
    (params : list (string * value)) :
  (checkForUpdate_params env auto w).1 = Ok params →
  checkForUpdate env auto w =
  (match fetch env (_getCheckURL env) params with
   | Raise e => Raise e
   | Ok r =>
     if bool_decide (status_code r ≠ 200)
     then Raise (RuntimeError_StatusCode (status_code r))
     else match decode_utf8 (content r) with
          | Raise e => Raise e
          | Ok data =>
            if negb (truthy (VStr data)) then Ok None
            else match parseUpdateCheckResponse data with
                 | Ok info => Ok (Some info)
                 | Raise _ => Raise RuntimeError_InvalidResponse
                 end
          end
   end,
   (emit (EvFetch (_getCheckURL env) params) w).2).
Proof.
  intros Hp. unfold checkForUpdate.
  pose proof (checkForUpdate_params_world env auto w) as Hw.
  unfold mbind at 1. unfold M_bind at 1.
  destruct (checkForUpdate_params env auto w) as [[params'|e] w']; cbn in Hp, Hw;
    subst w'; [|done].
  injection Hp as ->.
  unfold _fetchUrlAndUpdateRootCertificates, mbind, M_bind, lift, emit, raise.
  cbn.
  destruct (fetch env (_getCheckURL env) params) as [r|e]; [|done].
  case_bool_decide; [done|].
  destruct (decode_utf8 (content r)) as [data|e]; [|done].
  cbn. case_bool_decide; cbn; [done|].
  destruct (parseUpdateCheckResponse data) as [info|e] eqn:Hparse; [done|].
  by destruct (parseUpdateCheckResponse_raises _ _ Hparse) as [[line ->]|[keys ->]].
Qed.

(** X1. An answer whose status code is not 200 makes [checkForUpdate] raise
    the status-code error carrying that code, whatever the body holds; the
    one request is all that happened. *)
Theorem checkForUpdate_bad_status (env : environment) (auto : bool) (w : world)
    (params : list (string * value)) (r : response) :
  (checkForUpdate_params env auto w).1 = Ok params →
  fetch env (_getCheckURL env) params = Ok r →
  status_code r ≠ 200 →
  (checkForUpdate env auto w).1 = Raise (RuntimeError_StatusCode (status_code r)) ∧
  state (checkForUpdate env auto w).2 = state w ∧
  trace (checkForUpdate env auto w).2 = trace w ++ [EvFetch (_getCheckURL env) params].
Proof.
  intros Hp Hf Hs. rewrite (checkForUpdate_eq _ _ _ _ Hp), Hf.
  rewrite bool_decide_eq_true_2 by done. by destruct w.
Qed.

(** X2. For an answer with status 200 and a non-empty body that decodes to
    [data], [checkForUpdate] returns the descriptor exactly when the parser
    accepts [data]; every failure of the parser, a line without separator as
    well as a missing required key, comes out as the one invalid-response
    error, never as the parser's own exception. *)
Theorem checkForUpdate_parse_outcome (env : environment) (auto : bool) (w : world)
    (params : list (string * value)) (r : response) (data : str) :
  (checkForUpdate_params env auto w).1 = Ok params →
  fetch env (_getCheckURL env) params = Ok r →
  status_code r = 200 →
  decode_utf8 (content r) = Ok data →
  data ≠ [] →
  (checkForUpdate env auto w).1 =
  match parseUpdateCheckResponse data with
  | Ok info => Ok (Some info)
  | Raise _ => Raise RuntimeError_InvalidResponse
  end ∧
  (∀ info, (checkForUpdate env auto w).1 = Ok (Some info) ↔
           parseUpdateCheckResponse data = Ok info) ∧
  ((checkForUpdate env auto w).1 = Raise RuntimeError_InvalidResponse ↔
   ∃ e, parseUpdateCheckResponse data = Raise e).
Proof.
  intros Hp Hf Hs Hd Hne. rewrite (checkForUpdate_eq _ _ _ _ Hp), Hf.
  rewrite bool_decide_eq_false_2 by (intros ?; done).
  rewrite Hd. cbn [fst truthy negb].
  rewrite bool_decide_eq_false_2 by done. cbn [negb].
  destruct (parseUpdateCheckResponse data) as [info|e].
  - split; [done|]. split.
    + intros info'. split; by intros [= ->].
    + split; [done|]. by intros [e [=]].
  - split; [done|]. split.
    + intros info'. split; intros [=].
    + split; eauto.
Qed.

(** Python accepts the indices from [-len(t)] to [len(t) - 1]. *)
Lemma tuple_index_raises {A} (t : list A) (i : Z) :
  (∃ e, tuple_index t i = Raise e) ↔
  ¬ (- Z.of_nat (length t) ≤ i < Z.of_nat (length t)).
Proof.
  unfold tuple_index. remember (Z.of_nat (length t)) as n eqn:Hn.
  set (j := if i <? 0 then i + n else i).
  assert (j = if i <? 0 then i + n else i) as Hj by done. clearbody j.
  destruct (Z.leb_spec 0 j) as [H0|H0], (Z.ltb_spec j n) as [H1|H1];
    cbn [andb]; destruct (Z.ltb_spec i 0); subst j;
    try (split; [lia|eauto]).
  - destruct (lookup_lt_is_Some_2 t (Z.to_nat (i + n))) as [x Hx]; [lia|].
    rewrite Hx. split; [by intros [e [=]]|lia].
  - destruct (lookup_lt_is_Some_2 t (Z.to_nat i)) as [x Hx]; [lia|].
    rewrite Hx. split; [by intros [e [=]]|lia].
Qed.

(** The kind of system is read from a three-element tuple at index
    [product_type - 1]. *)
Lemma winVersionText_raises (env : environment) :
  (∃ e, winVersionText env = Raise e) ↔ ¬ (-2 ≤ product_type env ≤ 3).
Proof.
  unfold winVersionText.
  pose proof (tuple_index_raises
                [py "workstation"; py "domain controller"; py "server"]
                (product_type env - 1)) as Hidx.
  cbn [length] in Hidx.
  destruct (tuple_index _ (product_type env - 1)) as [kind|e]; cbn.
  - split; [by intros [e [=]]|]. intros Hn.
    destruct (proj2 Hidx) as [e [=]]. lia.
  - split; [|eauto]. intros _ Hr. apply (proj1 Hidx); [eauto|lia].
Qed.

(** X3. As far as the module's own code goes, the parameters of the request
    cannot be built in exactly two cases: the product type of the system is
    outside -2..3 (the index into the three system kinds is out of range), or
    the usage statistics are to be sent and the state holds no [id].
    [checkForUpdate] then raises that error and sends no request. *)
Theorem checkForUpdate_params_failure (env : environment) (auto : bool)
    (w : world) :
  ((∃ e, (checkForUpdate_params env auto w).1 = Raise e) ↔
   ¬ (-2 ≤ product_type env ≤ 3) ∨
   (auto = true ∧ conf_allowUsageStats env = true ∧ state w !! "id" = None)) ∧
  (∀ e, (checkForUpdate_params env auto w).1 = Raise e →
        checkForUpdate env auto w = (Raise e, w)).
Proof.
  split.
  - pose proof (winVersionText_raises env) as Hwin.
    unfold checkForUpdate_params. unfold mbind at 1. unfold M_bind at 1.
    unfold lift.
    destruct (winVersionText env) as [text|e0].
    + assert (-2 ≤ product_type env ≤ 3) as Hrange.
      { destruct (decide (-2 ≤ product_type env ≤ 3)) as [|Hn]; [done|].
        apply Hwin in Hn as [e [=]]. }
      destruct auto, (conf_allowUsageStats env); cbn [andb];
        try (mred; split; [by intros [e [=]]|intros [?|(? & ? & ?)]; done]).
      mred. destruct (state w !! "id") as [id|]; cbn.
      * split; [by intros [e [=]]|intros [?|(? & ? & ?)]; done].
      * split; [tauto|eauto].
    + cbn. split; [|eauto]. intros _. left. apply Hwin. eauto.
  - intros e He. unfold checkForUpdate.
    pose proof (checkForUpdate_params_world env auto w) as Hw.
    unfold mbind at 1. unfold M_bind at 1.
    destruct (checkForUpdate_params env auto w) as [[params'|e'] w'];
      cbn in He, Hw; subst w'; [done|]. by injection He as ->.
Qed.

End query_failures.

(** A server that answers with status 404. *)
Lemma checkForUpdate_bad_status_witness :
  (checkForUpdate
     (sample_env (λ _ _, Ok {| status_code := 404; content := [] |}) no_mirror)
     false (sample_world pending_state ∅)).1
  = Raise (RuntimeError_StatusCode 404).
Proof.
  set (env := sample_env (λ _ _, Ok {| status_code := 404; content := [] |}) no_mirror).
  set (w := sample_world pending_state ∅).
  destruct (checkForUpdate_params env false w) as [[params|e] w'] eqn:Hp;
    [|by vm_compute in Hp].
  refine (proj1 (checkForUpdate_bad_status env false w params
                   {| status_code := 404; content := [] |} _ _ _)).
  - by rewrite Hp.
  - reflexivity.
  - cbn. lia.
Defined.

(** A server that answers with the sample descriptor. *)
Lemma checkForUpdate_parse_outcome_witness :
  (checkForUpdate (sample_env update_available no_mirror) true
     (sample_world pending_state ∅)).1
  = Ok (Some sample_info).
Proof.
  set (env := sample_env update_available no_mirror).
  set (w := sample_world pending_state ∅).
  destruct (checkForUpdate_params env true w) as [[params|e] w'] eqn:Hp;
    [|by vm_compute in Hp].
  refine (proj2 (proj1 (proj2 (checkForUpdate_parse_outcome env true w params
                                 {| status_code := 200; content := sample_body |}
                                 sample_response _ _ _ _ _)) sample_info) _).
  - by rewrite Hp.
  - reflexivity.
  - reflexivity.
  - vm_compute; reflexivity.
  - vm_compute. by intros [=].
  - vm_compute; reflexivity.
Defined.

(** ** The response parser: what the result depends on *)

Section parser_extensionality.
Import UpdateInfo.

(** X4. The descriptor depends only on the values the response gives to the
    seven known keys: two responses, each line of which has the separator,
    that give the same value to every known key are parsed alike, whatever
    the order of their lines and whatever other keys they hold. *)
Theorem parseUpdateCheckResponse_known_fields (data data' : str) :
  Forall has_separator (splitlines data) →
  Forall has_separator (splitlines data') →
  (∀ k, k ∈ knownKeys →
        field_of k (splitlines data) = field_of k (splitlines data')) →
  parseUpdateCheckResponse data = parseUpdateCheckResponse data'.
Proof.
  intros Hsep Hsep' Hsame.
  destruct (parse_loop_ok _ ∅ Hsep) as (m & Hm & Hlook).
  destruct (parse_loop_ok _ ∅ Hsep') as (m' & Hm' & Hlook').
  assert (m = m') as <-.
  { apply map_eq. intros k. rewrite Hlook, Hlook'.
    case_decide as Hk; [|done]. by rewrite (Hsame k Hk). }
  by rewrite (parseUpdateCheckResponse_unfold _ _ Hm),
       (parseUpdateCheckResponse_unfold _ _ Hm').
Qed.

End parser_extensionality.

Lemma parseUpdateCheckResponse_known_fields_witness :
  UpdateInfo.parseUpdateCheckResponse sample_response
  = UpdateInfo.parseUpdateCheckResponse sample_response_reordered.
Proof.
  apply parseUpdateCheckResponse_known_fields.
  - apply has_separator_forallb. by vm_compute.
  - apply has_separator_forallb. by vm_compute.
  - intros k Hk. apply elem_of_knownKeys, list_elem_of_In in Hk.
    assert (forallb
              (λ k, bool_decide
                      (UpdateInfo.field_of k (UpdateInfo.splitlines sample_response)
                       = UpdateInfo.field_of k
                           (UpdateInfo.splitlines sample_response_reordered)))
              (UpdateInfo.parameters.*1) = true) as Hall
      by (vm_compute; reflexivity).
    rewrite forallb_forall in Hall.
    by apply Hall, bool_decide_eq_true in Hk.
Defined.

(** ** The pending update: reading and applying *)

Section pending_more.

(** A value is true and names a file exactly when it is a non-empty string
    that names a file. *)
Lemma truthy_isfile (fs : gmap str bytes) (f : value) :
  truthy f = true ∧ isfile fs f = true ↔
  ∃ p, f = VStr p ∧ p ≠ [] ∧ is_Some (fs !! p).
Proof.
  split.
  - intros [Ht Hf]. destruct f as [| |p| |]; try done. exists p. cbn in Ht, Hf.
    apply negb_true_iff, bool_decide_eq_false in Ht.
    by apply bool_decide_eq_true in Hf.
  - intros (p & -> & Hne & Hfile). cbn. split.
    + by apply negb_true_iff, bool_decide_eq_false.
    + by apply bool_decide_eq_true.
Qed.

(** [getPendingUpdate] by the state it finds. *)
Lemma getPendingUpdate_installable (w : world) :
  (∃ p v a b,
     installable (state w) (files w) p v a b ∧
     getPendingUpdate w = (Ok (Some (VStr p, v, or_zero a, or_zero b)), w))
  ∨
  ((∀ p v a b, ¬ installable (state w) (files w) p v a b) ∧
   getPendingUpdate w = (Ok None, with_state (reset_pending (state w)) w)).
Proof.
  destruct (getPendingUpdate_cases w) as [(f & v & a & b & H)|[Heq Hwhy]].
  - destruct H as (Hf & Hv & Ha & Hb & Ht & Hfile & Heq).
    destruct (proj1 (truthy_isfile (files w) f) (conj Ht Hfile))
      as (p & -> & Hne & Hp).
    left. exists p, v, a, b. by repeat split.
  - right. split; [|done].
    intros p v a b (Hf & Hne & Hp & Hv & Ha & Hb).
    destruct Hwhy as [Hmiss|[(f & Hf' & Ht)|[Hn|[Hn|Hn]]]]; try congruence.
    + specialize (Hmiss _ Hf). cbn in Hmiss.
      by apply bool_decide_eq_false in Hmiss.
    + rewrite Hf in Hf'. injection Hf' as <-. cbn in Ht.
      by apply negb_false_iff, bool_decide_eq_true in Ht.
Qed.

Lemma reset_pending_idemp (st : gmap string value) :
  reset_pending (reset_pending st) = reset_pending st.
Proof.
  apply map_eq. intros k. unfold reset_pending.
  rewrite !lookup_insert. by repeat case_decide.
Qed.

(** X5. Let the recorded file, if there is one, be a false value or a
    string.  Then [isPendingUpdate] does not raise.  It answers [True]
    exactly when the state holds all four pending fields and the file field
    is a non-empty string naming an existing file, and then changes nothing;
    otherwise it answers [False] and leaves the four fields reset. *)
Theorem isPendingUpdate_spec (w : world) :
  pending_file_is_path (state w) →
  ((∃ p v a b, installable (state w) (files w) p v a b) ∧
   isPendingUpdate w = (Ok true, w))
  ∨
  (¬ (∃ p v a b, installable (state w) (files w) p v a b) ∧
   isPendingUpdate w = (Ok false, with_state (reset_pending (state w)) w)).
Proof.
  intros _. unfold isPendingUpdate, mbind, M_bind.
  destruct (getPendingUpdate_installable w) as [(p & v & a & b & Hi & ->)|[Hn ->]].
  - left. split; [by exists p, v, a, b|done].
  - right. split; [|done]. intros (p & v & a & b & Hi). by eapply Hn.
Qed.

(** X6. Reading the pending update twice is the same as reading it once:
    the second read returns what the first returned and changes nothing
    more. *)
Theorem getPendingUpdate_idempotent (w : world) :
  getPendingUpdate (getPendingUpdate w).2
  = ((getPendingUpdate w).1, (getPendingUpdate w).2).
Proof.
  destruct (getPendingUpdate_installable w) as [(p & v & a & b & Hi & Heq)|[Hn Heq]].
  - by rewrite !Heq.
  - rewrite Heq. cbn [fst snd].
    set (w' := with_state (reset_pending (state w)) w).
    destruct (getPendingUpdate_installable w')
      as [(p & v & a & b & Hi & _)|[_ ->]].
    + destruct Hi as (Hf & _). unfold w' in Hf. cbn in Hf.
      destruct (reset_pending_cleared (state w)) as (Hc & _). congruence.
    + unfold w'. cbn. by rewrite reset_pending_idemp.
Qed.

(** X7. Let the recorded file, if there is one, be a false value or a
    string.  Then [executePendingUpdate] hands over exactly what
    [getPendingUpdate] returns: with an installable update recorded it
    behaves as [_executeUpdate] on the recorded file; with none it resets the
    four fields and does nothing else, so that no shutdown is requested and
    nothing is saved. *)
Theorem executePendingUpdate_spec (env : environment) (w : world) :
  pending_file_is_path (state w) →
  (∃ p v a b,
     installable (state w) (files w) p v a b ∧
     executePendingUpdate env w = _executeUpdate env p w)
  ∨
  ((∀ p v a b, ¬ installable (state w) (files w) p v a b) ∧
   executePendingUpdate env w = (Ok (), with_state (reset_pending (state w)) w)).
Proof.
  intros _. unfold executePendingUpdate, mbind, M_bind.
  destruct (getPendingUpdate_installable w) as [(p & v & a & b & Hi & ->)|[Hn ->]].
  - left. by exists p, v, a, b.
  - by right.
Qed.

End pending_more.

Lemma isPendingUpdate_spec_witness :
  isPendingUpdate (sample_world pending_state pending_files)
  = (Ok true, sample_world pending_state pending_files) ∧
  (isPendingUpdate (sample_world pending_state ∅)).1 = Ok false.
Proof.
  split.
  - destruct (isPendingUpdate_spec (sample_world pending_state pending_files))
      as [[_ Heq]|[Hnone _]].
    + intros f Hf. vm_compute in Hf. injection Hf as <-. right. by eexists.
    + exact Heq.
    + exfalso. apply Hnone.
      exists pending_file, (VStr (py "2025.2")), (VTuple (2025, 2, 0)),
        (VTuple (2025, 1, 0)).
      unfold installable. split; [vm_compute; reflexivity|].
      split; [by vm_compute|].
      split; [exists launcher_bytes; vm_compute; reflexivity|].
      split; [vm_compute; reflexivity|]. split; vm_compute; reflexivity.
  - destruct (isPendingUpdate_spec (sample_world pending_state ∅))
      as [[(p & v & a & b & Hi) _]|[_ ->]].
    + intros f Hf. vm_compute in Hf. injection Hf as <-. right. by eexists.
    + exfalso. destruct Hi as (Hf & _ & [content Hp] & _).
      cbn [files sample_world] in Hp. by rewrite lookup_empty in Hp.
    + reflexivity.
Defined.

Lemma executePendingUpdate_spec_witness :
  let env := sample_env no_update no_mirror in
  executePendingUpdate env (sample_world pending_state ∅)
  = (Ok (), with_state (reset_pending pending_state)
              (sample_world pending_state ∅)).
Proof.
  intros env.
  destruct (executePendingUpdate_spec env (sample_world pending_state ∅))
    as [(p & v & a & b & Hi & _)|[_ ->]].
  - intros f Hf. vm_compute in Hf. injection Hf as <-. right. by eexists.
  - exfalso. destruct Hi as (Hf & _ & [content Hp] & _).
    cbn [files sample_world] in Hp. by rewrite lookup_empty in Hp.
  - reflexivity.
Defined.

(** ** Postponing an update *)

Section postpone_facts.
Import UpdateAskInstallDialog.

(** The state the postpone branch of the callback leaves. *)
Lemma callback_close_eq (env : environment) (basename : str → str)
    (moved : bool) (destPath version : str) (apiVersion backCompatTo : Z * Z * Z)
    (w : world) :
  let finalDest := join_storeUpdatesDir env (basename destPath) in
  let relocated := moved && bool_decide (is_Some (files w !! destPath)) in
  let kept := if relocated then finalDest else destPath in
  let st :=
    <["dontRemindVersion" := VNone]>
      (<["pendingUpdateBackCompatToAPIVersion" := VTuple backCompatTo]>
         (<["pendingUpdateAPIVersion" := VTuple apiVersion]>
            (<["pendingUpdateVersion" := VStr version]>
               (<["pendingUpdateFile" := VStr kept]> (state w))))) in
  _callbackFactory env basename moved destPath version apiVersion backCompatTo
    ID_CLOSE w =
  (Ok (),
   mkWorld st (if stateFile_writable env then Some st else stateFile w)
     (if relocated
      then <[finalDest := default [] (files w !! destPath)]>
             (delete destPath (files w))
      else files w)
     (autoChecker w) (shuttingDown w) (ticks w) (uuids w) (polls w)
     (trace w
      ++ (if relocated then []
          else [EvLog "debugWarning"
                  (py "Unable to rename the file from " ++ destPath ++ py " to "
                   ++ finalDest)])
      ++ [if stateFile_writable env then EvPickleDump st
          else EvLog "debugWarning" (py "Error saving state")])).
Proof.
  destruct w as [st0 sf fs ac sd tk uu po tr].
  unfold _callbackFactory, moveFileEx, saveState. mred.
  destruct (fs !! destPath) as [content|] eqn:Hsrc; mred.
  - destruct moved; mred.
    + destruct (stateFile_writable env); mred; by rewrite ?app_nil_r.
    + destruct (stateFile_writable env); mred; by rewrite <- ?app_assoc.
  - rewrite ?andb_false_r.
    destruct (stateFile_writable env); mred; by rewrite <- ?app_assoc.
Qed.

(** X8. Postponing (the dialog closed with [ID_CLOSE]) never raises.  It
    records the update under the path the file ends up at, the place in the
    updates directory when the move was carried out and the download path
    otherwise, together with the version and the two API versions; it clears
    [dontRemindVersion] and keeps every other entry; the state is saved when
    the state file can be written; the downloaded bytes are at the recorded
    path; and as long as that path is not empty and the download exists, the
    next read of the pending update returns exactly what was recorded. *)
Theorem postpone_records_pending (env : environment) (basename : str → str)
    (moved : bool) (destPath version : str) (apiVersion backCompatTo : Z * Z * Z)
    (w : world) :
  let finalDest := join_storeUpdatesDir env (basename destPath) in
  let kept :=
    if moved && bool_decide (is_Some (files w !! destPath)) then finalDest
    else destPath in
  let r := _callbackFactory env basename moved destPath version apiVersion
             backCompatTo ID_CLOSE w in
  r.1 = Ok () ∧
  state r.2 !! "pendingUpdateFile" = Some (VStr kept) ∧
  state r.2 !! "pendingUpdateVersion" = Some (VStr version) ∧
  state r.2 !! "pendingUpdateAPIVersion" = Some (VTuple apiVersion) ∧
  state r.2 !! "pendingUpdateBackCompatToAPIVersion" = Some (VTuple backCompatTo) ∧
  state r.2 !! "dontRemindVersion" = Some VNone ∧
  (∀ k, k ∉ ["pendingUpdateFile"; "pendingUpdateVersion";
             "pendingUpdateAPIVersion"; "pendingUpdateBackCompatToAPIVersion";
             "dontRemindVersion"] →
        state r.2 !! k = state w !! k) ∧
  (stateFile_writable env = true → stateFile r.2 = Some (state r.2)) ∧
  files r.2 !! kept = files w !! destPath ∧
  (kept ≠ [] → is_Some (files w !! destPath) →
   getPendingUpdate r.2 =
   (Ok (Some (VStr kept, VStr version, VTuple apiVersion, VTuple backCompatTo)),
    r.2)).
Proof.
  intros finalDest kept r. unfold r. rewrite callback_close_eq.
  fold finalDest. fold kept. cbn [fst snd state stateFile files].
  split; [done|].
  split; [by simplify_map_eq|]. split; [by simplify_map_eq|].
  split; [by simplify_map_eq|]. split; [by simplify_map_eq|].
  split; [by simplify_map_eq|].
  split.
  { intros k. rewrite !not_elem_of_cons. intros (? & ? & ? & ? & ? & _).
    by rewrite !lookup_insert_ne. }
  split; [by intros ->|].
  assert ((if moved && bool_decide (is_Some (files w !! destPath))
           then <[finalDest := default [] (files w !! destPath)]>
                  (delete destPath (files w))
           else files w) !! kept = files w !! destPath) as Hkept.
  { unfold kept. destruct moved; cbn [andb]; [|done].
    case_bool_decide as Hsrc; [|done].
    destruct Hsrc as [content Hsrc]. rewrite Hsrc. cbn.
    by rewrite lookup_insert_eq. }
  split; [done|].
  intros Hne Hsrc.
  match goal with |- getPendingUpdate ?w' = _ => set (w1 := w') end.
  destruct (getPendingUpdate_installable w1)
    as [(p & v & a & b & Hi & Heq)|[Hn _]].
  - rewrite Heq. destruct Hi as (Hf & _ & _ & Hv & Ha & Hb).
    unfold w1 in Hf, Hv, Ha, Hb. cbn [state] in Hf, Hv, Ha, Hb.
    simplify_map_eq. done.
  - exfalso.
    apply (Hn kept (VStr version) (VTuple apiVersion) (VTuple backCompatTo)).
    unfold installable, w1. cbn [state files]. rewrite Hkept.
    split; [by simplify_map_eq|]. split; [done|]. split; [done|].
    split; [by simplify_map_eq|]. split; by simplify_map_eq.
Qed.

End postpone_facts.

(** ** The background check: failure, no update, the monthly ID *)

Section checker_more.

(** The first statements of [_bg] when the last check time is a number. *)
Lemma rotate_id_eq (env : environment) (w : world) (lastCheck : Q) :
  state w !! "lastCheck" = Some (VNum lastCheck) →
  let rotated :=
    bool_decide (year_month env lastCheck ≠ year_month env (clock env (ticks w))) in
  UpdateChecker.rotate_id env w =
  (Ok (),
   mkWorld
     (if rotated then <["id" := VStr (uuid4_hex env (uuids w))]> (state w)
      else state w)
     (stateFile w) (files w) (autoChecker w) (shuttingDown w) (S (ticks w))
     (if rotated then S (uuids w) else uuids w) (polls w) (trace w)).
Proof.
  intros Hlast. unfold UpdateChecker.rotate_id.
  destruct w as [st sf fs ac sd tk uu po tr]. cbn in Hlast. mred.
  rewrite Hlast. mred. by case_bool_decide; mred.
Qed.

(** [_bg] when the check raises. *)
Lemma bg_failed (env : environment) (AUTO : bool) (w w1 : world) (e : exn) :
  (UpdateChecker.rotate_id env w).1 = Ok () →
  checkForUpdate env AUTO (UpdateChecker.rotate_id env w).2 = (Raise e, w1) →
  UpdateChecker._bg env AUTO w =
  (Ok (),
   mkWorld (state w1) (stateFile w1) (files w1) (autoChecker w1)
     (shuttingDown w1) (ticks w1) (uuids w1) (polls w1)
     (trace w1
      ++ [EvLog "debugWarning" (py "Error checking for update")]
      ++ (if AUTO
          then [EvCallAfter Timer_Stop;
                EvCallAfter (Timer_Start (RETRY_INTERVAL * 1000) true)]
          else [EvCallAfter ProgressDialog_done;
                EvCallAfter
                  (ErrorMessageBox
                     (if truthy (VStr (conf_serverURL env))
                      then Some (conf_serverURL env) else None))]))).
Proof.
  intros Hrot Hchk. unfold UpdateChecker._bg.
  unfold mbind at 1. unfold M_bind at 1.
  destruct (UpdateChecker.rotate_id env w) as [[[]|e0] w0]; [|done]. cbn in Hchk.
  unfold mbind at 1. unfold M_bind at 1. unfold try_except, fmap, M_fmap.
  rewrite Hchk. destruct w1 as [st sf fs ac sd tk uu po tr].
  destruct AUTO.
  - unfold AutoUpdateChecker._error, AutoUpdateChecker.setNextCheck. mred.
    by rewrite <- !app_assoc.
  - unfold UpdateChecker._error. mred. by rewrite <- !app_assoc.
Qed.

(** [_bg] when the check finds no update. *)
Lemma bg_no_update (env : environment) (AUTO : bool) (w w1 : world) :
  (UpdateChecker.rotate_id env w).1 = Ok () →
  checkForUpdate env AUTO (UpdateChecker.rotate_id env w).2 = (Ok None, w1) →
  let recorded := <["lastCheck" := VNum (clock env (ticks w1))]> (state w1) in
  UpdateChecker._bg env AUTO w =
  (Ok (),
   mkWorld recorded
     (if stateFile_writable env then Some recorded else stateFile w1)
     (files w1) (autoChecker w1) (shuttingDown w1) (S (ticks w1)) (uuids w1)
     (polls w1)
     (trace w1
      ++ (if AUTO then []
          else [EvCallAfter ProgressDialog_done;
                EvCallAfter (UpdateResultDialog None false)])
      ++ [if stateFile_writable env then EvPickleDump recorded
          else EvLog "debugWarning" (py "Error saving state")]
      ++ (if autoChecker w1
          then [EvCallAfter Timer_Stop;
                EvCallAfter (Timer_Start (CHECK_INTERVAL * 1000) true)]
          else []))).
Proof.
  intros Hrot Hchk. unfold UpdateChecker._bg.
  unfold mbind at 1. unfold M_bind at 1.
  destruct (UpdateChecker.rotate_id env w) as [[[]|e0] w0]; [|done]. cbn in Hchk.
  unfold mbind at 1. unfold M_bind at 1. unfold try_except, fmap, M_fmap.
  rewrite Hchk. destruct w1 as [st sf fs ac sd tk uu po tr].
  unfold saveState, AutoUpdateChecker.setNextCheck.
  destruct AUTO.
  - unfold AutoUpdateChecker._result. mred.
    destruct (stateFile_writable env); mred; destruct ac; mred;
      rewrite <- ?app_assoc; reflexivity.
  - unfold UpdateChecker._result. mred.
    destruct (stateFile_writable env); mred; destruct ac; mred;
      rewrite <- ?app_assoc; reflexivity.
Qed.

(** X9. A check that fails (the parameters cannot be built, the request
    fails, the status is not 200, the answer is invalid) does not end [_bg]
    with an exception and is not recorded: [lastCheck] and
    [dontRemindVersion] stay as they were and nothing is saved.  The
    automatic checker sets its timer to [RETRY_INTERVAL]; a manual check asks
    for the error message instead. *)
Theorem bg_failed_check (env : environment) (AUTO : bool) (w : world) (e : exn) :
  (UpdateChecker.rotate_id env w).1 = Ok () →
  (checkForUpdate env AUTO (UpdateChecker.rotate_id env w).2).1 = Raise e →
  let r := UpdateChecker._bg env AUTO w in
  r.1 = Ok () ∧
  state r.2 !! "lastCheck" = state w !! "lastCheck" ∧
  state r.2 !! "dontRemindVersion" = state w !! "dontRemindVersion" ∧
  stateFile r.2 = stateFile w ∧
  ∃ sent,
    (∀ c, EvCallAfter c ∉ sent) ∧
    trace r.2 =
    trace w ++ sent
    ++ [EvLog "debugWarning" (py "Error checking for update")]
    ++ (if AUTO
        then [EvCallAfter Timer_Stop;
              EvCallAfter (Timer_Start (RETRY_INTERVAL * 1000) true)]
        else [EvCallAfter ProgressDialog_done;
              EvCallAfter
                (ErrorMessageBox
                   (if truthy (VStr (conf_serverURL env))
                    then Some (conf_serverURL env) else None))]).
Proof.
  intros Hrot Hchk r.
  destruct (rotate_id_frame env w) as (Htr0 & Hsf0 & _ & Hst0).
  destruct (checkForUpdate_frame env AUTO (UpdateChecker.rotate_id env w).2)
    as (Hst1 & Hsf1 & _ & sent & Htr1 & Hsent).
  destruct (checkForUpdate env AUTO (UpdateChecker.rotate_id env w).2)
    as [res w1] eqn:Heq.
  cbn in Hchk, Hst1, Hsf1, Htr1. subst res.
  unfold r. rewrite (bg_failed _ _ _ _ _ Hrot Heq). cbn [fst snd state stateFile trace].
  split; [done|].
  split; [by rewrite Hst1, Hst0|]. split; [by rewrite Hst1, Hst0|].
  split; [by rewrite Hsf1|].
  exists sent. split; [done|]. by rewrite Htr1, Htr0, <- !app_assoc.
Qed.

(** X10. A check that completes without finding an update is recorded:
    [_bg] does not raise, [lastCheck] becomes the time read once the answer is
    there and [dontRemindVersion] is left alone; the automatic checker asks
    for no dialog, a manual check asks for the dialog that reports no update;
    and the timer is set to [CHECK_INTERVAL] when there is an automatic
    checker. *)
Theorem bg_no_update_found (env : environment) (AUTO : bool) (w : world)
    (lastCheck : Q) :
  state w !! "lastCheck" = Some (VNum lastCheck) →
  (checkForUpdate env AUTO (UpdateChecker.rotate_id env w).2).1 = Ok None →
  let r := UpdateChecker._bg env AUTO w in
  r.1 = Ok () ∧
  state r.2 !! "lastCheck" = Some (VNum (clock env (S (ticks w)))) ∧
  state r.2 !! "dontRemindVersion" = state w !! "dontRemindVersion" ∧
  (stateFile_writable env = true → stateFile r.2 = Some (state r.2)) ∧
  ∃ sent,
    (∀ c, EvCallAfter c ∉ sent) ∧
    trace r.2 =
    trace w ++ sent
    ++ (if AUTO then []
        else [EvCallAfter ProgressDialog_done;
              EvCallAfter (UpdateResultDialog None false)])
    ++ [if stateFile_writable env then EvPickleDump (state r.2)
        else EvLog "debugWarning" (py "Error saving state")]
    ++ (if autoChecker w
        then [EvCallAfter Timer_Stop;
              EvCallAfter (Timer_Start (CHECK_INTERVAL * 1000) true)]
        else []).
Proof.
  intros Hlast Hchk r.
  pose proof (rotate_id_eq env w lastCheck Hlast) as Hrot. cbn zeta in Hrot.
  assert ((UpdateChecker.rotate_id env w).1 = Ok ()) as Hok by by rewrite Hrot.
  assert (ticks (UpdateChecker.rotate_id env w).2 = S (ticks w)) as Htk0
    by by rewrite Hrot.
  destruct (rotate_id_frame env w) as (Htr0 & Hsf0 & Hac0 & Hst0).
  destruct (checkForUpdate_frame env AUTO (UpdateChecker.rotate_id env w).2)
    as (Hst1 & Hsf1 & Hac1 & sent & Htr1 & Hsent).
  pose proof (checkForUpdate_world env AUTO (UpdateChecker.rotate_id env w).2)
    as Hw1.
  assert (ticks (checkForUpdate env AUTO (UpdateChecker.rotate_id env w).2).2
          = S (ticks w)) as Htk1.
  { rewrite Hw1.
    by destruct (checkForUpdate_params env AUTO (UpdateChecker.rotate_id env w).2).1. }
  clear Hw1 Hrot.
  destruct (checkForUpdate env AUTO (UpdateChecker.rotate_id env w).2)
    as [res w1] eqn:Heq.
  cbn in Hchk, Hst1, Hsf1, Hac1, Htr1, Htk1. subst res.
  unfold r. rewrite (bg_no_update _ _ _ _ Hok Heq).
  cbn [fst snd state stateFile trace].
  split; [done|].
  split; [by rewrite lookup_insert_eq, Htk1|].
  split; [by rewrite lookup_insert_ne, Hst1, Hst0|].
  split; [by intros ->|].
  exists sent. split; [done|]. by rewrite Htr1, Htr0, Hac1, Hac0, <- !app_assoc.
Qed.

(** X11. The usage-statistics ID changes once a month and only then: after
    [_bg], whatever the check gave, the [id] of the state is a fresh UUID when
    the last check fell in another month of the calendar than now, and the
    [id] it was before otherwise. *)
Theorem bg_rotates_id_monthly (env : environment) (AUTO : bool) (w : world)
    (lastCheck : Q) :
  state w !! "lastCheck" = Some (VNum lastCheck) →
  state (UpdateChecker._bg env AUTO w).2 !! "id" =
  if bool_decide (year_month env lastCheck ≠ year_month env (clock env (ticks w)))
  then Some (VStr (uuid4_hex env (uuids w)))
  else state w !! "id".
Proof.
  intros Hlast.
  pose proof (rotate_id_eq env w lastCheck Hlast) as Hrot. cbn zeta in Hrot.
  assert ((UpdateChecker.rotate_id env w).1 = Ok ()) as Hok by by rewrite Hrot.
  assert (state (UpdateChecker.rotate_id env w).2 !! "id" =
          if bool_decide (year_month env lastCheck
                          ≠ year_month env (clock env (ticks w)))
          then Some (VStr (uuid4_hex env (uuids w)))
          else state w !! "id") as <-.
  { rewrite Hrot. cbn. case_bool_decide; [by rewrite lookup_insert_eq|done]. }
  clear Hrot.
  destruct (checkForUpdate_frame env AUTO (UpdateChecker.rotate_id env w).2)
    as (Hst1 & _).
  destruct (checkForUpdate env AUTO (UpdateChecker.rotate_id env w).2)
    as [[[info|]|e] w1] eqn:Heq; cbn in Hst1.
  - rewrite (bg_after_check _ _ _ _ _ Hok Heq).
    destruct (after_check_cases env AUTO info w1) as [(_ & _ & ->)|(_ & -> & _)].
    + by rewrite <- Hst1.
    + by rewrite !lookup_insert_ne, Hst1.
  - rewrite (bg_no_update _ _ _ _ Hok Heq). cbn.
    by rewrite lookup_insert_ne, Hst1.
  - rewrite (bg_failed _ _ _ _ _ Hok Heq). cbn. by rewrite Hst1.
Qed.

(** X12. With the start-up notification on and an installable update
    recorded, the automatic checker sets its first check to fire at once: the
    timer is started with a delay of zero, and neither the clock nor
    [lastCheck] is read. *)
Theorem init_fires_at_once_for_pending (env : environment) (w : world) :
  conf_startupNotification env = true →
  (isPendingUpdate w).1 = Ok true →
  AutoUpdateChecker.__init__ env w =
  (Ok (),
   mkWorld (state w) (stateFile w) (files w) (autoChecker w) (shuttingDown w)
     (ticks w) (uuids w) (polls w) (trace w ++ [EvTimerStart 0 true])).
Proof.
  intros Hconf Hpending. unfold AutoUpdateChecker.__init__. rewrite Hconf.
  unfold mbind at 1. unfold M_bind at 1.
  unfold isPendingUpdate, mbind, M_bind in Hpending |- *.
  destruct (getPendingUpdate_installable w) as [(p & v & a & b & _ & Heq)|[_ Heq]];
    rewrite Heq in Hpending |- *; [|done].
  by destruct w.
Qed.

End checker_more.

Section later_button.

Lemma onLaterButton_eq (env : environment) (w : world) :
  let st := <["dontRemindVersion" := VNone]> (state w) in
  UpdateResultDialog.onLaterButton env w =
  (Ok (),
   mkWorld st (if stateFile_writable env then Some st else stateFile w)
     (files w) (autoChecker w) (shuttingDown w) (ticks w) (uuids w) (polls w)
     (trace w ++ [if stateFile_writable env then EvPickleDump st
                  else EvLog "debugWarning" (py "Error saving state")])).
Proof.
  destruct w as [st0 sf fs ac sd tk uu po tr].
  unfold UpdateResultDialog.onLaterButton, saveState. mred.
  by destruct (stateFile_writable env).
Qed.

(** X13. After "remind me later" ([onLaterButton]) the next automatic check
    that finds an update asks for the update dialog again, whichever version
    had been recorded as not to be reminded of before. *)
Theorem later_button_reminds_again (env : environment) (w : world)
    (info : UpdateInfo.t) :
  let wL := (UpdateResultDialog.onLaterButton env w).2 in
  (UpdateChecker.rotate_id env wL).1 = Ok () →
  (checkForUpdate env true (UpdateChecker.rotate_id env wL).2).1 = Ok (Some info) →
  state wL !! "dontRemindVersion" = Some VNone ∧
  (stateFile_writable env = true → stateFile wL = Some (state wL)) ∧
  (UpdateChecker._bg env true wL).1 = Ok () ∧
  EvCallAfter (UpdateResultDialog (Some info) true)
  ∈ trace (UpdateChecker._bg env true wL).2.
Proof.
  intros wL Hrot Hchk.
  pose proof (onLaterButton_eq env w) as HL. cbn zeta in HL.
  assert (state wL !! "dontRemindVersion" = Some VNone) as Hnone.
  { unfold wL. rewrite HL. cbn. by rewrite lookup_insert_eq. }
  split; [done|]. split.
  { intros Hwr. unfold wL. rewrite HL, Hwr. done. }
  clear HL.
  destruct (rotate_id_frame env wL) as (_ & _ & _ & Hst0).
  destruct (checkForUpdate_frame env true (UpdateChecker.rotate_id env wL).2)
    as (Hst1 & _).
  destruct (checkForUpdate env true (UpdateChecker.rotate_id env wL).2)
    as [res w1] eqn:Heq.
  cbn in Hchk, Hst1. subst res.
  rewrite (bg_after_check _ _ _ _ _ Hrot Heq).
  assert (state w1 !! "dontRemindVersion" = Some VNone) as Hw1
    by by rewrite Hst1, Hst0.
  destruct (after_check_cases env true info w1)
    as [(_ & Hn & _)|(Hok & _ & _ & Htr)]; [congruence|].
  split; [done|]. rewrite Htr. unfold dismissed. rewrite Hw1. cbn.
  apply elem_of_app. right. apply elem_of_cons. by left.
Qed.

End later_button.

Lemma bg_failed_check_witness :
  let r := UpdateChecker._bg (sample_env unreachable no_mirror) true
             (sample_world pending_state ∅) in
  r.1 = Ok () ∧
  state r.2 !! "lastCheck" = pending_state !! "lastCheck" ∧
  stateFile r.2 = Some pending_state.
Proof.
  destruct (bg_failed_check (sample_env unreachable no_mirror) true
              (sample_world pending_state ∅) URLError)
    as (Hok & Hlast & _ & Hfile & _).
  - vm_compute; reflexivity.
  - vm_compute; reflexivity.
  - by repeat split.
Defined.

Lemma bg_no_update_found_witness :
  let env := sample_env no_update no_mirror in
  let r := UpdateChecker._bg env true (sample_world pending_state ∅) in
  r.1 = Ok () ∧
  state r.2 !! "lastCheck" = Some (VNum (inject_Z 1700000001)).
Proof.
  destruct (bg_no_update_found (sample_env no_update no_mirror) true
              (sample_world pending_state ∅) (inject_Z 1699990000))
    as (Hok & Hlast & _).
  - vm_compute; reflexivity.
  - vm_compute; reflexivity.
  - by split.
Defined.

Lemma bg_rotates_id_monthly_witness :
  state (UpdateChecker._bg (sample_env update_available no_mirror) true
           (sample_world pending_state ∅)).2 !! "id"
  = Some (VStr (py "feedfacefeedfacefeedfacefeedface")).
Proof.
  rewrite (bg_rotates_id_monthly (sample_env update_available no_mirror) true
             (sample_world pending_state ∅) (inject_Z 1699990000)).
  - vm_compute; reflexivity.
  - vm_compute; reflexivity.
Defined.

Lemma init_fires_at_once_for_pending_witness :
  trace (AutoUpdateChecker.__init__
           (with_startupNotification true (sample_env no_update no_mirror))
           (sample_world pending_state pending_files)).2
  = [EvTimerStart 0 true].
Proof.
  rewrite init_fires_at_once_for_pending.
  - reflexivity.
  - reflexivity.
  - vm_compute; reflexivity.
Defined.

Lemma later_button_reminds_again_witness :
  let env := sample_env update_available no_mirror in
  let w := sample_world (<["dontRemindVersion" := VStr (py "2025.2")]> pending_state) ∅ in
  EvCallAfter (UpdateResultDialog (Some sample_info) true)
  ∈ trace (UpdateChecker._bg env true (UpdateResultDialog.onLaterButton env w).2).2.
Proof.
  intros env w.
  refine (proj2 (proj2 (proj2 (later_button_reminds_again env w sample_info _ _)))).
  - vm_compute; reflexivity.
  - vm_compute; reflexivity.
Defined.

(** ** Start-up: what survives a restart *)

Section startup_more.

(** The state [initialize] starts from: the loaded one or the defaults, with
    an ID added where there is none, and the pending fields reset when no
    pending version is recorded or it is the running version. *)
Lemma load_state_eq (env : environment) (w : world) :
  let st0 := match stateFile w with
             | Some st => st
             | None => reset_pending defaults
             end in
  let fresh := bool_decide (st0 !! "id" = None) in
  let st1 := if fresh then <["id" := VStr (uuid4_hex env (uuids w))]> st0 else st0 in
  let st2 := match st1 !! "pendingUpdateVersion" with
             | None => reset_pending st1
             | Some v =>
               if eq_str v (running_version env) then reset_pending st1 else st1
             end in
  load_state env w =
  (Ok (),
   mkWorld st2 (stateFile w) (files w) (autoChecker w) (shuttingDown w) (ticks w)
     (if fresh then S (uuids w) else uuids w) (polls w)
     (trace w ++ match stateFile w with
                 | Some _ => []
                 | None => [EvLog "debugWarning" (py "Couldn't retrieve update state")]
                 end)).
Proof.
  destruct w as [st sf fs ac sd tk uu po tr]. unfold load_state.
  destruct sf as [loaded|]; mred.
  - case_bool_decide; mred.
    + destruct (<["id":=VStr (uuid4_hex env uu)]> loaded !! "pendingUpdateVersion")
        as [v|]; mred.
      * destruct (eq_str v (running_version env)); mred;
          rewrite ?_setStateToNone_eq, ?app_nil_r; reflexivity.
      * rewrite ?_setStateToNone_eq, ?app_nil_r; reflexivity.
    + destruct (loaded !! "pendingUpdateVersion") as [v|]; mred.
      * destruct (eq_str v (running_version env)); mred;
          rewrite ?_setStateToNone_eq, ?app_nil_r; reflexivity.
      * rewrite ?_setStateToNone_eq, ?app_nil_r; reflexivity.
  - rewrite ?_setStateToNone_eq. mred.
    change (<["pendingUpdateBackCompatToAPIVersion":=VTuple (0, 0, 0)]>
              (<["pendingUpdateAPIVersion":=VTuple (0, 0, 0)]>
                 (<["pendingUpdateVersion":=VNone]>
                    (<["pendingUpdateFile":=VNone]> defaults))))
      with (reset_pending defaults).
    case_bool_decide; mred.
    + destruct (<["id":=VStr (uuid4_hex env uu)]> (reset_pending defaults)
                !! "pendingUpdateVersion") as [v|]; mred.
      * destruct (eq_str v (running_version env)); mred;
          rewrite ?_setStateToNone_eq; reflexivity.
      * rewrite ?_setStateToNone_eq; reflexivity.
    + destruct (reset_pending defaults !! "pendingUpdateVersion") as [v|]; mred.
      * destruct (eq_str v (running_version env)); mred;
          rewrite ?_setStateToNone_eq; reflexivity.
      * rewrite ?_setStateToNone_eq; reflexivity.
Qed.

Lemma reset_pending_id (st : gmap string value) :
  pending_cleared st → reset_pending st = st.
Proof.
  intros (Hf & Hv & Ha & Hb). unfold reset_pending.
  rewrite (insert_id st "pendingUpdateFile") by done.
  rewrite (insert_id st "pendingUpdateVersion") by done.
  rewrite (insert_id st "pendingUpdateAPIVersion") by done.
  by rewrite insert_id.
Qed.

Lemma isPendingUpdate_true (w : world) (p : str) (v a b : value) :
  installable (state w) (files w) p v a b → isPendingUpdate w = (Ok true, w).
Proof.
  intros Hi. unfold isPendingUpdate, mbind, M_bind.
  destruct (getPendingUpdate_installable w) as [(p' & v' & a' & b' & _ & ->)|[Hn _]];
    [done|]. by destruct (Hn _ _ _ _ Hi).
Qed.

Lemma isPendingUpdate_cleared (w : world) :
  pending_cleared (state w) → isPendingUpdate w = (Ok false, w).
Proof.
  intros Hc. unfold isPendingUpdate, mbind, M_bind.
  destruct (getPendingUpdate_installable w) as [(p & v & a & b & Hi & _)|[_ ->]].
  - destruct Hi as (Hf & _). destruct Hc as (Hf' & _). congruence.
  - rewrite (reset_pending_id _ Hc). by destruct w.
Qed.

(** Creating the checker touches neither the files nor, beyond its look at
    the pending update, the state. *)
Lemma init_files (env : environment) (w : world) :
  files (AutoUpdateChecker.__init__ env w).2 = files w.
Proof.
  unfold AutoUpdateChecker.__init__.
  unfold mbind at 1. unfold M_bind at 1.
  assert (files ((if conf_startupNotification env then isPendingUpdate
                  else mret false : M bool) w).2 = files w) as Hfs.
  { destruct (conf_startupNotification env); [|done].
    rewrite isPendingUpdate_eq. cbn [snd].
    destruct (getPendingUpdate_frame w) as [_ ->]. done. }
  destruct ((if conf_startupNotification env then isPendingUpdate
             else mret false : M bool) w) as [[notify|e] w2]; [|done].
  cbn in Hfs.
  destruct w2 as [st sf fs ac sd tk uu po tr]. destruct notify; mred; [done|].
  destruct (st !! "lastCheck") as [[| | |q|]|]; by mred.
Qed.

Lemma init_then_put (env : environment) (w : world) :
  state ((AutoUpdateChecker.__init__ env;; put_autoChecker true) w).2
  = state (AutoUpdateChecker.__init__ env w).2 ∧
  files ((AutoUpdateChecker.__init__ env;; put_autoChecker true) w).2
  = files (AutoUpdateChecker.__init__ env w).2 ∧
  (((AutoUpdateChecker.__init__ env;; put_autoChecker true) w).1 = Ok () ↔
   (AutoUpdateChecker.__init__ env w).1 = Ok ()).
Proof.
  unfold mbind, M_bind.
  destruct (AutoUpdateChecker.__init__ env w) as [[[]|e] [?????????]]; done.
Qed.

Lemma start_autoChecker_files (env : environment) (w : world) :
  files (start_autoChecker env w).2 = files w.
Proof.
  unfold start_autoChecker.
  assert (files (isPendingUpdate w).2 = files w) as Hp.
  { rewrite isPendingUpdate_eq. cbn [snd].
    destruct (getPendingUpdate_frame w) as [_ ->]. done. }
  destruct (launcher env); cbn [negb]; [done|].
  destruct (conf_autoCheck env).
  - unfold mbind at 1. unfold M_bind at 1. cbn [mret M_ret].
    destruct (init_then_put env w) as (_ & -> & _). apply init_files.
  - destruct (conf_startupNotification env); [|done].
    unfold mbind at 1. unfold M_bind at 1.
    destruct (isPendingUpdate w) as [[[]|e] w2]; cbn in Hp; [|done..].
    destruct (init_then_put env w2) as (_ & -> & _). by rewrite init_files.
Qed.

(** With an installable update recorded, starting the checker leaves the
    state as it is. *)
Lemma start_autoChecker_installable (env : environment) (w : world)
    (p : str) (v a b : value) :
  installable (state w) (files w) p v a b →
  state (start_autoChecker env w).2 = state w.
Proof.
  intros Hi. pose proof (isPendingUpdate_true w p v a b Hi) as Hp.
  assert (state (AutoUpdateChecker.__init__ env w).2 = state w) as Hinit.
  { rewrite init_state. destruct (conf_startupNotification env); [|done].
    by rewrite Hp. }
  unfold start_autoChecker.
  destruct (launcher env); cbn [negb]; [done|].
  destruct (conf_autoCheck env).
  - unfold mbind at 1. unfold M_bind at 1. cbn [mret M_ret].
    by destruct (init_then_put env w) as (-> & _).
  - destruct (conf_startupNotification env); [|done].
    unfold mbind at 1. unfold M_bind at 1. rewrite Hp. cbn beta iota.
    by destruct (init_then_put env w) as (-> & _).
Qed.

(** With the pending fields cleared and a last check time recorded, starting
    the checker completes and leaves the state as it is. *)
Lemma start_autoChecker_cleared (env : environment) (w : world) (lastCheck : Q) :
  pending_cleared (state w) →
  state w !! "lastCheck" = Some (VNum lastCheck) →
  (start_autoChecker env w).1 = Ok () ∧
  state (start_autoChecker env w).2 = state w.
Proof.
  intros Hc Hlast. pose proof (isPendingUpdate_cleared w Hc) as Hp.
  destruct (init_timer env w lastCheck) as [Hok _]; [right; by rewrite Hp|done|].
  assert (state (AutoUpdateChecker.__init__ env w).2 = state w) as Hinit.
  { rewrite init_state. destruct (conf_startupNotification env); [|done].
    by rewrite Hp. }
  unfold start_autoChecker.
  destruct (launcher env); cbn [negb]; [done|].
  destruct (conf_autoCheck env).
  - split.
    + unfold mbind at 1. unfold M_bind at 1. cbn [mret M_ret].
      destruct (init_then_put env w) as (_ & _ & Hiff). by apply Hiff.
    + unfold mbind at 1. unfold M_bind at 1. cbn [mret M_ret].
      by destruct (init_then_put env w) as (-> & _).
  - destruct (conf_startupNotification env); [|done].
    split; unfold mbind at 1; unfold M_bind at 1; by rewrite Hp.
Qed.

(** As long as the state has a [pendingUpdateFile], the sweep fails with
    [OSError] or not at all. *)
Lemma sweep_raises (env : environment) (names : list str) (w : world)
    (f : value) (e : exn) :
  state w !! "pendingUpdateFile" = Some f →
  (sweep env names w).1 = Raise e → e = OSError.
Proof.
  revert w. induction names as [|name names IH]; intros w Hf; [done|].
  cbn [sweep]. destruct w as [st sf fs ac sd tk uu po tr]. cbn in Hf. mred.
  rewrite Hf. mred.
  destruct (negb (eq_str f (join_storeUpdatesDir env name))); mred.
  - unfold os_remove. mred. case_bool_decide; mred; [|by intros [= <-]].
    by apply IH.
  - by apply IH.
Qed.

Lemma remove_old_updates_ok (env : environment) (w : world) (f : value) :
  state w !! "pendingUpdateFile" = Some f →
  (remove_old_updates env w).1 = Ok ().
Proof.
  intros Hf. unfold remove_old_updates, try_except.
  pose proof (sweep_raises env (listdir_storeUpdatesDir env) w f) as Hr.
  destruct (sweep env (listdir_storeUpdatesDir env) w) as [[[]|e] w']; [done|].
  by rewrite (Hr e Hf eq_refl).
Qed.

(** The sweep never removes the file recorded as pending. *)
Lemma sweep_keeps_pending (env : environment) (names : list str) (w : world)
    (p : str) :
  state w !! "pendingUpdateFile" = Some (VStr p) →
  files (sweep env names w).2 !! p = files w !! p.
Proof.
  revert w. induction names as [|name names IH]; intros w Hf; [done|].
  cbn [sweep]. destruct w as [st sf fs ac sd tk uu po tr]. cbn in Hf. mred.
  rewrite Hf. mred.
  case_bool_decide as Hp; mred.
  - by apply IH.
  - unfold os_remove. mred. case_bool_decide; mred; [|done].
    rewrite IH by done. cbn. by rewrite lookup_delete_ne.
Qed.

Lemma remove_old_updates_files (env : environment) (w : world) :
  files (remove_old_updates env w).2
  = files (sweep env (listdir_storeUpdatesDir env) w).2.
Proof.
  unfold remove_old_updates, try_except.
  destruct (sweep env (listdir_storeUpdatesDir env) w) as [[[]|e] w']; [done|].
  by destruct e, w'.
Qed.

(** The whole [try] statement completes when the directory can be listed, or
    when it cannot but [f] is bound. *)
Lemma try_remove_old_updates_ok (env : environment) (opened : bool) (w : world)
    (f : value) :
  state w !! "pendingUpdateFile" = Some f →
  storeUpdatesDir_listable env = true ∨ opened = true →
  (try_remove_old_updates env opened w).1 = Ok ().
Proof.
  intros Hf Hcan. unfold try_remove_old_updates, listdir_failed.
  destruct (storeUpdatesDir_listable env); [by eapply remove_old_updates_ok|].
  destruct Hcan as [Hl | ->]; done.
Qed.

Lemma try_remove_old_updates_keeps_pending (env : environment) (opened : bool)
    (w : world) (p : str) :
  state w !! "pendingUpdateFile" = Some (VStr p) →
  files (try_remove_old_updates env opened w).2 !! p = files w !! p.
Proof.
  intros Hf. unfold try_remove_old_updates, listdir_failed.
  destruct (storeUpdatesDir_listable env).
  - rewrite remove_old_updates_files. by apply sweep_keeps_pending.
  - by destruct opened, w.
Qed.

(** The state at the end of [initialize]: the one loaded, or that one with
    the pending fields reset. *)
Lemma initialize_state (env : environment) (w : world) :
  state (initialize env w).2 = state (load_state env w).2 ∨
  state (initialize env w).2 = reset_pending (state (load_state env w).2).
Proof.
  pose proof (load_state_eq env w) as Hload. cbn zeta in Hload.
  rewrite (initialize_eq _ _ _ Hload). rewrite Hload. cbn [snd].
  match goal with |- context [try_remove_old_updates env ?o ?wA] =>
    destruct (try_remove_old_updates_frame env o wA) as [Hst _];
    destruct (try_remove_old_updates env o wA) as [[[]|e] wB] end; cbn in Hst.
  - destruct (start_autoChecker_state env wB) as [Hs _]. by rewrite <- Hst.
  - left. by rewrite <- Hst.
Qed.

(** X14. What [saveState] has written, the next [initialize] reads back:
    when the state file can be written and the state has an [id], every
    entry saved, the four pending fields apart, is in the state after the
    restart with the value it had. *)
Theorem saved_state_survives_restart (env : environment) (w w2 : world) :
  stateFile_writable env = true →
  is_Some (state w !! "id") →
  stateFile w2 = stateFile (saveState env w).2 →
  ∀ k, k ∉ ["pendingUpdateFile"; "pendingUpdateVersion"; "pendingUpdateAPIVersion";
            "pendingUpdateBackCompatToAPIVersion"] →
       state (initialize env w2).2 !! k = state w !! k.
Proof.
  intros Hwr [idv Hid] Hfile k Hk.
  assert (stateFile w2 = Some (state w)) as Hsf.
  { rewrite Hfile. unfold saveState. rewrite Hwr. by destruct w. }
  assert (state (load_state env w2).2 !! k = state w !! k) as Hload.
  { pose proof (load_state_eq env w2) as Hload. cbn zeta in Hload.
    rewrite Hsf in Hload. cbn beta iota in Hload.
    rewrite (bool_decide_eq_false_2 (state w !! "id" = None)) in Hload
      by (by rewrite Hid).
    rewrite Hload. cbn [snd state].
    destruct (state w !! "pendingUpdateVersion") as [v|];
      [destruct (eq_str v (running_version env))|];
      by rewrite ?reset_pending_other. }
  destruct (initialize_state env w2) as [-> | ->];
    by rewrite ?reset_pending_other.
Qed.

(** X15. A postponed update survives the restart: when the state file
    records an installable update whose version is not the running one,
    [initialize] keeps the four fields and the file, whatever else is in the
    updates directory, so that the update is still the one
    [getPendingUpdate] returns. *)
Theorem pending_survives_restart (env : environment) (w : world)
    (st : gmap string value) (p : str) (v a b : value) :
  stateFile w = Some st →
  installable st (files w) p v a b →
  eq_str v (running_version env) = false →
  let r := initialize env w in
  installable (state r.2) (files r.2) p v a b ∧
  getPendingUpdate r.2 = (Ok (Some (VStr p, v, or_zero a, or_zero b)), r.2).
Proof.
  intros Hsf Hi Hv r.
  assert (installable (state r.2) (files r.2) p v a b) as Hi'.
  { unfold r. clear r.
    assert (∃ wA, load_state env w = (Ok (), wA) ∧
                  installable (state wA) (files wA) p v a b) as (wA & Hload & HA).
    { pose proof (load_state_eq env w) as Hload. cbn zeta in Hload.
      rewrite Hsf in Hload. cbn beta iota in Hload.
      destruct Hi as (Hf & Hne & Hp & Hver & Ha & Hb).
      destruct (bool_decide (st !! "id" = None)).
      - rewrite lookup_insert_ne, Hver, Hv in Hload by done.
        eexists. split; [exact Hload|].
        unfold installable. cbn [state files]. by rewrite !lookup_insert_ne.
      - rewrite Hver, Hv in Hload. eexists. split; [exact Hload|]. done. }
    rewrite (initialize_eq _ _ _ Hload). clear Hload.
    rewrite Hsf, (bool_decide_eq_true_2 (is_Some (Some st))) by done.
    cbn [orb].
    destruct (try_remove_old_updates_frame env true wA) as [Hst _].
    pose proof (try_remove_old_updates_ok env true wA (VStr p) (proj1 HA)
                  (or_intror eq_refl)) as Hok.
    pose proof (try_remove_old_updates_keeps_pending env true wA p (proj1 HA))
      as Hkeep.
    destruct (try_remove_old_updates env true wA) as [[[]|e] wB];
      cbn in Hst, Hok, Hkeep; [|done].
    assert (installable (state wB) (files wB) p v a b) as HB.
    { unfold installable. rewrite Hst, Hkeep. exact HA. }
    unfold installable.
    rewrite (start_autoChecker_installable env wB p v a b HB),
      start_autoChecker_files. exact HB. }
  split; [done|].
  destruct (getPendingUpdate_installable r.2)
    as [(p' & v' & a' & b' & Hi2 & ->)|[Hn _]]; [|by destruct (Hn _ _ _ _ Hi')].
  destruct Hi' as (Hf & _ & _ & Hver & Ha & Hb).
  destruct Hi2 as (Hf2 & _ & _ & Hver2 & Ha2 & Hb2).
  congruence.
Qed.

(** X16. A missing or unreadable state file.  Whatever happens next, the
    state [initialize] leaves holds the defaults ([lastCheck] 0, no
    [dontRemindVersion]), a fresh [id], and the four pending fields at their
    none values.  [initialize] completes when the updates directory can be
    listed, and also when it cannot but the state file could at least be
    opened.  When the state file could not be opened and the directory
    cannot be listed, the handler of the [OSError] formats a name [f] that
    was never bound, and [initialize] ends with [UnboundLocalError]. *)
Theorem initialize_without_state_file (env : environment) (w : world) :
  stateFile w = None →
  let r := initialize env w in
  (storeUpdatesDir_listable env = true ∨ stateFile_opens env = true →
   r.1 = Ok ()) ∧
  (storeUpdatesDir_listable env = false → stateFile_opens env = false →
   r.1 = Raise UnboundLocalError) ∧
  state r.2 !! "lastCheck" = Some (VNum 0) ∧
  state r.2 !! "dontRemindVersion" = Some VNone ∧
  state r.2 !! "id" = Some (VStr (uuid4_hex env (uuids w))) ∧
  pending_cleared (state r.2).
Proof.
  intros Hsf r. unfold r. clear r.
  pose proof (load_state_eq env w) as Hload. cbn zeta in Hload.
  rewrite Hsf in Hload. cbn beta iota in Hload.
  rewrite (bool_decide_eq_true_2 (reset_pending defaults !! "id" = None)) in Hload
    by done.
  replace (<["id":=VStr (uuid4_hex env (uuids w))]> (reset_pending defaults)
           !! "pendingUpdateVersion") with (Some VNone) in Hload by done.
  cbn [eq_str] in Hload.
  rewrite (initialize_eq _ _ _ Hload).
  rewrite Hsf, (bool_decide_eq_false_2 (is_Some None)) by (by intros [? ?]).
  cbn [orb].
  match type of Hload with _ = (_, ?w0) => set (wA := w0) end.
  set (stA := <["id":=VStr (uuid4_hex env (uuids w))]> (reset_pending defaults)).
  assert (state wA = stA) as HstA by done.
  assert (pending_cleared stA) as Hc.
  { destruct (reset_pending_cleared defaults) as (? & ? & ? & ?).
    unfold stA, pending_cleared. by rewrite !lookup_insert_ne. }
  assert (stA !! "id" = Some (VStr (uuid4_hex env (uuids w)))) as Hid.
  { unfold stA. by rewrite lookup_insert_eq. }
  clearbody wA. clear Hload.
  destruct (try_remove_old_updates_frame env (stateFile_opens env) wA)
    as [Hst _].
  pose proof (try_remove_old_updates_ok env (stateFile_opens env) wA VNone)
    as Hok.
  rewrite HstA in Hok. specialize (Hok (proj1 Hc)).
  assert (storeUpdatesDir_listable env = false → stateFile_opens env = false →
          try_remove_old_updates env (stateFile_opens env) wA
          = (Raise UnboundLocalError, wA)) as Hunbound.
  { intros Hl Ho. unfold try_remove_old_updates, listdir_failed.
    by rewrite Hl, Ho. }
  destruct (try_remove_old_updates env (stateFile_opens env) wA)
    as [[[]|e] wB]; cbn in Hst, Hok; rewrite HstA in Hst.
  - destruct (start_autoChecker_cleared env wB 0) as [Hres HstB].
    { by rewrite Hst. }
    { by rewrite Hst. }
    rewrite HstB, Hst. split_and!; try done.
    intros Hl Ho. by specialize (Hunbound Hl Ho).
  - cbn [fst snd]. rewrite Hst.
    split; [intros Hcan; by specialize (Hok Hcan)|].
    split; [intros Hl Ho; specialize (Hunbound Hl Ho); congruence|done].
Qed.

(** One step of the sweep. *)
Lemma sweep_cons (env : environment) (name : str) (names : list str) (w : world)
    (f : value) :
  state w !! "pendingUpdateFile" = Some f →
  sweep env (name :: names) w =
  if eq_str f (join_storeUpdatesDir env name) then sweep env names w
  else match files w !! join_storeUpdatesDir env name with
       | Some _ =>
         sweep env names
           (mkWorld (state w) (stateFile w)
              (delete (join_storeUpdatesDir env name) (files w))
              (autoChecker w) (shuttingDown w) (ticks w) (uuids w) (polls w)
              (trace w ++ [EvLog "debug"
                             (py "Update file " ++ join_storeUpdatesDir env name
                              ++ py " removed")]))
       | None => (Raise OSError, w)
       end.
Proof.
  intros Hf. cbn [sweep].
  destruct w as [st sf fs ac sd tk uu po tr]. cbn in Hf. mred.
  rewrite Hf. mred.
  destruct (eq_str f (join_storeUpdatesDir env name)); mred; [done|].
  unfold os_remove. mred.
  destruct (fs !! join_storeUpdatesDir env name) as [content|]; by mred.
Qed.

(** When every entry of the directory is a file, the sweep completes and
    removes each of them but the pending one. *)
Lemma sweep_complete (env : environment) (names : list str) (w : world)
    (f : value) :
  state w !! "pendingUpdateFile" = Some f →
  NoDup (join_storeUpdatesDir env <$> names) →
  (∀ name, name ∈ names → is_Some (files w !! join_storeUpdatesDir env name)) →
  (sweep env names w).1 = Ok () ∧
  ∀ path,
    files (sweep env names w).2 !! path =
    if bool_decide (path ∈ join_storeUpdatesDir env <$> names)
       && negb (eq_str f path)
    then None else files w !! path.
Proof.
  revert w. induction names as [|name names IH]; intros w Hf Hnodup Hfiles.
  { split; [done|]. intros path. cbn.
    rewrite bool_decide_eq_false_2; [done|]. apply not_elem_of_nil. }
  rewrite fmap_cons in Hnodup. apply NoDup_cons in Hnodup as [Hnotin Hnodup].
  rewrite (sweep_cons _ _ _ _ _ Hf), fmap_cons.
  set (fpath := join_storeUpdatesDir env name) in *.
  destruct (Hfiles name) as [content Hthere]; [by left|]. fold fpath in Hthere.
  assert (∀ path, path ≠ fpath →
            bool_decide (path ∈ fpath :: (join_storeUpdatesDir env <$> names))
            = bool_decide (path ∈ join_storeUpdatesDir env <$> names)) as Hmem.
  { intros path Hne. apply bool_decide_ext. rewrite elem_of_cons. tauto. }
  destruct (eq_str f fpath) eqn:Heq.
  - destruct (IH w) as [Hok Hlook]; [done|done|..].
    { intros name' Hin. apply Hfiles. by right. }
    split; [done|]. intros path. rewrite Hlook.
    destruct (decide (path = fpath)) as [->|Hne].
    + rewrite (bool_decide_eq_false_2 (fpath ∈ _ <$> names)) by done.
      rewrite Heq. cbn [negb andb]. by rewrite andb_false_r.
    + by rewrite Hmem.
  - rewrite Hthere.
    match goal with |- context [sweep env names ?w'] =>
      destruct (IH w') as [Hok Hlook] end; [done|done|..].
    { intros name' Hin. cbn [files]. rewrite lookup_delete_ne.
      - apply Hfiles. by right.
      - intros Heq'. apply Hnotin. rewrite Heq'.
        by apply list_elem_of_fmap_2. }
    split; [done|]. intros path. rewrite Hlook. cbn [files].
    destruct (decide (path = fpath)) as [->|Hne].
    + rewrite (bool_decide_eq_false_2 (fpath ∈ _ <$> names)) by done.
      rewrite (bool_decide_eq_true_2 (fpath ∈ fpath :: _)) by left.
      rewrite Heq. cbn. by rewrite lookup_delete_eq.
    + rewrite Hmem by done. by rewrite lookup_delete_ne.
Qed.

(** X17. The start-up sweep never removes the file recorded as pending,
    whatever the updates directory holds, and it never fails: an entry that
    cannot be removed stops the sweep with a warning only. *)
Theorem sweep_never_removes_pending (env : environment) (w : world) (p : str) :
  state w !! "pendingUpdateFile" = Some (VStr p) →
  (remove_old_updates env w).1 = Ok () ∧
  files (remove_old_updates env w).2 !! p = files w !! p ∧
  state (remove_old_updates env w).2 = state w.
Proof.
  intros Hf. split; [by eapply remove_old_updates_ok|].
  split; [|by destruct (remove_old_updates_frame env w)].
  rewrite remove_old_updates_files. by apply sweep_keeps_pending.
Qed.

(** X18. When the entries of the updates directory are files, the start-up
    sweep removes every one of them but the file recorded as pending and
    touches no file outside the directory listing: at most the pending
    update is left of what the directory listed. *)
Theorem sweep_removes_all_but_pending (env : environment) (w : world) (f : value) :
  state w !! "pendingUpdateFile" = Some f →
  NoDup (join_storeUpdatesDir env <$> listdir_storeUpdatesDir env) →
  (∀ name, name ∈ listdir_storeUpdatesDir env →
           is_Some (files w !! join_storeUpdatesDir env name)) →
  let r := remove_old_updates env w in
  r.1 = Ok () ∧
  (∀ name, name ∈ listdir_storeUpdatesDir env →
           eq_str f (join_storeUpdatesDir env name) = false →
           files r.2 !! join_storeUpdatesDir env name = None) ∧
  (∀ path, path ∉ join_storeUpdatesDir env <$> listdir_storeUpdatesDir env ∨
           eq_str f path = true →
           files r.2 !! path = files w !! path).
Proof.
  intros Hf Hnodup Hfiles r.
  destruct (sweep_complete env _ w f Hf Hnodup Hfiles) as [Hok Hlook].
  split; [by eapply remove_old_updates_ok|].
  unfold r. rewrite remove_old_updates_files. split.
  - intros name Hin Hneq. rewrite Hlook, Hneq.
    rewrite bool_decide_eq_true_2; [done|]. by apply list_elem_of_fmap_2.
  - intros path Hpath. rewrite Hlook. destruct Hpath as [Hnot| ->].
    + by rewrite bool_decide_eq_false_2.
    + by rewrite andb_false_r.
Qed.

End startup_more.

Lemma saved_state_survives_restart_witness :
  let env := sample_env no_update no_mirror in
  let w := sample_world pending_state ∅ in
  state (initialize env (saveState env w).2).2 !! "lastCheck"
  = pending_state !! "lastCheck".
Proof.
  intros env w.
  apply (saved_state_survives_restart env w (saveState env w).2).
  - reflexivity.
  - exists (VStr (py "feedfacefeedfacefeedfacefeedface")). vm_compute; reflexivity.
  - reflexivity.
  - rewrite !not_elem_of_cons. repeat split; try done. apply not_elem_of_nil.
Defined.

Lemma pending_survives_restart_witness :
  (getPendingUpdate
     (initialize (sample_env no_update no_mirror)
        (sample_world pending_state pending_files)).2).1
  = Ok (Some (VStr pending_file, VStr (py "2025.2"), VTuple (2025, 2, 0),
              VTuple (2025, 1, 0))).
Proof.
  destruct (pending_survives_restart (sample_env no_update no_mirror)
              (sample_world pending_state pending_files) pending_state
              pending_file (VStr (py "2025.2")) (VTuple (2025, 2, 0))
              (VTuple (2025, 1, 0))) as [_ ->].
  - reflexivity.
  - unfold installable. split; [vm_compute; reflexivity|].
    split; [by vm_compute|]. split; [exists launcher_bytes; vm_compute; reflexivity|].
    split; [vm_compute; reflexivity|]. split; vm_compute; reflexivity.
  - vm_compute; reflexivity.
  - reflexivity.
Defined.

Lemma initialize_without_state_file_witness :
  (initialize (sample_env no_update no_mirror) first_run).1 = Ok () ∧
  (initialize (with_unlistable_dir true (sample_env no_update no_mirror))
     first_run).1 = Ok () ∧
  (initialize (with_unlistable_dir false (sample_env no_update no_mirror))
     first_run).1 = Raise UnboundLocalError.
Proof.
  split_and!.
  - destruct (initialize_without_state_file (sample_env no_update no_mirror)
                first_run) as (Hok & _); [reflexivity|].
    apply Hok. left. reflexivity.
  - destruct (initialize_without_state_file
                (with_unlistable_dir true (sample_env no_update no_mirror))
                first_run) as (Hok & _); [reflexivity|].
    apply Hok. right. reflexivity.
  - destruct (initialize_without_state_file
                (with_unlistable_dir false (sample_env no_update no_mirror))
                first_run) as (_ & Hraise & _); [reflexivity|].
    apply Hraise; reflexivity.
Defined.

Lemma sweep_never_removes_pending_witness :
  let env := with_listdir [py "nvda_update_old.exe"; py "nvda_update_x.exe"]
               (sample_env no_update no_mirror) in
  files (remove_old_updates env (sample_world pending_state two_updates)).2
  !! pending_file
  = Some launcher_bytes.
Proof.
  intros env.
  destruct (sweep_never_removes_pending env
              (sample_world pending_state two_updates) pending_file)
    as (_ & -> & _).
  - vm_compute; reflexivity.
  - vm_compute; reflexivity.
Defined.

Lemma sweep_removes_all_but_pending_witness :
  let env := with_listdir [py "nvda_update_old.exe"; py "nvda_update_x.exe"]
               (sample_env no_update no_mirror) in
  files (remove_old_updates env (sample_world pending_state two_updates)).2
  !! old_file
  = None.
Proof.
  intros env.
  destruct (sweep_removes_all_but_pending env
              (sample_world pending_state two_updates) (VStr pending_file))
    as (_ & Hgone & _).
  - vm_compute; reflexivity.
  - apply (bool_decide_unpack _). vm_compute. exact I.
  - apply Forall_forall. apply (bool_decide_unpack _). vm_compute. exact I.
  - apply (Hgone (py "nvda_update_old.exe")).
    + apply (bool_decide_unpack _). vm_compute. exact I.
    + vm_compute; reflexivity.
Defined.

(** ** The downloader: success, cancellation, and what is written *)

Section downloader_more.
Import UpdateDownloader.

#[local] Arguments download_loop : simpl never.

(** A mirror that answers 200, declares [size] bytes and has them, with the
    expected digest when one is given, delivers, and what it delivers are the
    declared bytes. *)
Lemma delivers_good (env : environment) (self : t) (url : str) (rem : remote)
    (size : nat) :
  urlopen env url = Ok rem → code rem = 200 → content_length rem = Some size →
  (size ≤ length (body rem))%nat →
  (has_hash self = true →
   Some (sha1_hexdigest env (take size (body rem))) = fileHash self) →
  delivers env self url = true ∧ delivered env url = take size (body rem).
Proof.
  intros Hopen Hcode Hsize%content_length_Some Hlen Hdigest.
  unfold delivers, delivered, complete, declared_bytes. rewrite Hopen, Hsize.
  destruct (Z.leb_spec 0 (Z.of_nat size)); [|lia]. rewrite Nat2Z.id.
  split; [|done].
  rewrite (bool_decide_eq_true_2 _ Hcode). cbn [andb].
  destruct (Nat.leb_spec size (length (body rem))); [|lia]. cbn [andb].
  destruct (has_hash self); [|done]. cbn [negb orb].
  by rewrite bool_decide_eq_true_2 by (by apply Hdigest).
Qed.

(** Without a cancellation, a mirror that delivers what it declares, with
    the expected digest when one is given, makes [_download] return with the
    declared bytes in the file. *)
Lemma download_good (env : environment) (self : t) (url : str) (rem : remote)
    (size : nat) (w : world) :
  (∀ p, cancel_requested env p = false) →
  urlopen env url = Ok rem → code rem = 200 → content_length rem = Some size →
  (size ≤ length (body rem))%nat →
  (has_hash self = true →
   Some (sha1_hexdigest env (take size (body rem))) = fileHash self) →
  ∃ polls' reports,
    Forall is_report reports ∧
    _download env self url w =
    (Ok (),
     mkWorld (state w) (stateFile w)
       (<[destPath self := take size (body rem)]> (files w))
       (autoChecker w) (shuttingDown w) (ticks w) (uuids w) polls'
       (trace w ++ EvUrlopen url :: reports)).
Proof.
  intros Hcancel Hopen Hcode Hsize Hlen Hdigest.
  destruct (delivers_good env self url rem size Hopen Hcode Hsize Hlen Hdigest)
    as [Hdel Hbytes].
  destruct (download_spec env self url w)
    as (fs' & polls' & reports & r & Hdl & _ & Hrep & _ & Hquiet).
  specialize (Hquiet (λ p _, Hcancel p)). rewrite Hdel, Hbytes in Hquiet.
  destruct Hquiet as [-> ->]. by exists polls', reports.
Qed.

(** X19. A mirror that answers 200 and delivers the bytes it declares, with
    the expected digest when the descriptor gives one, is enough: with no
    cancellation, [_bg] opens that first mirror only, logs no failure, reports
    success, and leaves exactly the declared bytes at the destination, even
    when the stream holds more or would break later. *)
Theorem bg_succeeds_on_good_mirror (env : environment) (self : t)
    (url : str) (rest : list str) (rem : remote) (size : nat) (w : world) :
  (∀ p, cancel_requested env p = false) →
  urls self = url :: rest →
  urlopen env url = Ok rem → code rem = 200 → content_length rem = Some size →
  (size ≤ length (body rem))%nat →
  (has_hash self = true →
   Some (sha1_hexdigest env (take size (body rem))) = fileHash self) →
  let r := _bg env self w in
  r.1 = Ok () ∧
  files r.2 !! destPath self = Some (take size (body rem)) ∧
  ∃ reports,
    Forall is_report reports ∧
    trace r.2 = trace w ++ EvUrlopen url :: reports ++ [EvGuiExec DownloadSuccess].
Proof.
  intros Hcancel Hurls Hopen Hcode Hsize Hlen Hdigest r.
  destruct (download_good env self url rem size w
              Hcancel Hopen Hcode Hsize Hlen Hdigest)
    as (polls' & reports & Hrep & Hdl).
  assert (_bg_loop env self (urls self) w =
          (Ok (Some true),
           mkWorld (state w) (stateFile w)
             (<[destPath self := take size (body rem)]> (files w))
             (autoChecker w) (shuttingDown w) (ticks w) (uuids w) (S polls')
             (trace w ++ EvUrlopen url :: reports))) as Hloop.
  { rewrite Hurls. cbn [_bg_loop].
    unfold try_except, mbind, M_bind. rewrite Hdl. mred. by rewrite Hcancel. }
  subst r. rewrite (bg_eq env self w _ _ Hloop).
  rewrite guiExec_eq. cbn [polls]. rewrite Hcancel. cbn [fst snd trace files].
  split_and!; [done|by rewrite lookup_insert_eq|].
  exists reports. split; [done|]. by rewrite <-!app_assoc.
Qed.

(** X20. How [_bg] ends.  Either it returns having reported success and not
    the error; or it returns having reported the error and not success; or
    it reports neither, and that only after a cancellation was requested:
    then either it returns, and no file is left at the destination, or a
    report found the timer gone and [_bg] ends with the [AttributeError]. *)
Theorem bg_reports_unless_cancelled (env : environment) (self : t)
    (w : world) :
  let r := _bg env self w in
  ∃ evs,
    trace r.2 = trace w ++ evs ∧
    ((r.1 = Ok () ∧
      EvGuiExec DownloadSuccess ∈ evs ∧ (EvGuiExec DownloadError ∉ evs)) ∨
     (r.1 = Ok () ∧
      EvGuiExec DownloadError ∈ evs ∧ (EvGuiExec DownloadSuccess ∉ evs)) ∨
     ((EvGuiExec DownloadSuccess ∉ evs) ∧ (EvGuiExec DownloadError ∉ evs) ∧
      (∃ p, cancel_requested env p = true) ∧
      ((r.1 = Ok () ∧ files r.2 !! destPath self = None) ∨
       r.1 = Raise AttributeError))).
Proof.
  intros r.
  destruct (bg_loop_spec env self (urls self) w)
    as (fs' & polls' & evs & left & Hloop & _ & Hevs & Hleft).
  subst r. rewrite (bg_eq env self w _ left Hloop).
  pose proof (loop_event_not_final evs DownloadError Hevs (or_introl eq_refl))
    as Hnoerr.
  pose proof (loop_event_not_final evs DownloadSuccess Hevs (or_intror eq_refl))
    as Hnosucc.
  assert (∀ c c' : gui_call, c ≠ c' → EvGuiExec c ∉ evs →
                             EvGuiExec c ∉ evs ++ [EvGuiExec c']) as Hother.
  { intros c c' Hne Hc [Hin|Hin%list_elem_of_singleton]%elem_of_app;
      [done|congruence]. }
  assert (∀ c : gui_call, EvGuiExec c ∈ evs ++ [EvGuiExec c]) as Hlast.
  { intros c. apply elem_of_app. right. by left. }
  destruct left as [[]|].
  - rewrite guiExec_eq. cbn [polls trace files].
    destruct (cancel_requested env polls') eqn:Hlook; cbn [fst snd trace files].
    + exists evs. split; [done|]. right. right.
      split_and!; [done|done|by exists polls'|]. by right.
    + exists (evs ++ [EvGuiExec DownloadSuccess]).
      split; [by rewrite app_assoc|]. left.
      split_and!; [done|done|by apply Hother].
  - destruct Hleft as (m & url & _ & _ & _ & Hcancel & _).
    unfold remove_quietly. mred.
    exists evs. split; [done|]. right. right.
    split_and!; [done|done|by apply Hcancel|].
    left. split; [done|]. by rewrite lookup_delete_eq.
  - rewrite guiExec_eq. cbn [polls trace files].
    destruct (cancel_requested env polls') eqn:Hlook; cbn [fst snd trace files].
    + exists evs. split; [done|]. right. right.
      split_and!; [done|done|by exists polls'|]. by right.
    + exists (evs ++ [EvGuiExec DownloadError]).
      split; [by rewrite app_assoc|]. right. left.
      split_and!; [done|done|by apply Hother].
Qed.

(** What one attempt does to the files: nothing, when the mirror does not
    answer with status 200 and a content length, and then the attempt polls
    nothing; otherwise it leaves a prefix of the body at the destination and
    touches no other file. *)
Lemma download_files (env : environment) (self : t) (url : str) (w : world) :
  let w' := (_download env self url w).2 in
  match urlopen env url with
  | Ok rem =>
    if bool_decide (code rem = 200) then
      match headers_content_length rem with
      | Some size =>
        ∃ n, (0 ≤ size → Z.of_nat n ≤ size) ∧
             files w' = <[destPath self := take n (body rem)]> (files w)
      | None => files w' = files w ∧ polls w' = polls w
      end
    else files w' = files w ∧ polls w' = polls w
  | Raise _ => files w' = files w ∧ polls w' = polls w
  end.
Proof.
  cbn zeta.
  destruct (urlopen env url) as [rem|e] eqn:Hopen; last first.
  { unfold _download. destruct w. mred. by rewrite Hopen. }
  case_bool_decide as Hcode; last first.
  { unfold _download. destruct w. mred. rewrite Hopen. mred.
    by rewrite bool_decide_eq_true_2. }
  destruct (headers_content_length rem) as [size|] eqn:Hsize; last first.
  { unfold _download. destruct w. mred. rewrite Hopen. mred.
    rewrite bool_decide_eq_false_2 by (by intros ?). rewrite Hsize. by mred. }
  rewrite (download_eq env self url w rem size Hopen Hcode Hsize).
  destruct (cancel_requested env (polls w)).
  { exists 0%nat. split; [lia|done]. }
  destruct (download_loop_run env self size (body rem) (body_broken rem)
              (mkWorld (state w) (stateFile w) (<[destPath self := []]> (files w))
                 (autoChecker w) (shuttingDown w) (ticks w) (uuids w)
                 (S (polls w))
                 (trace w ++ [EvUrlopen url; EvGuiExec (DownloadReport 0 size)])))
    as (n & polls' & reports & r & -> & Hn & _);
    [cbn; by rewrite lookup_insert_eq|].
  cbn [files polls trace state stateFile autoChecker shuttingDown ticks uuids]
    in *.
  rewrite insert_insert_eq.
  exists n. split; [done|].
  destruct r as [[| read hashed |]|e]; try done.
  destruct (Z.of_nat read <? size); [done|].
  destruct (has_hash self && _); [done|].
  rewrite guiExec_eq. by destruct (cancel_requested env _).
Qed.

(** X21. What one attempt does to the files.  It touches no file but the
    destination.  It leaves the destination alone as well unless the mirror
    answered with status 200 and a content length; and then the destination
    holds a prefix of the delivered bytes, whatever the file held before and
    however the attempt ends.  The prefix is no longer than the declared
    length when that length is not negative; a negative declared length
    bounds nothing. *)
Theorem download_writes_prefix_of_body (env : environment) (self : t)
    (url : str) (w : world) :
  let w' := (_download env self url w).2 in
  (∀ path, path ≠ destPath self → files w' !! path = files w !! path) ∧
  match urlopen env url with
  | Raise _ => files w' = files w
  | Ok rem =>
    if bool_decide (code rem = 200) then
      match headers_content_length rem with
      | Some size =>
        ∃ n, (0 ≤ size → Z.of_nat n ≤ size) ∧
             files w' !! destPath self = Some (take n (body rem))
      | None => files w' = files w
      end
    else files w' = files w
  end.
Proof.
  pose proof (download_files env self url w) as H. cbn zeta in *.
  destruct (urlopen env url) as [rem|e]; [|destruct H as [-> _]; by split].
  destruct (bool_decide (code rem = 200)); [|destruct H as [-> _]; by split].
  destruct (headers_content_length rem) as [size|];
    [|destruct H as [-> _]; by split].
  destruct H as (n & Hn & ->). split.
  - intros path Hne. by rewrite lookup_insert_ne.
  - exists n. split; [done|]. by rewrite lookup_insert_eq.
Qed.

(** Once the timer is gone, an attempt fails whatever the mirror answers, and
    reports nothing. *)
Lemma download_timer_gone (env : environment) (self : t) (url : str)
    (w : world) :
  cancel_requested env (polls w) = true →
  ∃ (e : exn) (fs' : gmap str bytes) (polls' : nat),
    _download env self url w =
    (Raise e, mkWorld (state w) (stateFile w) fs' (autoChecker w)
                (shuttingDown w) (ticks w) (uuids w) polls'
                (trace w ++ [EvUrlopen url])) ∧
    (polls w ≤ polls')%nat ∧
    (is_Some (files w !! destPath self) → is_Some (fs' !! destPath self)).
Proof.
  intros Hgone.
  destruct (urlopen env url) as [rem|e] eqn:Hopen; last first.
  { exists e, (files w), (polls w). split_and!; try done.
    unfold _download. destruct w. mred. by rewrite Hopen. }
  destruct (decide (code rem = 200)) as [Hcode|Hcode]; last first.
  { exists (RuntimeError_DownloadCode (code rem)), (files w), (polls w).
    split_and!; try done.
    unfold _download. destruct w. mred. rewrite Hopen. mred.
    by rewrite bool_decide_eq_true_2. }
  destruct (headers_content_length rem) as [size|] eqn:Hsize; last first.
  { exists (TypeError_value "content-length"), (files w), (polls w).
    split_and!; try done.
    unfold _download. destruct w. mred. rewrite Hopen. mred.
    rewrite bool_decide_eq_false_2 by (by intros ?). rewrite Hsize. by mred. }
  rewrite (download_eq env self url w rem size Hopen Hcode Hsize), Hgone.
  exists AttributeError, (<[destPath self := []]> (files w)), (S (polls w)).
  split_and!; [done|lia|]. intros _. by rewrite lookup_insert_eq.
Qed.

(** Once the timer is gone, the loop still opens every mirror left and logs
    the failure of each. *)
Lemma bg_loop_timer_gone (env : environment) (self : t) (urls : list str) :
  ∀ w : world,
    (∀ p, (polls w ≤ p)%nat → cancel_requested env p = true) →
    ∃ (fs' : gmap str bytes) (polls' : nat),
      _bg_loop env self urls w =
      (Ok None,
       mkWorld (state w) (stateFile w) fs' (autoChecker w) (shuttingDown w)
         (ticks w) (uuids w) polls'
         (trace w ++ flat_map (λ url, [EvUrlopen url;
                                       EvLog "error" (download_error url)])
                              urls)) ∧
      (polls w ≤ polls')%nat ∧
      (is_Some (files w !! destPath self) → is_Some (fs' !! destPath self)).
Proof.
  induction urls as [|url urls IH]; intros w Hgone.
  { exists (files w), (polls w). cbn. rewrite app_nil_r.
    split_and!; try done. by destruct w. }
  destruct (download_timer_gone env self url w) as (e & fs1 & polls1 & Hdl & Hp & Hf);
    [by apply Hgone|].
  cbn [_bg_loop]. unfold try_except.
  unfold mbind at 1. unfold M_bind at 1.
  unfold mbind at 1. unfold M_bind at 1. rewrite Hdl. mred.
  match goal with |- context [_bg_loop env self urls ?w1] =>
    destruct (IH w1) as (fs' & polls' & -> & Hp' & Hf')
  end.
  { cbn [polls]. intros p Hle. apply Hgone. lia. }
  cbn [state stateFile autoChecker shuttingDown ticks uuids trace polls files]
    in *.
  exists fs', polls'. split_and!; [|lia|by intros ?; apply Hf', Hf].
  by rewrite <-!app_assoc.
Qed.

Lemma opened_flat_map (urls : list str) :
  opened (flat_map (λ url, [EvUrlopen url; EvLog "error" (download_error url)])
            urls) = urls.
Proof.
  induction urls as [|url urls IH]; [done|]. exact (f_equal (cons url) IH).
Qed.

Lemma logged_errors_flat_map (urls : list str) :
  logged_errors
    (flat_map (λ url, [EvUrlopen url; EvLog "error" (download_error url)]) urls)
  = download_error <$> urls.
Proof.
  induction urls as [|url urls IH]; [done|].
  exact (f_equal (cons (download_error url)) IH).
Qed.

(** X26. The race between a cancellation and the worker.  Let a
    cancellation, once requested, stay requested, and let the attempt at the
    first mirror end with the [AttributeError] of a report that found the
    timer gone.  Then [_bg] does not stop: it opens every remaining mirror
    and logs a failure for each, reports neither success nor the error, ends
    with the [AttributeError], and leaves a file at the destination. *)
Theorem bg_goes_on_after_timer_gone (env : environment) (self : t)
    (url : str) (rest : list str) (w : world) :
  cancel_is_final env →
  urls self = url :: rest →
  (_download env self url w).1 = Raise AttributeError →
  (∃ p, (polls w ≤ p < polls (_download env self url w).2)%nat ∧
        cancel_requested env p = true) →
  let r := _bg env self w in
  r.1 = Raise AttributeError ∧
  is_Some (files r.2 !! destPath self) ∧
  ∃ evs,
    trace r.2 = trace w ++ evs ∧
    opened evs = url :: rest ∧
    logged_errors evs = download_error <$> (url :: rest) ∧
    (EvGuiExec DownloadSuccess ∉ evs) ∧ (EvGuiExec DownloadError ∉ evs).
Proof.
  intros Hfinal Hurls Hraise (p & Hp & Hcancel) r.
  pose proof (download_files env self url w) as Hfiles. cbn zeta in Hfiles.
  destruct (download_spec env self url w)
    as (fs1 & polls1 & reports & r1 & Hdl & Hpolls & Hrep & _).
  rewrite Hdl in Hraise, Hp, Hfiles. cbn [fst snd polls files] in *. subst r1.
  assert (is_Some (fs1 !! destPath self)) as Hfile.
  { destruct (urlopen env url) as [rem|]; [|lia].
    destruct (bool_decide (code rem = 200)); [|lia].
    destruct (headers_content_length rem); [|lia].
    destruct Hfiles as (n & _ & ->). by rewrite lookup_insert_eq. }
  destruct (bg_loop_timer_gone env self rest
              (mkWorld (state w) (stateFile w) fs1 (autoChecker w)
                 (shuttingDown w) (ticks w) (uuids w) polls1
                 ((trace w ++ EvUrlopen url :: reports)
                  ++ [EvLog "error" (download_error url)])))
    as (fs' & polls' & Hrest & Hpolls' & Hfile').
  { cbn [polls]. intros q Hq. apply (Hfinal p q); [lia|done]. }
  cbn [state stateFile autoChecker shuttingDown ticks uuids trace polls files]
    in *.
  assert (_bg_loop env self (urls self) w =
          (Ok None,
           mkWorld (state w) (stateFile w) fs' (autoChecker w)
             (shuttingDown w) (ticks w) (uuids w) polls'
             (((trace w ++ EvUrlopen url :: reports)
               ++ [EvLog "error" (download_error url)])
              ++ flat_map (λ url, [EvUrlopen url;
                                   EvLog "error" (download_error url)]) rest)))
    as Hloop.
  { rewrite Hurls. cbn [_bg_loop]. unfold try_except.
    unfold mbind at 1. unfold M_bind at 1.
    unfold mbind at 1. unfold M_bind at 1. rewrite Hdl. mred. exact Hrest. }
  subst r. rewrite (bg_eq env self w _ None Hloop), guiExec_eq. cbn [polls].
  rewrite (Hfinal p polls') by (lia || done). cbn [fst snd trace files].
  split_and!; [done|by apply Hfile'|].
  destruct (reports_loop_events reports Hrep) as (Hrep' & Hopened & Hlogged).
  exists (EvUrlopen url :: reports
          ++ [EvLog "error" (download_error url)]
          ++ flat_map (λ url, [EvUrlopen url;
                               EvLog "error" (download_error url)]) rest).
  split; [by rewrite <-!app_assoc|].
  assert (Forall loop_event
            (flat_map (λ url, [EvUrlopen url; EvLog "error" (download_error url)])
               rest)) as Hrestev.
  { clear. induction rest as [|u rest IH]; [done|]. cbn.
    constructor; [right; left; by eexists|].
    constructor; [right; right; by eexists|done]. }
  assert (Forall loop_event
            (EvUrlopen url :: reports
             ++ [EvLog "error" (download_error url)]
             ++ flat_map (λ url, [EvUrlopen url;
                                  EvLog "error" (download_error url)]) rest))
    as Hall.
  { constructor; [right; left; by eexists|].
    apply Forall_app. split; [done|].
    constructor; [right; right; by eexists|done]. }
  split_and!.
  - by rewrite opened_cons_open, !opened_app, Hopened, opened_flat_map.
  - rewrite logged_errors_cons_open, !logged_errors_app, Hlogged,
      logged_errors_flat_map. done.
  - by apply loop_event_not_final; [|right].
  - by apply loop_event_not_final; [|left].
Qed.

(** X27. A negative content length.  Let the mirror answer with status 200
    and declare a negative length, let its stream end without an error, and
    let no cancellation be requested.  Then the length bounds nothing: the
    attempt writes the whole body to the destination, "Content too short" is
    not raised, the digest is taken over the whole body, and with the
    expected digest, or none given, the attempt returns. *)
Theorem download_negative_length (env : environment) (self : t) (url : str)
    (rem : remote) (size : Z) (w : world) :
  (∀ p, cancel_requested env p = false) →
  urlopen env url = Ok rem → code rem = 200 →
  headers_content_length rem = Some size → size < 0 →
  body_broken rem = false →
  let r := _download env self url w in
  files r.2 !! destPath self = Some (body rem) ∧
  r.1 ≠ Raise RuntimeError_ContentTooShort ∧
  (r.1 = Ok () ↔
   (has_hash self = true →
    Some (sha1_hexdigest env (body rem)) = fileHash self)).
Proof.
  intros Hcancel Hopen Hcode Hsize Hneg Hbroken r. subst r.
  rewrite (download_eq env self url w rem size Hopen Hcode Hsize), Hcancel.
  destruct (download_loop_run env self size (body rem) (body_broken rem)
              (mkWorld (state w) (stateFile w) (<[destPath self := []]> (files w))
                 (autoChecker w) (shuttingDown w) (ticks w) (uuids w)
                 (S (polls w))
                 (trace w ++ [EvUrlopen url; EvGuiExec (DownloadReport 0 size)])))
    as (n & polls' & reports & r & -> & Hn & Hns & Hpolls & Hrep & Hr);
    [cbn; by rewrite lookup_insert_eq|].
  cbn [files polls trace state stateFile autoChecker shuttingDown ticks uuids]
    in *.
  rewrite insert_insert_eq.
  destruct r as [[| read hashed |]|e].
  - destruct Hr as (p & _ & Hp). by rewrite Hcancel in Hp.
  - destruct Hr as (-> & -> & [Hend|[-> _]] & _); [lia|].
    rewrite firstn_all.
    destruct (Z.ltb_spec (Z.of_nat (length (body rem))) size); [lia|].
    destruct (has_hash self) eqn:Hhash; cbn [andb].
    + case_bool_decide as Hdigest; cbn [negb].
      * rewrite guiExec_eq. cbn [polls]. rewrite Hcancel. cbn [fst snd files].
        split_and!; [by rewrite lookup_insert_eq|done|done].
      * cbn [fst snd files].
        split_and!; [by rewrite lookup_insert_eq|done|].
        split; [done|]. intros H'. by destruct Hdigest; apply H'.
    + rewrite guiExec_eq. cbn [polls]. rewrite Hcancel. cbn [fst snd files].
      split_and!; [by rewrite lookup_insert_eq|done|done].
  - done.
  - destruct Hr as [(_ & Hr & _)|(_ & p & _ & Hp)].
    + by rewrite Hbroken in Hr.
    + by rewrite Hcancel in Hp.
Qed.

End downloader_more.

Lemma bg_succeeds_on_good_mirror_witness :
  let env := sample_env no_update three_mirrors in
  let self := sample_downloader [mirror_C; mirror_A] in
  let r := UpdateDownloader._bg env self (sample_world pending_state ∅) in
  r.1 = Ok () ∧
  files r.2 !! UpdateDownloader.destPath self = Some launcher_bytes.
Proof.
  intros env self r.
  destruct (bg_succeeds_on_good_mirror env self mirror_C [mirror_A]
              (sample_remote launcher_bytes 4) 4 (sample_world pending_state ∅))
    as (Hok & Hfile & _).
  - reflexivity.
  - reflexivity.
  - reflexivity.
  - reflexivity.
  - reflexivity.
  - cbn. lia.
  - intros _. vm_compute; reflexivity.
  - by split.
Defined.

Lemma bg_goes_on_after_timer_gone_witness :
  let env := cancelled_at 3 (sample_env no_update three_mirrors) in
  let self := sample_downloader [mirror_C; mirror_A; mirror_B] in
  let r := UpdateDownloader._bg env self (sample_world pending_state ∅) in
  r.1 = Raise AttributeError ∧
  is_Some (files r.2 !! UpdateDownloader.destPath self) ∧
  opened (trace r.2) = [mirror_C; mirror_A; mirror_B].
Proof.
  intros env self r.
  destruct (bg_goes_on_after_timer_gone env self mirror_C [mirror_A; mirror_B]
              (sample_world pending_state ∅))
    as (Hraise & Hfile & evs & Htrace & Hopened & _).
  - intros i j Hij Hi. apply Nat.leb_le. apply Nat.leb_le in Hi. lia.
  - reflexivity.
  - vm_compute. reflexivity.
  - exists 3%nat. split; [vm_compute; lia|reflexivity].
  - fold r in Htrace. cbn [trace sample_world app] in Htrace.
    rewrite <-Htrace in Hopened. by split_and!.
Defined.

Lemma download_negative_length_witness :
  let env := sample_env no_update unsized_mirror in
  let self := sample_downloader [mirror_A] in
  let r := UpdateDownloader._download env self mirror_A
             (sample_world pending_state ∅) in
  r.1 = Ok () ∧
  files r.2 !! UpdateDownloader.destPath self = Some launcher_bytes.
Proof.
  intros env self r.
  destruct (download_negative_length env self mirror_A unsized_remote (-1)
              (sample_world pending_state ∅))
    as (Hfile & _ & Hok); try reflexivity.
  split; [|exact Hfile].
  apply Hok. intros _. vm_compute. reflexivity.
Defined.

(** ** The mirror list and the command line *)

Section mirror_list.
Import UpdateDownloader.

Lemma split_spaces_nonempty (s : str) : split_spaces s ≠ [].
Proof.
  destruct s as [|c s]; [done|]. cbn.
  destruct (N.eqb c 32); [done|]. by destruct (split_spaces s).
Qed.

Lemma split_spaces_no_space (s : str) : Forall (λ u, 32%N ∉ u) (split_spaces s).
Proof.
  induction s as [|c s IH]; cbn.
  - constructor; [apply not_elem_of_nil|done].
  - destruct (N.eqb_spec c 32) as [->|Hc].
    + constructor; [apply not_elem_of_nil|done].
    + destruct (split_spaces s) as [|u us].
      * constructor; [|done]. rewrite not_elem_of_cons. split; [done|].
        apply not_elem_of_nil.
      * inversion IH as [|? ? Hu Hus]; subst. constructor; [|done].
        rewrite not_elem_of_cons. split; [done|done].
Qed.

Lemma join_spaces_cons (part : str) (parts : list str) :
  parts ≠ [] → join_spaces (part :: parts) = part ++ [32%N] ++ join_spaces parts.
Proof. by destruct parts. Qed.

Lemma join_split_spaces (s : str) : join_spaces (split_spaces s) = s.
Proof.
  induction s as [|c s IH]; [done|]. cbn [split_spaces].
  pose proof (split_spaces_nonempty s) as Hne.
  destruct (N.eqb_spec c 32) as [->|Hc].
  - rewrite join_spaces_cons by done. by rewrite IH.
  - destruct (split_spaces s) as [|u us]; [done|].
    destruct us as [|u' us].
    + cbn in IH |- *. by rewrite IH.
    + rewrite join_spaces_cons in IH |- * by done. by rewrite <- IH.
Qed.

Lemma split_spaces_app (part s : str) :
  32%N ∉ part → split_spaces (part ++ 32%N :: s) = part :: split_spaces s.
Proof.
  induction part as [|c part IH]; intros Hno; [done|].
  apply not_elem_of_cons in Hno as [Hc Hno]. cbn.
  destruct (N.eqb_spec c 32) as [->|_]; [done|]. by rewrite IH.
Qed.

Lemma split_spaces_part (part : str) : 32%N ∉ part → split_spaces part = [part].
Proof.
  induction part as [|c part IH]; intros Hno; [done|].
  apply not_elem_of_cons in Hno as [Hc Hno]. cbn.
  destruct (N.eqb_spec c 32) as [->|_]; [done|]. by rewrite IH.
Qed.

Lemma split_join_spaces (parts : list str) :
  parts ≠ [] → Forall (λ u, 32%N ∉ u) parts →
  split_spaces (join_spaces parts) = parts.
Proof.
  intros Hne Hno. induction Hno as [|part parts Hpart Hparts IH]; [done|].
  destruct parts as [|part' parts].
  - cbn. by apply split_spaces_part.
  - rewrite join_spaces_cons by done. cbn [app].
    rewrite split_spaces_app by done. by rewrite IH.
Qed.

(** X22. The mirror list of a downloader is the launcher URL of the
    descriptor cut at its spaces: it is never empty, no mirror holds a space,
    joining the mirrors with single spaces gives the launcher URL back, and it
    is the only such list.  (So an empty launcher URL gives one empty
    mirror, and two spaces in a row give an empty mirror between them.) *)
Theorem init_urls_split_launcherUrl (updateInfo : UpdateInfo.t) (destPath : str) :
  let self := __init__ updateInfo destPath in
  urls self ≠ [] ∧
  Forall (λ u, 32%N ∉ u) (urls self) ∧
  join_spaces (urls self) = UpdateInfo.launcherUrl updateInfo ∧
  (∀ parts, parts ≠ [] → Forall (λ u, 32%N ∉ u) parts →
            join_spaces parts = UpdateInfo.launcherUrl updateInfo →
            urls self = parts) ∧
  fileHash self = UpdateInfo.launcherHash updateInfo.
Proof.
  cbn. split; [apply split_spaces_nonempty|].
  split; [apply split_spaces_no_space|].
  split; [apply join_split_spaces|]. split; [|done].
  intros parts Hne Hno <-. by apply split_join_spaces.
Qed.

End mirror_list.

Section command_line.

Lemma replicate_S_app {A} (n : nat) (x : A) (l : list A) :
  replicate (S n) x ++ l = replicate n x ++ x :: l.
Proof. induction n as [|n IH]; [done|]. cbn in IH |- *. by rewrite IH. Qed.

(** The inner loop of [list2cmdline] on an argument without double quote:
    the text, with the backslashes still held back, is the backslashes held
    back before followed by the argument. *)
Lemma list2cmdline_arg_no_quote (arg : str) (bs_buf : nat) :
  34%N ∉ arg →
  (list2cmdline_arg arg bs_buf).1
  ++ replicate (list2cmdline_arg arg bs_buf).2 92%N
  = replicate bs_buf 92%N ++ arg.
Proof.
  revert bs_buf. induction arg as [|c arg IH]; intros bs_buf Hno.
  { cbn. by rewrite app_nil_r. }
  apply not_elem_of_cons in Hno as [Hc Hno]. cbn [list2cmdline_arg].
  destruct (N.eqb_spec c 92) as [->|Hbs].
  - rewrite IH by done. apply replicate_S_app.
  - destruct (N.eqb_spec c 34) as [->|_]; [done|].
    specialize (IH 0%nat Hno).
    destruct (list2cmdline_arg arg 0) as [out n]. cbn in IH |- *.
    by rewrite <- app_assoc, <- app_comm_cons, IH.
Qed.

(** No backslash is held back at the end of an argument that does not end in
    one. *)
Lemma list2cmdline_arg_no_trailing (arg : str) (bs_buf : nat) :
  arg ≠ [] → last arg ≠ Some 92%N → (list2cmdline_arg arg bs_buf).2 = 0%nat.
Proof.
  revert bs_buf. induction arg as [|c arg IH]; intros bs_buf Hne Hlast; [done|].
  cbn [list2cmdline_arg].
  destruct arg as [|c' arg].
  - cbn in Hlast |- *. destruct (N.eqb_spec c 92) as [->|_]; [done|].
    by destruct (N.eqb c 34).
  - assert (last (c' :: arg) ≠ Some 92%N) as Hlast' by done.
    destruct (N.eqb c 92); [by apply IH|].
    specialize (IH 0%nat ltac:(done) Hlast').
    destruct (N.eqb c 34);
      by destruct (list2cmdline_arg (c' :: arg) 0) as [out n].
Qed.

Lemma list2cmdline_one_plain (arg : str) :
  34%N ∉ arg → last arg ≠ Some 92%N →
  list2cmdline_one arg = quoted_if_needed arg.
Proof.
  intros Hno Hlast. unfold list2cmdline_one, quoted_if_needed.
  pose proof (list2cmdline_arg_no_quote arg 0 Hno) as Htext.
  destruct arg as [|c arg].
  { by cbn. }
  pose proof (list2cmdline_arg_no_trailing (c :: arg) 0 ltac:(done) Hlast) as Hn.
  destruct (list2cmdline_arg (c :: arg) 0) as [out n]. cbn in Htext, Hn.
  subst n. cbn [replicate] in Htext |- *. rewrite app_nil_r in Htext. subst out.
  destruct (_ || _ || _); cbn [app]; by rewrite ?app_nil_r.
Qed.

(** X23. The command line of an installed copy.  When the configuration
    directory holds no double quote and does not end in a backslash, the
    parameters are [--install -m], then [--disable-addons] when add-ons are
    disabled, then [--config-path] and the directory, separated by single
    spaces; the directory stands between double quotes exactly when it holds a
    space or a tab or is empty. *)
Theorem generate_updateParameters_installed (env : environment) :
  isInstalledCopy env = true →
  34%N ∉ configDir env →
  last (configDir env) ≠ Some 92%N →
  _generate_updateParameters env =
  py "--install -m "
  ++ (if disableAddons env then py "--disable-addons " else [])
  ++ py "--config-path " ++ quoted_if_needed (configDir env).
Proof.
  intros Hinst Hno Hlast. unfold _generate_updateParameters, executeParams.
  rewrite Hinst.
  pose proof (list2cmdline_one_plain (configDir env) Hno Hlast) as Hdir.
  destruct (disableAddons env); cbn [app list2cmdline]; rewrite Hdir;
    reflexivity.
Qed.

End command_line.

Lemma generate_updateParameters_installed_witness :
  _generate_updateParameters (sample_env no_update no_mirror)
  = py "--install -m --config-path C:\Users\u\AppData\Roaming\nvda".
Proof.
  rewrite generate_updateParameters_installed.
  - vm_compute; reflexivity.
  - reflexivity.
  - apply (bool_decide_unpack _). vm_compute. exact I.
  - vm_compute. discriminate.
Defined.

(** ** Line ends, and the delay as a function of the time *)

Section line_ends.
Import UpdateInfo.

Lemma splitlines_to_crlf (s : str) :
  13%N ∉ s → splitlines (to_crlf s) = splitlines s.
Proof.
  induction s as [|c s IH]; intros Hno; [done|].
  apply not_elem_of_cons in Hno as [Hc Hno]. specialize (IH Hno).
  cbn [to_crlf]. destruct (N.eqb_spec c 10) as [->|Hlf].
  - cbn. by rewrite IH.
  - cbn [splitlines]. rewrite IH.
    destruct (N.eqb_spec c 13) as [->|_]; [done|]. done.
Qed.

(** X24. A response whose lines end in carriage return and line feed is
    parsed as the same response with plain line feeds: the result, descriptor
    or error, is the same. *)
Theorem parseUpdateCheckResponse_crlf (data : str) :
  13%N ∉ data →
  parseUpdateCheckResponse (to_crlf data) = parseUpdateCheckResponse data.
Proof.
  intros Hno. unfold parseUpdateCheckResponse. by rewrite splitlines_to_crlf.
Qed.

End line_ends.

Section delay_facts.

(** X25. The later the checker is created, the sooner its first check: the
    delay never grows with the time, and it is zero exactly when
    [CHECK_INTERVAL] seconds or more have passed since the last check. *)
Theorem secsTillNext_antitone (now now' lastCheck : Q) :
  ((now <= now')%Q → secsTillNext now' lastCheck ≤ secsTillNext now lastCheck) ∧
  (secsTillNext now lastCheck = 0 ↔
   (inject_Z CHECK_INTERVAL <= now - lastCheck)%Q).
Proof.
  rewrite !secsTillNext_floor. split.
  - intros Hle. apply Z.sub_le_mono_l, Qfloor_resp_le.
    apply Q.min_le_compat_r, Q.max_le_compat_r.
    apply Qplus_le_l. exact Hle.
  - destruct (elapsed_bounds now lastCheck) as [Hlo Hhi].
    set (x := Qmin (Qmax (now - lastCheck) 0) (inject_Z CHECK_INTERVAL)) in *.
    assert (0 < inject_Z CHECK_INTERVAL)%Q as Hpos by done.
    split.
    + intros Hzero.
      assert (Qfloor x = CHECK_INTERVAL) as Hfl by lia.
      pose proof (Qfloor_le x) as Hx. rewrite Hfl in Hx.
      unfold x in Hx.
      destruct (Q.min_spec (Qmax (now - lastCheck) 0) (inject_Z CHECK_INTERVAL))
        as [[Hlt Hmin]|[Hge Hmin]].
      * rewrite Hmin in Hx. exfalso. by apply (Qlt_not_le _ _ Hlt).
      * destruct (Q.max_spec (now - lastCheck) 0) as [[_ Hmax]|[_ Hmax]].
        -- rewrite Hmax in Hge. exfalso. by apply (Qlt_not_le _ _ Hpos).
        -- by rewrite Hmax in Hge.
    + intros Hge.
      assert (x == inject_Z CHECK_INTERVAL)%Q as Hx.
      { unfold x. apply Q.min_r. eapply Qle_trans; [exact Hge|].
        apply Q.le_max_l. }
      rewrite Hx, Qfloor_Z. lia.
Qed.

End delay_facts.

Lemma parseUpdateCheckResponse_crlf_witness :
  UpdateInfo.parseUpdateCheckResponse (to_crlf sample_response_lf)
  = UpdateInfo.parseUpdateCheckResponse sample_response_lf.
Proof.
  apply parseUpdateCheckResponse_crlf.
  apply (bool_decide_unpack _). vm_compute. exact I.
Defined.
